(** * Simulation-and-feedback engine of the restocking agent

    A shallow embedding of the projected-ROI calculator
    ([enhanced_roi_calculator.py]), the enhanced business simulator
    ([enhanced_business_env.py]), the outcome tracker
    ([enhanced_outcome_tracking.py]), the retraining trigger and the
    ranking of recommendations ([enhanced_rl_training.py]), the clean-up
    of old outcomes ([enhanced_integration_manager.py]) and the curriculum
    stages ([enhanced_training.py]).

    Conventions of the embedding:
    - Python [float] values are idealised as rationals ([Q]); statements
      about them use [Qeq] and the order of [Q].
    - Python [int] values are [Z]; [int(x)] truncates towards zero.
    - [datetime] values are [Z] seconds; [timedelta.days] is the floor of
      a difference divided by 86400.
    - every value drawn from [random] / [np.random] is an explicit input
      of the function that draws it (the value the call returned).
    - a raised exception is [None]. *)

From Stdlib Require Import ZArith QArith Qround Qabs Qminmax Lqa Lia List String.
From stdpp Require Import gmap strings list.

Local Open Scope Z_scope.
Local Open Scope Q_scope.

(** ** Python numerics *)

Module Py.

Definition Qltb (x y : Q) : bool := negb (Qle_bool y x).

(** [min(a, b)] keeps its first argument unless the second is strictly
    smaller; [max(a, b)] unless the second is strictly larger. *)
Definition min (a b : Q) : Q := if Qltb b a then b else a.
Definition max (a b : Q) : Q := if Qltb a b then b else a.
Definition max3 (a b c : Q) : Q := max (max a b) c.

Definition abs (x : Q) : Q := if Qltb x 0 then - x else x.

(** [int(x)] on a float: truncation towards zero. *)
Definition int (x : Q) : Z := Z.quot (Qnum x) (Z.pos (Qden x)).

Definition float (z : Z) : Q := inject_Z z.

Definition sum (l : list Q) : Q := fold_left Qplus l 0.

(** [np.mean] of a non-empty list. *)
Definition mean (l : list Q) : Q := sum l / inject_Z (Z.of_nat (length l)).

(** [(t1 - t0).days] *)
Definition days_between (t1 t0 : Z) : Z := ((t1 - t0) / 86400)%Z.

End Py.

(** ** Projected-ROI calculator *)

Module Roi.

Inductive SeasonType := SPRING | SUMMER | FALL | WINTER.

Module ProductMetrics.
Record t := mk {
  product_id : string;
  product_name : string;
  category : string;
  cost_per_unit : Q;
  selling_price : Q;
  unit_profit_margin : Q;
  avg_daily_sales : Q;
  sales_velocity_trend : Q;
  seasonal_factors : SeasonType -> option Q;
  current_inventory : Z;
  reorder_point : Z;
  lead_time_days : Z;
  historical_sell_through_rate : Q;
  stockout_probability : Q;
  demand_volatility : Q;
  last_updated : Z
}.
End ProductMetrics.
Abbreviation ProductMetrics := ProductMetrics.t.

Module ROICalculationResult.
Record t := mk {
  product_id : string;
  restock_quantity : Z;
  total_restock_cost : Q;
  cost_per_unit : Q;
  projected_units_sold : Z;
  expected_revenue : Q;
  selling_price_per_unit : Q;
  expected_profit : Q;
  projected_roi : Q;
  sell_through_rate : Q;
  stockout_probability : Q;
  confidence_score : Q;
  time_to_stockout_days : Q;
  calculation_factors : list (string * Q);
  calculated_at : Z
}.
End ROICalculationResult.
Abbreviation ROICalculationResult := ROICalculationResult.t.

(** The calculator object: [self.product_metrics] and
    [self.market_conditions]. *)
Record EnhancedROICalculator := {
  product_metrics : gmap string ProductMetrics;
  market_conditions : gmap string Q
}.

(** What one call reads from the outside world: the clock and the
    values returned by the random generator. *)
Record MockDraws := {
  draw_category : string;
  draw_cost_per_unit : Q;
  draw_markup_factor : Q;
  draw_sales_noise : Q;
  draw_spring : Q;
  draw_summer : Q;
  draw_fall : Q;
  draw_winter : Q;
  draw_trend : Q;
  draw_inventory : Z;
  draw_lead_time : Z;
  draw_sell_through : Q;
  draw_stockout : Q;
  draw_volatility : Q
}.

Record World := {
  now : Z;
  current_month : Z;
  mock_draws : MockDraws;
  volatility_noise : Q
}.

Definition base_sales (category : string) : Q :=
  if String.eqb category "Electronics" then 12
  else if String.eqb category "Home & Garden" then 8
  else if String.eqb category "Health & Beauty" then 15
  else if String.eqb category "Sports" then 6
  else if String.eqb category "Kitchen" then 10
  else 10.

Definition _create_mock_product_metrics (product_id : string) (w : World)
  : ProductMetrics :=
  let d := mock_draws w in
  let category := draw_category d in
  let cost_per_unit := draw_cost_per_unit d in
  let markup_factor := draw_markup_factor d in
  let selling_price := cost_per_unit * markup_factor in
  let avg_daily_sales := Py.max 1 (base_sales category + draw_sales_noise d) in
  let seasonal_factors := fun s =>
    Some match s with
         | SPRING => draw_spring d
         | SUMMER => draw_summer d
         | FALL => draw_fall d
         | WINTER => draw_winter d
         end in
  ProductMetrics.mk
    product_id
    ("Product " ++ product_id)%string
    category
    cost_per_unit
    selling_price
    (selling_price - cost_per_unit)
    avg_daily_sales
    (draw_trend d)
    seasonal_factors
    (draw_inventory d)
    (Py.int (avg_daily_sales * 7))
    (draw_lead_time d)
    (draw_sell_through d)
    (draw_stockout d)
    (draw_volatility d)
    (now w).

Definition _get_product_metrics (self : EnhancedROICalculator)
    (product_id : string) (w : World)
  : ProductMetrics * EnhancedROICalculator :=
  match product_metrics self !! product_id with
  | Some pm => (pm, self)
  | None =>
      let pm := _create_mock_product_metrics product_id w in
      (pm, {| product_metrics := <[product_id := pm]> (product_metrics self);
              market_conditions := market_conditions self |})
  end.

Definition _get_seasonal_factor (pm : ProductMetrics) (w : World) : Q :=
  let m := current_month w in
  let season :=
    if ((m =? 3) || (m =? 4) || (m =? 5))%Z then SPRING
    else if ((m =? 6) || (m =? 7) || (m =? 8))%Z then SUMMER
    else if ((m =? 9) || (m =? 10) || (m =? 11))%Z then FALL
    else WINTER in
  match ProductMetrics.seasonal_factors pm season with
  | Some f => f
  | None => 1
  end.

(** [None] is an exception: the [KeyError] of a market-conditions file
    without the ["overall_demand_multiplier"] key, or the [ValueError] of
    [np.random.normal(0, demand_volatility)] on a negative scale;
    [volatility_noise w] is the value that call returns. *)
Definition _calculate_projected_demand (self : EnhancedROICalculator)
    (pm : ProductMetrics) (time_window_days : Z) (w : World) : option Q :=
  let base_demand := ProductMetrics.avg_daily_sales pm * Py.float time_window_days in
  let seasonal_factor := _get_seasonal_factor pm w in
  match market_conditions self !! "overall_demand_multiplier"%string with
  | None => None
  | Some market_factor =>
      let trend_factor := 1 + ProductMetrics.sales_velocity_trend pm * (1 # 10) in
      if Py.Qltb (ProductMetrics.demand_volatility pm) 0 then None else
      let volatility_factor := 1 + volatility_noise w in
      let projected_demand :=
        base_demand * seasonal_factor * market_factor * trend_factor
        * volatility_factor in
      Some (Py.max 0 projected_demand)
  end.

Definition _calculate_sell_through_rate (pm : ProductMetrics)
    (restock_quantity : Z) (projected_demand : Q) : Q :=
  let base_rate := ProductMetrics.historical_sell_through_rate pm in
  let demand_ratio := projected_demand / Py.float (Z.max restock_quantity 1) in
  let adjusted_rate :=
    if Qle_bool 1 demand_ratio then Py.min (98 # 100) (base_rate * (11 # 10))
    else if Qle_bool (7 # 10) demand_ratio then base_rate
    else base_rate * (8 # 10) in
  let inventory_factor :=
    if (ProductMetrics.current_inventory pm <? ProductMetrics.reorder_point pm)%Z
    then 105 # 100 else 1 in
  Py.min (98 # 100) (Py.max (3 # 10) (adjusted_rate * inventory_factor)).

Section WithNormalCdf.

(** [_normal_cdf] is [0.5 * (1 + tanh(x * sqrt(2 / pi)))]; the
    transcendental part is a parameter of the embedding. *)
Variable _normal_cdf : Q -> Q.

Definition _calculate_stockout_probability (pm : ProductMetrics)
    (restock_quantity time_window_days : Z) : Q :=
  let total_inventory :=
    Py.float (ProductMetrics.current_inventory pm + restock_quantity)%Z in
  let expected_demand :=
    ProductMetrics.avg_daily_sales pm * Py.float time_window_days in
  let demand_std := expected_demand * ProductMetrics.demand_volatility pm in
  let stockout_prob :=
    if Py.Qltb 0 demand_std
    then 1 - _normal_cdf ((total_inventory - expected_demand) / demand_std)
    else if Py.Qltb total_inventory expected_demand then 1 else 0 in
  Py.min (95 # 100) (Py.max (1 # 100) stockout_prob).

Definition _calculate_confidence_score (pm : ProductMetrics)
    (projected_demand sell_through_rate : Q) (w : World) : Q :=
  let data_age_days := Py.days_between (now w) (ProductMetrics.last_updated pm) in
  let data_quality := Py.max (1 # 2) (1 - Py.float data_age_days / 30) in
  let demand_predictability := 1 - ProductMetrics.demand_volatility pm in
  let historical_accuracy := ProductMetrics.historical_sell_through_rate pm in
  let market_stability := 8 # 10 in
  let inventory_adequacy :=
    Py.min 1 (Py.float (ProductMetrics.current_inventory pm)
              / Py.max (projected_demand * (1 # 10)) 1) in
  Py.mean [data_quality; demand_predictability; historical_accuracy;
           market_stability; inventory_adequacy].

Definition _calculate_time_to_stockout (pm : ProductMetrics)
    (restock_quantity : Z) : Q :=
  let total_inventory :=
    Py.float (ProductMetrics.current_inventory pm + restock_quantity)%Z in
  if Qle_bool (ProductMetrics.avg_daily_sales pm) 0 then 999
  else total_inventory / ProductMetrics.avg_daily_sales pm.

(** [calculate_roi]; [None] when [_calculate_projected_demand] raises. *)
Definition calculate_roi (self : EnhancedROICalculator) (product_id : string)
    (restock_quantity time_window_days : Z) (w : World)
  : option (ROICalculationResult * EnhancedROICalculator) :=
  let '(pm, self') := _get_product_metrics self product_id w in
  let total_restock_cost :=
    Py.float restock_quantity * ProductMetrics.cost_per_unit pm in
  match _calculate_projected_demand self' pm time_window_days w with
  | None => None
  | Some projected_demand =>
      let sell_through_rate :=
        _calculate_sell_through_rate pm restock_quantity projected_demand in
      let projected_units_sold :=
        Z.min restock_quantity (Py.int (projected_demand * sell_through_rate)) in
      let expected_revenue :=
        Py.float projected_units_sold * ProductMetrics.selling_price pm in
      let expected_profit := expected_revenue - total_restock_cost in
      let projected_roi :=
        if Py.Qltb 0 total_restock_cost
        then (expected_profit / total_restock_cost) * 100
        else 0 in
      let stockout_probability :=
        _calculate_stockout_probability pm restock_quantity time_window_days in
      let confidence_score :=
        _calculate_confidence_score pm projected_demand sell_through_rate w in
      let time_to_stockout := _calculate_time_to_stockout pm restock_quantity in
      let calculation_factors :=
        [("projected_demand"%string, projected_demand);
         ("base_daily_sales"%string, ProductMetrics.avg_daily_sales pm);
         ("seasonal_factor"%string, _get_seasonal_factor pm w);
         ("market_factor"%string,
           default 1 (market_conditions self' !! "overall_demand_multiplier"%string));
         ("trend_factor"%string, ProductMetrics.sales_velocity_trend pm);
         ("demand_volatility"%string, ProductMetrics.demand_volatility pm);
         ("historical_sell_through"%string,
           ProductMetrics.historical_sell_through_rate pm);
         ("current_inventory"%string,
           Py.float (ProductMetrics.current_inventory pm));
         ("reorder_point"%string, Py.float (ProductMetrics.reorder_point pm))] in
      Some (ROICalculationResult.mk
              product_id restock_quantity total_restock_cost
              (ProductMetrics.cost_per_unit pm)
              projected_units_sold expected_revenue
              (ProductMetrics.selling_price pm)
              expected_profit projected_roi sell_through_rate
              stockout_probability confidence_score time_to_stockout
              calculation_factors (now w),
            self')
  end.

End WithNormalCdf.

(** The market conditions set by [__init__]. *)
Definition default_market_conditions : gmap string Q :=
  <["overall_demand_multiplier"%string := 1]>
    (<["economic_factor"%string := 1]>
      (<["seasonal_boost"%string := 1]>
        (<["competition_factor"%string := 1]> ∅))).

(** *** A worked example

    The product of the design's scenario: cost 25, price 50, ten sales a
    day, historical sell-through 0.6, neutral season and market. *)
Definition example_metrics (volatility : Q) : ProductMetrics :=
  ProductMetrics.mk "PROD-001" "Product PROD-001" "Electronics"
    25 50 25 10 0 (fun _ => Some 1) 50 70 7 (6 # 10) (1 # 10) volatility
    1700000000.

Definition example_calculator (volatility : Q) : EnhancedROICalculator :=
  {| product_metrics := {[ "PROD-001"%string := example_metrics volatility ]};
     market_conditions := default_market_conditions |}.

Definition example_draws : MockDraws :=
  {| draw_category := "Kitchen"; draw_cost_per_unit := 40;
     draw_markup_factor := 15 # 10; draw_sales_noise := 0;
     draw_spring := 1; draw_summer := 1; draw_fall := 1; draw_winter := 1;
     draw_trend := 0; draw_inventory := 100; draw_lead_time := 5;
     draw_sell_through := 6 # 10; draw_stockout := 1 # 10;
     draw_volatility := 2 # 10 |}.

Definition example_world : World :=
  {| now := 1700000000; current_month := 11; mock_draws := example_draws;
     volatility_noise := 0 |}.

(** A stand-in for the normal distribution function in the examples. *)
Definition example_cdf (x : Q) : Q := if Py.Qltb x 0 then 1 # 4 else 3 # 4.

(** The ranges the fields of a product's metrics are documented with and
    the mock metrics are drawn from. *)
Definition metrics_in_range (pm : ProductMetrics) (w : World) : Prop :=
  0 <= ProductMetrics.demand_volatility pm <= 1
  /\ 0 <= ProductMetrics.historical_sell_through_rate pm <= 1
  /\ (0 <= ProductMetrics.current_inventory pm)%Z
  /\ (ProductMetrics.last_updated pm <= now w)%Z.

(** The ranges [_create_mock_product_metrics] draws from: the category
    and its cost range, [np.random.uniform(1.2, 1.8)] for the markup,
    [np.random.randint(10, 200)] for the inventory, and so on. *)
Definition categories : list string :=
  ["Electronics"; "Home & Garden"; "Health & Beauty"; "Sports"; "Kitchen"]%string.

Definition cost_range (category : string) : Q * Q :=
  if String.eqb category "Electronics" then (25, 150)
  else if String.eqb category "Home & Garden" then (15, 80)
  else if String.eqb category "Health & Beauty" then (8, 45)
  else if String.eqb category "Sports" then (20, 120)
  else if String.eqb category "Kitchen" then (12, 90)
  else (10, 100).

Definition mock_draws_in_range (d : MockDraws) : Prop :=
  In (draw_category d) categories
  /\ fst (cost_range (draw_category d)) <= draw_cost_per_unit d
     <= snd (cost_range (draw_category d))
  /\ 12 # 10 <= draw_markup_factor d <= 18 # 10
  /\ 9 # 10 <= draw_spring d <= 12 # 10
  /\ 8 # 10 <= draw_summer d <= 13 # 10
  /\ 9 # 10 <= draw_fall d <= 11 # 10
  /\ 7 # 10 <= draw_winter d <= 14 # 10
  /\ (10 <= draw_inventory d < 200)%Z
  /\ (3 <= draw_lead_time d < 14)%Z
  /\ 45 # 100 <= draw_sell_through d <= 75 # 100
  /\ 5 # 100 <= draw_stockout d <= 25 # 100
  /\ 1 # 10 <= draw_volatility d <= 3 # 10.

End Roi.

(** ** Enhanced business simulator *)

Module Env.

Inductive MarketCondition := RECESSION | SLOW | NORMAL | GROWTH | BOOM.

Inductive SeasonType := WINTER | SPRING | SUMMER | FALL.

Record ProductInfo := {
  name : string;
  category : string;
  cost_price : Q;
  selling_price : Q;
  storage_cost_per_unit : Q;
  base_demand : Q;
  seasonality_factor : SeasonType -> Q;
  demand_elasticity : Q;
  lead_time : Z;
  supplier_reliability : Q
}.

Definition _create_product_catalog : list ProductInfo :=
  [ {| name := "Tech Pro Wireless Mouse"; category := "Electronics";
       cost_price := 25; selling_price := 4999 # 100;
       storage_cost_per_unit := 75 # 100; base_demand := 45;
       seasonality_factor := fun s =>
         match s with
         | WINTER => 13 # 10 | SPRING => 1 | SUMMER => 8 # 10 | FALL => 11 # 10
         end;
       demand_elasticity := 12 # 10; lead_time := 7;
       supplier_reliability := 95 # 100 |};
    {| name := "Organic Garden Fertilizer"; category := "Home & Garden";
       cost_price := 18; selling_price := 3499 # 100;
       storage_cost_per_unit := 12 # 10; base_demand := 30;
       seasonality_factor := fun s =>
         match s with
         | WINTER => 4 # 10 | SPRING => 18 # 10 | SUMMER => 15 # 10 | FALL => 8 # 10
         end;
       demand_elasticity := 9 # 10; lead_time := 14;
       supplier_reliability := 88 # 100 |};
    {| name := "Premium Athletic Socks"; category := "Fashion";
       cost_price := 8; selling_price := 1999 # 100;
       storage_cost_per_unit := 25 # 100; base_demand := 60;
       seasonality_factor := fun s =>
         match s with
         | WINTER => 11 # 10 | SPRING => 12 # 10 | SUMMER => 1 | FALL => 9 # 10
         end;
       demand_elasticity := 15 # 10; lead_time := 10;
       supplier_reliability := 92 # 100 |};
    {| name := "Protein Powder Vanilla"; category := "Health & Fitness";
       cost_price := 32; selling_price := 5999 # 100;
       storage_cost_per_unit := 1; base_demand := 25;
       seasonality_factor := fun s =>
         match s with
         | WINTER => 11 # 10 | SPRING => 13 # 10 | SUMMER => 1 | FALL => 8 # 10
         end;
       demand_elasticity := 11 # 10; lead_time := 12;
       supplier_reliability := 90 # 100 |};
    {| name := "Ergonomic Desk Organizer"; category := "Office";
       cost_price := 22; selling_price := 4299 # 100;
       storage_cost_per_unit := 8 # 10; base_demand := 20;
       seasonality_factor := fun s =>
         match s with
         | WINTER => 8 # 10 | SPRING => 1 | SUMMER => 9 # 10 | FALL => 13 # 10
         end;
       demand_elasticity := 1; lead_time := 8;
       supplier_reliability := 94 # 100 |} ].

Definition products : list ProductInfo := _create_product_catalog.
Definition num_products : nat := length products.
Definition max_days : Z := 90.

(** A pending order: the dict [{'quantity', 'days_remaining', 'cost'}]. *)
Module Order.
Record t := mk { quantity : Z; days_remaining : Z; cost : Q }.
(** Equality of two order dicts, as [list.remove] tests it. *)
Definition eqb (a b : t) : bool :=
  (quantity a =? quantity b)%Z && (days_remaining a =? days_remaining b)%Z
  && Qeq_bool (cost a) (cost b).
End Order.
Abbreviation Order := Order.t.

Record BusinessState := {
  inventory_levels : list Z;
  days_since_restock : list Z;
  cash_flow : Q;
  accounts_receivable : Q;
  accounts_payable : Q;
  customer_satisfaction : Q;
  supplier_relationships : list Q;
  market_condition : MarketCondition;
  season : SeasonType;
  demand_trends : list Q;
  monthly_revenue : Q;
  monthly_costs : Q;
  inventory_turnover : Q;
  pending_orders : gmap nat (list Order);
  stockout_days : list Z;
  total_profit : Q
}.

(** Assignments to one key of [self.business_state]. *)
Definition set_inventory_levels (v : list Z) (bs : BusinessState) : BusinessState :=
  {| inventory_levels := v;
     days_since_restock := days_since_restock bs;
     cash_flow := cash_flow bs;
     accounts_receivable := accounts_receivable bs;
     accounts_payable := accounts_payable bs;
     customer_satisfaction := customer_satisfaction bs;
     supplier_relationships := supplier_relationships bs;
     market_condition := market_condition bs;
     season := season bs;
     demand_trends := demand_trends bs;
     monthly_revenue := monthly_revenue bs;
     monthly_costs := monthly_costs bs;
     inventory_turnover := inventory_turnover bs;
     pending_orders := pending_orders bs;
     stockout_days := stockout_days bs;
     total_profit := total_profit bs |}.

Definition set_days_since_restock (v : list Z) (bs : BusinessState) : BusinessState :=
  {| inventory_levels := inventory_levels bs;
     days_since_restock := v;
     cash_flow := cash_flow bs;
     accounts_receivable := accounts_receivable bs;
     accounts_payable := accounts_payable bs;
     customer_satisfaction := customer_satisfaction bs;
     supplier_relationships := supplier_relationships bs;
     market_condition := market_condition bs;
     season := season bs;
     demand_trends := demand_trends bs;
     monthly_revenue := monthly_revenue bs;
     monthly_costs := monthly_costs bs;
     inventory_turnover := inventory_turnover bs;
     pending_orders := pending_orders bs;
     stockout_days := stockout_days bs;
     total_profit := total_profit bs |}.

Definition set_cash_flow (v : Q) (bs : BusinessState) : BusinessState :=
  {| inventory_levels := inventory_levels bs;
     days_since_restock := days_since_restock bs;
     cash_flow := v;
     accounts_receivable := accounts_receivable bs;
     accounts_payable := accounts_payable bs;
     customer_satisfaction := customer_satisfaction bs;
     supplier_relationships := supplier_relationships bs;
     market_condition := market_condition bs;
     season := season bs;
     demand_trends := demand_trends bs;
     monthly_revenue := monthly_revenue bs;
     monthly_costs := monthly_costs bs;
     inventory_turnover := inventory_turnover bs;
     pending_orders := pending_orders bs;
     stockout_days := stockout_days bs;
     total_profit := total_profit bs |}.

Definition set_customer_satisfaction (v : Q) (bs : BusinessState) : BusinessState :=
  {| inventory_levels := inventory_levels bs;
     days_since_restock := days_since_restock bs;
     cash_flow := cash_flow bs;
     accounts_receivable := accounts_receivable bs;
     accounts_payable := accounts_payable bs;
     customer_satisfaction := v;
     supplier_relationships := supplier_relationships bs;
     market_condition := market_condition bs;
     season := season bs;
     demand_trends := demand_trends bs;
     monthly_revenue := monthly_revenue bs;
     monthly_costs := monthly_costs bs;
     inventory_turnover := inventory_turnover bs;
     pending_orders := pending_orders bs;
     stockout_days := stockout_days bs;
     total_profit := total_profit bs |}.

Definition set_demand_trends (v : list Q) (bs : BusinessState) : BusinessState :=
  {| inventory_levels := inventory_levels bs;
     days_since_restock := days_since_restock bs;
     cash_flow := cash_flow bs;
     accounts_receivable := accounts_receivable bs;
     accounts_payable := accounts_payable bs;
     customer_satisfaction := customer_satisfaction bs;
     supplier_relationships := supplier_relationships bs;
     market_condition := market_condition bs;
     season := season bs;
     demand_trends := v;
     monthly_revenue := monthly_revenue bs;
     monthly_costs := monthly_costs bs;
     inventory_turnover := inventory_turnover bs;
     pending_orders := pending_orders bs;
     stockout_days := stockout_days bs;
     total_profit := total_profit bs |}.

Definition set_monthly_revenue (v : Q) (bs : BusinessState) : BusinessState :=
  {| inventory_levels := inventory_levels bs;
     days_since_restock := days_since_restock bs;
     cash_flow := cash_flow bs;
     accounts_receivable := accounts_receivable bs;
     accounts_payable := accounts_payable bs;
     customer_satisfaction := customer_satisfaction bs;
     supplier_relationships := supplier_relationships bs;
     market_condition := market_condition bs;
     season := season bs;
     demand_trends := demand_trends bs;
     monthly_revenue := v;
     monthly_costs := monthly_costs bs;
     inventory_turnover := inventory_turnover bs;
     pending_orders := pending_orders bs;
     stockout_days := stockout_days bs;
     total_profit := total_profit bs |}.

Definition set_monthly_costs (v : Q) (bs : BusinessState) : BusinessState :=
  {| inventory_levels := inventory_levels bs;
     days_since_restock := days_since_restock bs;
     cash_flow := cash_flow bs;
     accounts_receivable := accounts_receivable bs;
     accounts_payable := accounts_payable bs;
     customer_satisfaction := customer_satisfaction bs;
     supplier_relationships := supplier_relationships bs;
     market_condition := market_condition bs;
     season := season bs;
     demand_trends := demand_trends bs;
     monthly_revenue := monthly_revenue bs;
     monthly_costs := v;
     inventory_turnover := inventory_turnover bs;
     pending_orders := pending_orders bs;
     stockout_days := stockout_days bs;
     total_profit := total_profit bs |}.

Definition set_inventory_turnover (v : Q) (bs : BusinessState) : BusinessState :=
  {| inventory_levels := inventory_levels bs;
     days_since_restock := days_since_restock bs;
     cash_flow := cash_flow bs;
     accounts_receivable := accounts_receivable bs;
     accounts_payable := accounts_payable bs;
     customer_satisfaction := customer_satisfaction bs;
     supplier_relationships := supplier_relationships bs;
     market_condition := market_condition bs;
     season := season bs;
     demand_trends := demand_trends bs;
     monthly_revenue := monthly_revenue bs;
     monthly_costs := monthly_costs bs;
     inventory_turnover := v;
     pending_orders := pending_orders bs;
     stockout_days := stockout_days bs;
     total_profit := total_profit bs |}.

Definition set_pending_orders (v : gmap nat (list Order)) (bs : BusinessState) : BusinessState :=
  {| inventory_levels := inventory_levels bs;
     days_since_restock := days_since_restock bs;
     cash_flow := cash_flow bs;
     accounts_receivable := accounts_receivable bs;
     accounts_payable := accounts_payable bs;
     customer_satisfaction := customer_satisfaction bs;
     supplier_relationships := supplier_relationships bs;
     market_condition := market_condition bs;
     season := season bs;
     demand_trends := demand_trends bs;
     monthly_revenue := monthly_revenue bs;
     monthly_costs := monthly_costs bs;
     inventory_turnover := inventory_turnover bs;
     pending_orders := v;
     stockout_days := stockout_days bs;
     total_profit := total_profit bs |}.

Definition set_stockout_days (v : list Z) (bs : BusinessState) : BusinessState :=
  {| inventory_levels := inventory_levels bs;
     days_since_restock := days_since_restock bs;
     cash_flow := cash_flow bs;
     accounts_receivable := accounts_receivable bs;
     accounts_payable := accounts_payable bs;
     customer_satisfaction := customer_satisfaction bs;
     supplier_relationships := supplier_relationships bs;
     market_condition := market_condition bs;
     season := season bs;
     demand_trends := demand_trends bs;
     monthly_revenue := monthly_revenue bs;
     monthly_costs := monthly_costs bs;
     inventory_turnover := inventory_turnover bs;
     pending_orders := pending_orders bs;
     stockout_days := v;
     total_profit := total_profit bs |}.

Definition set_total_profit (v : Q) (bs : BusinessState) : BusinessState :=
  {| inventory_levels := inventory_levels bs;
     days_since_restock := days_since_restock bs;
     cash_flow := cash_flow bs;
     accounts_receivable := accounts_receivable bs;
     accounts_payable := accounts_payable bs;
     customer_satisfaction := customer_satisfaction bs;
     supplier_relationships := supplier_relationships bs;
     market_condition := market_condition bs;
     season := season bs;
     demand_trends := demand_trends bs;
     monthly_revenue := monthly_revenue bs;
     monthly_costs := monthly_costs bs;
     inventory_turnover := inventory_turnover bs;
     pending_orders := pending_orders bs;
     stockout_days := stockout_days bs;
     total_profit := v |}.

(** [l[i]] on the per-product lists and [pending_orders[i]]. Every list
    of a business state has [num_products] entries and the pending-order
    dict has the keys [0 .. num_products - 1] (see [_create_business_state];
    no operation changes that), so the defaults below are never read. *)
Definition zget (l : list Z) (i : nat) : Z := default 0%Z (l !! i).
Definition qget (l : list Q) (i : nat) : Q := default 0 (l !! i).
Definition orders_of (bs : BusinessState) (product_idx : nat) : list Order :=
  default [] (pending_orders bs !! product_idx).

Definition enumerate {A} (l : list A) : list (nat * A) := imap pair l.

(** *** [_process_supplier_deliveries] *)

(** [order['days_remaining'] -= 1] *)
Definition age (o : Order) : Order :=
  Order.mk (Order.quantity o) (Order.days_remaining o - 1) (Order.cost o).

Definition arrives (o : Order) : bool := (Order.days_remaining o <=? 0)%Z.

(** [orders.remove(order)]: drops the first entry equal to [order]. *)
Fixpoint list_remove (o : Order) (orders : list Order) : list Order :=
  match orders with
  | [] => []
  | x :: rest => if Order.eqb x o then rest else x :: list_remove o rest
  end.

Definition receive (product_idx : nat) (bs : BusinessState) (o : Order)
  : BusinessState :=
  set_inventory_levels
    (<[product_idx := (zget (inventory_levels bs) product_idx + Order.quantity o)%Z]>
       (inventory_levels bs)) bs.

(** The body of the loop over [product_idx]. The orders are aged in place;
    those that arrive are added to the inventory and collected, then
    removed from the list one by one. *)
Definition deliver_product (bs : BusinessState) (product_idx : nat)
  : BusinessState :=
  let orders := map age (orders_of bs product_idx) in
  let delivered_orders := List.filter arrives orders in
  let bs1 := fold_left (receive product_idx) delivered_orders bs in
  let orders' := fold_left (fun l o => list_remove o l) delivered_orders orders in
  set_pending_orders (<[product_idx := orders']> (pending_orders bs1)) bs1.

Definition _process_supplier_deliveries (bs : BusinessState) : BusinessState :=
  fold_left deliver_product (seq 0 num_products) bs.

(** *** [_execute_restock_action] *)

Definition tier_quantity (action_type : Z) : option Z :=
  if (action_type =? 1)%Z then Some 50%Z
  else if (action_type =? 2)%Z then Some 100%Z
  else if (action_type =? 3)%Z then Some 200%Z
  else None.

(** The quantity bought and its cost, given the cash at hand. *)
Definition affordable (cash : Q) (product : ProductInfo) (quantity : Z) : Z * Q :=
  let cost := Py.float quantity * cost_price product in
  if Py.Qltb cash cost then
    let quantity := Py.int (cash / cost_price product) in
    (quantity, Py.float quantity * cost_price product)
  else (quantity, cost).

(** [product_idx] is [self.products.index(product)]: the entries of the
    catalog are pairwise different, so it is the position of [product]. *)
Definition _execute_restock_action (bs : BusinessState) (product_idx : nat)
    (product : ProductInfo) (action_type : Z) : BusinessState * Q :=
  match tier_quantity action_type with
  | None => (bs, 0)
  | Some quantity =>
      let '(quantity, cost) := affordable (cash_flow bs) product quantity in
      if (0 <? quantity)%Z then
        let order := Order.mk quantity (lead_time product) cost in
        let bs1 :=
          set_pending_orders
            (<[product_idx := orders_of bs product_idx ++ [order]]>
               (pending_orders bs)) bs in
        let bs2 := set_cash_flow (cash_flow bs1 - cost) bs1 in
        let bs3 :=
          set_days_since_restock
            (<[product_idx := 0%Z]> (days_since_restock bs2)) bs2 in
        (bs3, cost)
      else (bs, cost)
  end.

(** *** [_execute_business_actions] *)

Definition boost_demand_trends (factor : Q) (bs : BusinessState) : BusinessState :=
  fold_left
    (fun b i =>
       set_demand_trends
         (<[i := qget (demand_trends b) i * factor]> (demand_trends b)) b)
    (seq 0 num_products) bs.

Definition _execute_business_actions (bs : BusinessState)
    (business_actions : list Z) : BusinessState :=
  let marketing_action := zget business_actions 0 in
  if (marketing_action =? 1)%Z then
    if Qle_bool 1000 (cash_flow bs)
    then boost_demand_trends (11 # 10) (set_cash_flow (cash_flow bs - 1000) bs)
    else bs
  else if (marketing_action =? 2)%Z then
    if Qle_bool 2500 (cash_flow bs)
    then boost_demand_trends (12 # 10) (set_cash_flow (cash_flow bs - 2500) bs)
    else bs
  else bs.

(** *** [_simulate_daily_operations] *)

Definition _get_market_factor (market_condition : MarketCondition) : Q :=
  match market_condition with
  | RECESSION => 6 # 10
  | SLOW => 8 # 10
  | NORMAL => 1
  | GROWTH => 12 # 10
  | BOOM => 15 # 10
  end.

Record DailyResults := {
  daily_revenue : Q;
  daily_costs : Q;
  daily_profit : Q;
  daily_units_sold : Z;
  stockouts : Z;
  demand_fulfillment_rate : Q
}.

(** The local variables of the loop over the products, with the state. *)
Record DayLoop := {
  loop_state : BusinessState;
  loop_revenue : Q;
  loop_costs : Q;
  loop_units_sold : Z;
  loop_stockouts : Z
}.

(** [demand_variance i] is the value of [np.random.normal(1.0, 0.15)]
    drawn for product [i]. *)
Definition daily_demand_of (demand_variance : nat -> Q) (bs : BusinessState)
    (i : nat) (product : ProductInfo) : Z :=
  let seasonal_factor := seasonality_factor product (season bs) in
  let market_factor := _get_market_factor (market_condition bs) in
  let trend_factor := qget (demand_trends bs) i in
  Z.max 0 (Py.int (base_demand product * seasonal_factor * market_factor
                   * trend_factor * demand_variance i)).

Definition simulate_product (demand_variance : nat -> Q) (acc : DayLoop)
    (ip : nat * ProductInfo) : DayLoop :=
  let '(i, product) := ip in
  let bs := loop_state acc in
  let daily_demand := daily_demand_of demand_variance bs i product in
  let current_inventory := zget (inventory_levels bs) i in
  let units_sold := Z.min daily_demand current_inventory in
  let bs1 :=
    set_inventory_levels
      (<[i := (zget (inventory_levels bs) i - units_sold)%Z]> (inventory_levels bs))
      bs in
  let product_revenue := Py.float units_sold * selling_price product in
  let storage_cost := Py.float current_inventory * storage_cost_per_unit product in
  let stockout := ((units_sold <? daily_demand) && (current_inventory =? 0))%Z in
  let bs2 :=
    if stockout then
      let b := set_stockout_days
                 (<[i := (zget (stockout_days bs1) i + 1)%Z]> (stockout_days bs1))
                 bs1 in
      set_customer_satisfaction (customer_satisfaction b * (98 # 100)) b
    else bs1 in
  let bs3 :=
    set_days_since_restock
      (<[i := (zget (days_since_restock bs2) i + 1)%Z]> (days_since_restock bs2))
      bs2 in
  {| loop_state := bs3;
     loop_revenue := loop_revenue acc + product_revenue;
     loop_costs := loop_costs acc + storage_cost;
     loop_units_sold := (loop_units_sold acc + units_sold)%Z;
     loop_stockouts := if stockout then (loop_stockouts acc + 1)%Z
                       else loop_stockouts acc |}.

Definition _simulate_daily_operations (demand_variance : nat -> Q)
    (bs : BusinessState) : BusinessState * DailyResults :=
  let acc :=
    fold_left (simulate_product demand_variance) (enumerate products)
      {| loop_state := bs; loop_revenue := 0; loop_costs := 0;
         loop_units_sold := 0; loop_stockouts := 0 |} in
  let bs1 := loop_state acc in
  let bs2 :=
    if (loop_stockouts acc =? 0)%Z
    then set_customer_satisfaction
           (Py.min 1 (customer_satisfaction bs1 * (1001 # 1000))) bs1
    else bs1 in
  (bs2,
   {| daily_revenue := loop_revenue acc;
      daily_costs := loop_costs acc;
      daily_profit := loop_revenue acc - loop_costs acc;
      daily_units_sold := loop_units_sold acc;
      stockouts := loop_stockouts acc;
      demand_fulfillment_rate :=
        Py.float (loop_units_sold acc)
        / Py.max (Py.sum (map base_demand products)) 1 |}).

(** *** [_calculate_enhanced_reward] and [_update_business_state] *)

Definition inventory_value (bs : BusinessState) : Q :=
  Py.sum (map (fun i => Py.float (zget (inventory_levels bs) i)
                        * default 0 (cost_price <$> products !! i))
              (seq 0 num_products)).

Definition _calculate_enhanced_reward (bs : BusinessState)
    (daily_results : DailyResults) (restock_costs : Q) : Q :=
  let profit_reward := daily_profit daily_results / 1000 in
  let total_inventory_value := inventory_value bs in
  let revenue_efficiency :=
    if Py.Qltb 0 total_inventory_value
    then daily_revenue daily_results / total_inventory_value else 0 in
  let inventory_penalty :=
    fold_left
      (fun penalty i =>
         let inventory_level := zget (inventory_levels bs) i in
         let penalty :=
           if (300 <? inventory_level)%Z
           then penalty + Py.float (inventory_level - 300) * (1 # 10)
           else penalty in
         if (inventory_level =? 0)%Z then penalty + 50 else penalty)
      (seq 0 num_products) 0 in
  let satisfaction_bonus := (customer_satisfaction bs - (1 # 2)) * 100 in
  let cash_flow_reward :=
    if Py.Qltb 10000 (cash_flow bs) then 10
    else if Py.Qltb (cash_flow bs) 0 then - (50) else 0 in
  let turnover_bonus :=
    fold_left
      (fun bonus i =>
         if (zget (days_since_restock bs) i <? 20)%Z then bonus + 5 else bonus)
      (seq 0 num_products) 0 in
  profit_reward + revenue_efficiency * 50 + satisfaction_bonus
  + cash_flow_reward + turnover_bonus - inventory_penalty
  - restock_costs / 1000.

Definition _update_business_state (bs : BusinessState)
    (daily_results : DailyResults) : BusinessState :=
  let bs1 := set_monthly_revenue
               (monthly_revenue bs + daily_revenue daily_results) bs in
  let bs2 := set_monthly_costs
               (monthly_costs bs1 + daily_costs daily_results) bs1 in
  let bs3 := set_total_profit
               (total_profit bs2 + daily_profit daily_results) bs2 in
  let bs4 := set_cash_flow (cash_flow bs3 + daily_profit daily_results) bs3 in
  if Py.Qltb 0 (monthly_costs bs4) then
    let avg_inventory_value := inventory_value bs4 in
    if Py.Qltb 0 avg_inventory_value
    then set_inventory_turnover (monthly_costs bs4 / avg_inventory_value) bs4
    else bs4
  else bs4.

(** *** [reset] and [step] *)

Record EnhancedBusinessEnv := {
  business_state : BusinessState;
  days_remaining : Z
}.

(** The values returned by [random] in [_create_business_state]. *)
Record InitDraws := {
  init_inventory : nat -> Z;
  init_days_since_restock : nat -> Z;
  init_cash_flow : Q;
  init_accounts_receivable : Q;
  init_accounts_payable : Q;
  init_customer_satisfaction : Q;
  init_supplier_relationships : nat -> Q;
  init_market_condition : MarketCondition;
  init_season : SeasonType;
  init_demand_trends : nat -> Q
}.

Definition _create_business_state (d : InitDraws) : BusinessState :=
  {| inventory_levels := map (init_inventory d) (seq 0 num_products);
     days_since_restock := map (init_days_since_restock d) (seq 0 num_products);
     cash_flow := init_cash_flow d;
     accounts_receivable := init_accounts_receivable d;
     accounts_payable := init_accounts_payable d;
     customer_satisfaction := init_customer_satisfaction d;
     supplier_relationships :=
       map (init_supplier_relationships d) (seq 0 num_products);
     market_condition := init_market_condition d;
     season := init_season d;
     demand_trends := map (init_demand_trends d) (seq 0 num_products);
     monthly_revenue := 0;
     monthly_costs := 0;
     inventory_turnover := 0;
     pending_orders :=
       list_to_map (map (fun i => (i, [])) (seq 0 num_products));
     stockout_days := replicate num_products 0%Z;
     total_profit := 0 |}.

Definition reset (d : InitDraws) : EnhancedBusinessEnv :=
  {| business_state := _create_business_state d; days_remaining := max_days |}.

(** The ranges [random.randint(50, 200)], [random.uniform(20000, 50000)],
    ... draw from. *)
Definition draws_in_range (d : InitDraws) : Prop :=
  (forall i, 50 <= init_inventory d i <= 200)%Z
  /\ (forall i, 0 <= init_days_since_restock d i <= 10)%Z
  /\ 20000 <= init_cash_flow d <= 50000
  /\ 15000 <= init_accounts_receivable d <= 35000
  /\ 8000 <= init_accounts_payable d <= 20000
  /\ 7 # 10 <= init_customer_satisfaction d <= 9 # 10
  /\ (forall i, 8 # 10 <= init_supplier_relationships d i <= 1)
  /\ (forall i, 8 # 10 <= init_demand_trends d i <= 12 # 10).

(** One action of [MultiDiscrete([4] * num_products + [3, 3, 3])] and the
    demand noise of the day. *)
Record StepInput := {
  action : list Z;
  demand_variance : nat -> Q
}.

Definition in_action_space (a : list Z) : bool :=
  (length a =? num_products + 3)%nat
  && forallb (fun x => (0 <=? x)%Z && (x <? 4)%Z) (take num_products a)
  && forallb (fun x => (0 <=? x)%Z && (x <? 3)%Z) (drop num_products a).

(** The body of the loop over [enumerate(self.products)] in [step]. *)
Definition restock_product (product_actions : list Z)
    (acc : BusinessState * Q) (ip : nat * ProductInfo) : BusinessState * Q :=
  let '(bs, restock_costs) := acc in
  let '(i, product) := ip in
  let action_type := zget product_actions i in
  if (0 <? action_type)%Z then
    let '(bs', restock_cost) := _execute_restock_action bs i product action_type in
    (bs', restock_costs + restock_cost)
  else (bs, restock_costs).

Record StepResult := {
  next_env : EnhancedBusinessEnv;
  reward : Q;
  terminated : bool;
  truncated : bool
}.

(** What [step] does once the deliveries are processed and the restock
    loop has reached the products [todo]. *)
Definition step_from_restock (days : Z) (inp : StepInput)
    (todo : list (nat * ProductInfo)) (acc : BusinessState * Q) : StepResult :=
  let product_actions := take num_products (action inp) in
  let business_actions := drop num_products (action inp) in
  let '(bs2, restock_costs) :=
    fold_left (restock_product product_actions) todo acc in
  let bs3 := _execute_business_actions bs2 business_actions in
  let '(bs4, daily_results) :=
    _simulate_daily_operations (demand_variance inp) bs3 in
  let reward := _calculate_enhanced_reward bs4 daily_results restock_costs in
  let bs5 := _update_business_state bs4 daily_results in
  let days := (days - 1)%Z in
  {| next_env := {| business_state := bs5; days_remaining := days |};
     reward := reward;
     terminated := (days <=? 0)%Z;
     truncated := Py.Qltb (cash_flow bs5) (- (50000)) |}.

(** [step]; [None] for an action outside the action space. The episode
    log written by [_record_action] is read by the recommendation ranker
    only and is not part of this model. *)
Definition step (env : EnhancedBusinessEnv) (inp : StepInput)
  : option StepResult :=
  if in_action_space (action inp) then
    let bs1 := _process_supplier_deliveries (business_state env) in
    Some (step_from_restock (days_remaining env) inp (enumerate products) (bs1, 0))
  else None.

(** A run of the simulator: the environment after a sequence of steps. *)
Fixpoint run (env : EnhancedBusinessEnv) (inputs : list StepInput)
  : option EnhancedBusinessEnv :=
  match inputs with
  | [] => Some env
  | inp :: rest =>
      match step env inp with
      | Some r => run (next_env r) rest
      | None => None
      end
  end.

(** *** Notions used by the statements *)

Definition inventory_nonneg (bs : BusinessState) : Prop :=
  Forall (fun level => (0 <= level)%Z) (inventory_levels bs).

(** Every order in transit is for a positive quantity. *)
Definition orders_positive (bs : BusinessState) : Prop :=
  forall i l, pending_orders bs !! i = Some l ->
              Forall (fun o => (0 < Order.quantity o)%Z) l.

(** [inventory_levels[product_idx] += quantity] *)
Definition add_inventory (product_idx : nat) (quantity : Z) (bs : BusinessState)
  : BusinessState :=
  set_inventory_levels
    (<[product_idx := (zget (inventory_levels bs) product_idx + quantity)%Z]>
       (inventory_levels bs)) bs.

(** [bs_with] is [bs_without] with one more order [o] in transit for
    product [i], between the orders [pre] and [post]; every other part of
    the two states, the inventory and the cash among them, is the same. *)
Definition with_order (i : nat) (pre : list Order) (o : Order)
    (post : list Order) (bs_without bs_with : BusinessState) : Prop :=
  pending_orders bs_without !! i = Some (pre ++ post)
  /\ bs_with
     = set_pending_orders
         (<[i := pre ++ o :: post]> (pending_orders bs_without)) bs_without.

Definition in_transit (i : nat) (o : Order)
    (env_without env_with : EnhancedBusinessEnv) : Prop :=
  days_remaining env_with = days_remaining env_without
  /\ exists pre post,
       with_order i pre o post (business_state env_without)
         (business_state env_with).

(** The order a restock action places, if any: it depends on the cash
    at hand, the product and the tier only. *)
Definition placed_order (cash : Q) (product : ProductInfo) (action_type : Z)
  : option Order :=
  match tier_quantity action_type with
  | None => None
  | Some quantity =>
      let '(quantity, cost) := affordable cash product quantity in
      if (0 <? quantity)%Z
      then Some (Order.mk quantity (lead_time product) cost)
      else None
  end.

(** The three assignments of [_execute_restock_action] when it orders. *)
Definition place_order (product_idx : nat) (o : Order) (bs : BusinessState)
  : BusinessState :=
  let bs1 :=
    set_pending_orders
      (<[product_idx := orders_of bs product_idx ++ [o]]> (pending_orders bs))
      bs in
  let bs2 := set_cash_flow (cash_flow bs1 - Order.cost o) bs1 in
  set_days_since_restock (<[product_idx := 0%Z]> (days_since_restock bs2)) bs2.

(** The loop variables with the state changed by [f]. *)
Definition on_loop_state (f : BusinessState -> BusinessState) (acc : DayLoop)
  : DayLoop :=
  {| loop_state := f (loop_state acc);
     loop_revenue := loop_revenue acc;
     loop_costs := loop_costs acc;
     loop_units_sold := loop_units_sold acc;
     loop_stockouts := loop_stockouts acc |}.

(** An order after [k] days in transit. *)
Definition aged (k : nat) (o : Order) : Order :=
  Order.mk (Order.quantity o) (Order.days_remaining o - Z.of_nat k)
    (Order.cost o).

(** The environment with the newest order of product [i] taken out of
    the orders in transit. *)
Definition without_newest_order (i : nat) (env : EnhancedBusinessEnv)
  : EnhancedBusinessEnv :=
  {| business_state :=
       set_pending_orders
         (<[i := removelast (orders_of (business_state env) i)]>
            (pending_orders (business_state env))) (business_state env);
     days_remaining := days_remaining env |}.

(** *** A worked example *)

Definition example_draws : InitDraws :=
  {| init_inventory := fun _ => 120%Z;
     init_days_since_restock := fun _ => 3%Z;
     init_cash_flow := 30000;
     init_accounts_receivable := 20000;
     init_accounts_payable := 10000;
     init_customer_satisfaction := 8 # 10;
     init_supplier_relationships := fun _ => 9 # 10;
     init_market_condition := NORMAL;
     init_season := SPRING;
     init_demand_trends := fun _ => 1 |}.

(** A large restock of the first product, and a day without any action. *)
Definition example_restock : StepInput :=
  {| action := [3; 0; 0; 0; 0; 0; 0; 0]%Z; demand_variance := fun _ => 1 |}.
Definition example_idle : StepInput :=
  {| action := [0; 0; 0; 0; 0; 0; 0; 0]%Z; demand_variance := fun _ => 1 |}.

(** *** [_get_observation] and the observation space *)

(** [MarketCondition.value] and [SeasonType.value]. *)
Definition market_condition_value (m : MarketCondition) : Q :=
  match m with
  | RECESSION => 0 | SLOW => 1 | NORMAL => 2 | GROWTH => 3 | BOOM => 4
  end.

Definition season_value (s : SeasonType) : Q :=
  match s with
  | WINTER => 0 | SPRING => 1 | SUMMER => 2 | FALL => 3
  end.

(** The bounds [obs_low] and [obs_high] of [observation_space]. *)
Definition obs_low : list Q :=
  replicate num_products 0 ++ replicate num_products 0 ++ [0] ++ [0]
  ++ [1 # 10; 1 # 2; 0; 0; 0] ++ replicate num_products 0
  ++ [0] ++ [0] ++ [0].

Definition obs_high : list Q :=
  replicate num_products 1000 ++ replicate num_products 30 ++ [500000]
  ++ [Py.float max_days] ++ [1; 2; 1; 1; 1] ++ replicate num_products 3
  ++ [1] ++ [300000] ++ [20].

(** The observation vector; the cast to [float32] is idealised. *)
Definition _get_observation (env : EnhancedBusinessEnv) : list Q :=
  let bs := business_state env in
  map Py.float (inventory_levels bs)
  ++ map Py.float (days_since_restock bs)
  ++ [cash_flow bs]
  ++ [Py.float (days_remaining env)]
  ++ [market_condition_value (market_condition bs) / 4;
      _get_market_factor (market_condition bs);
      season_value (season bs) / 3;
      customer_satisfaction bs;
      inventory_turnover bs / 10]
  ++ demand_trends bs
  ++ [customer_satisfaction bs]
  ++ [monthly_revenue bs]
  ++ [inventory_turnover bs].

(** [observation_space.contains(obs)]: the shape of the space, and every
    entry within its bounds. *)
Definition in_observation_space (obs : list Q) : Prop :=
  Forall2 Qle obs_low obs /\ Forall2 Qle obs obs_high.

(** *** More notions used by the statements *)

(** Every per-product list has an entry, and the pending orders a key,
    for each product and for nothing else. *)
Definition well_shaped (bs : BusinessState) : Prop :=
  length (inventory_levels bs) = num_products
  /\ length (days_since_restock bs) = num_products
  /\ length (supplier_relationships bs) = num_products
  /\ length (demand_trends bs) = num_products
  /\ length (stockout_days bs) = num_products
  /\ forall i, is_Some (pending_orders bs !! i) <-> (i < num_products)%nat.

(** An order in transit for [product]: a positive quantity of at most the
    largest tier, between one day and the lead time of the product to go,
    and the cost of that quantity. *)
Definition order_well_formed (product : ProductInfo) (o : Order) : Prop :=
  (0 < Order.quantity o <= 200)%Z
  /\ (1 <= Order.days_remaining o <= lead_time product)%Z
  /\ Order.cost o = Py.float (Order.quantity o) * cost_price product.

Definition orders_well_formed (bs : BusinessState) : Prop :=
  forall i product l,
    products !! i = Some product -> pending_orders bs !! i = Some l ->
    Forall (order_well_formed product) l.

(** The units in stock, over all products, and the units of one product
    that are in transit. *)
Definition units_in_stock (bs : BusinessState) : Z :=
  foldr Z.add 0%Z (inventory_levels bs).

Definition units_in_transit (bs : BusinessState) (product_idx : nat) : Z :=
  foldr Z.add 0%Z (map Order.quantity (orders_of bs product_idx)).

(** The state after the restock loop and the business actions of a step,
    before the day is simulated. *)
Definition after_purchases (bs : BusinessState) (a : list Z) : BusinessState :=
  _execute_business_actions
    (fst (fold_left (restock_product (take num_products a))
            (enumerate products) (bs, 0)))
    (drop num_products a).

(** A day with a medium restock of every product and premium marketing. *)
Definition example_spend : StepInput :=
  {| action := [2; 2; 2; 2; 2; 2; 0; 0]%Z; demand_variance := fun _ => 1 |}.

End Env.

(** ** Outcome tracker *)

Module Tracker.

Record OutcomeData := {
  task_id : string;
  recommendation_id : string;
  approved_at : Z;
  product_id : string;
  product_name : string;
  predicted_roi : Q;
  predicted_profit : Q;
  restock_quantity : Z;
  restock_cost : Q;
  actual_sales_before : Q;
  actual_sales_after : Q;
  actual_cost : Q;
  actual_roi : Q;
  actual_profit : Q;
  sell_through_rate : Q;
  tracking_start : option Z;
  tracking_end : option Z;
  outcome_captured_at : option Z;
  user_feedback : option string;
  user_satisfaction : option Q;
  feedback_collected_at : option Z;
  status : string
}.

Module EnhancedReward.
Record t := mk {
  task_id : string;
  base_reward : Q;
  actual_roi_reward : Q;
  user_feedback_bonus : Q;
  accuracy_penalty : Q;
  total_reward : Q;
  confidence_score : Q;
  created_at : Z
}.
End EnhancedReward.
Abbreviation EnhancedReward := EnhancedReward.t.

(** One entry of the user-feedback file. *)
Record FeedbackEntry := {
  fb_task_id : string;
  fb_feedback : string;
  fb_satisfaction : Q;
  fb_collected_at : Z
}.

(** The tracker object together with the three files it writes. *)
Record EnhancedOutcomeTracker := {
  tracking_period_days : Z;
  mock_mode : bool;
  outcome_data : list OutcomeData;
  enhanced_rewards : list EnhancedReward;
  outcome_data_file : list OutcomeData;
  enhanced_rewards_file : list EnhancedReward;
  user_feedback_file : list FeedbackEntry
}.

Definition set_outcome_data (v : list OutcomeData) (self : EnhancedOutcomeTracker)
  : EnhancedOutcomeTracker :=
  {| tracking_period_days := tracking_period_days self;
     mock_mode := mock_mode self;
     outcome_data := v;
     enhanced_rewards := enhanced_rewards self;
     outcome_data_file := outcome_data_file self;
     enhanced_rewards_file := enhanced_rewards_file self;
     user_feedback_file := user_feedback_file self |}.

Definition set_enhanced_rewards (v : list EnhancedReward)
    (self : EnhancedOutcomeTracker) : EnhancedOutcomeTracker :=
  {| tracking_period_days := tracking_period_days self;
     mock_mode := mock_mode self;
     outcome_data := outcome_data self;
     enhanced_rewards := v;
     outcome_data_file := outcome_data_file self;
     enhanced_rewards_file := enhanced_rewards_file self;
     user_feedback_file := user_feedback_file self |}.

Definition _save_outcome_data (self : EnhancedOutcomeTracker)
  : EnhancedOutcomeTracker :=
  {| tracking_period_days := tracking_period_days self;
     mock_mode := mock_mode self;
     outcome_data := outcome_data self;
     enhanced_rewards := enhanced_rewards self;
     outcome_data_file := outcome_data self;
     enhanced_rewards_file := enhanced_rewards_file self;
     user_feedback_file := user_feedback_file self |}.

Definition _save_enhanced_rewards (self : EnhancedOutcomeTracker)
  : EnhancedOutcomeTracker :=
  {| tracking_period_days := tracking_period_days self;
     mock_mode := mock_mode self;
     outcome_data := outcome_data self;
     enhanced_rewards := enhanced_rewards self;
     outcome_data_file := outcome_data_file self;
     enhanced_rewards_file := enhanced_rewards self;
     user_feedback_file := user_feedback_file self |}.

Definition _save_user_feedback (self : EnhancedOutcomeTracker)
    (task_id feedback : string) (satisfaction : Q) (now : Z)
  : EnhancedOutcomeTracker :=
  {| tracking_period_days := tracking_period_days self;
     mock_mode := mock_mode self;
     outcome_data := outcome_data self;
     enhanced_rewards := enhanced_rewards self;
     outcome_data_file := outcome_data_file self;
     enhanced_rewards_file := enhanced_rewards_file self;
     user_feedback_file :=
       user_feedback_file self
       ++ [ {| fb_task_id := task_id; fb_feedback := feedback;
               fb_satisfaction := satisfaction; fb_collected_at := now |} ] |}.

(** *** Capturing outcomes *)

Definition _should_capture_outcome (outcome : OutcomeData) (now : Z) : bool :=
  match tracking_end outcome with
  | None => false
  | Some tracking_end => (tracking_end <=? now)%Z
  end.

(** The four values [np.random.normal] returns in
    [_capture_mock_outcome_data]. *)
Record MockNoise := {
  accuracy_noise : Q;
  sales_before_noise : Q;
  sales_after_noise : Q;
  cost_noise : Q
}.

(** The fields an outcome capture assigns. *)
Definition captured (outcome : OutcomeData)
    (sales_before sales_after cost roi profit rate : Q) (now : Z) : OutcomeData :=
  {| task_id := task_id outcome;
     recommendation_id := recommendation_id outcome;
     approved_at := approved_at outcome;
     product_id := product_id outcome;
     product_name := product_name outcome;
     predicted_roi := predicted_roi outcome;
     predicted_profit := predicted_profit outcome;
     restock_quantity := restock_quantity outcome;
     restock_cost := restock_cost outcome;
     actual_sales_before := sales_before;
     actual_sales_after := sales_after;
     actual_cost := cost;
     actual_roi := roi;
     actual_profit := profit;
     sell_through_rate := rate;
     tracking_start := tracking_start outcome;
     tracking_end := tracking_end outcome;
     outcome_captured_at := Some now;
     user_feedback := user_feedback outcome;
     user_satisfaction := user_satisfaction outcome;
     feedback_collected_at := feedback_collected_at outcome;
     status := "completed" |}.

(** [units_sold] of the mock capture:
    [min(outcome.restock_quantity, outcome.actual_sales_after)]. *)
Definition mock_units_sold (outcome : OutcomeData) (sales_after : Q) : Q :=
  Py.min (Py.float (restock_quantity outcome)) sales_after.

(** [None] is the exception caught inside the function (the record is
    left as it was and [False] is returned): the tracking period cannot be
    computed without both of its ends. *)
Definition _capture_mock_outcome_data (outcome : OutcomeData) (n : MockNoise)
    (now : Z) : option OutcomeData :=
  let base_accuracy := (7 # 10) + accuracy_noise n in
  let base_accuracy := Py.max (2 # 10) (Py.min 1 base_accuracy) in
  let daily_sales_before := 15 + sales_before_noise n in
  let daily_sales_after := daily_sales_before * ((12 # 10) + sales_after_noise n) in
  match tracking_end outcome, tracking_start outcome with
  | Some t_end, Some t_start =>
      let period_days := Py.days_between t_end t_start in
      let sales_before :=
        Py.max 0 (daily_sales_before * (Py.float period_days / 2)) in
      let sales_after :=
        Py.max 0 (daily_sales_after * (Py.float period_days / 2)) in
      let cost_variation := 1 + cost_noise n in
      let cost := restock_cost outcome * cost_variation in
      let revenue_per_unit := 20 in
      let units_sold := mock_units_sold outcome sales_after in
      let total_revenue := units_sold * revenue_per_unit in
      let profit := total_revenue - cost in
      let roi := if Py.Qltb 0 cost then (profit / cost) * 100 else 0 in
      let rate :=
        if (0 <? restock_quantity outcome)%Z
        then (units_sold / Py.float (restock_quantity outcome)) * 100
        else 0 in
      Some (captured outcome sales_before sales_after cost roi profit rate now)
  | _, _ => None
  end.

Record SalesData := {
  sales_before : Q;
  sales_after : Q;
  total_revenue : Q;
  units_sold : Z
}.

Definition _get_shopify_sales_data (product_id : string)
    (start_date end_date : option Z) : SalesData :=
  {| sales_before := 150; sales_after := 280; total_revenue := 430;
     units_sold := 25 |}.

Record CostData := {
  cd_actual_cost : Q;
  cd_cost_variance : Q
}.

Definition _get_quickbooks_cost_data (product_id : string)
    (start_date : Z) (end_date : option Z) : CostData :=
  {| cd_actual_cost := 250; cd_cost_variance := 5 # 100 |}.

Definition _capture_real_outcome_data (outcome : OutcomeData) (now : Z)
  : option OutcomeData :=
  let sales_data :=
    _get_shopify_sales_data (product_id outcome) (tracking_start outcome)
      (tracking_end outcome) in
  let cost_data :=
    _get_quickbooks_cost_data (product_id outcome) (approved_at outcome)
      (tracking_end outcome) in
  let cost := cd_actual_cost cost_data in
  let profit := total_revenue sales_data - cost in
  let roi := if Py.Qltb 0 cost then (profit / cost) * 100 else 0 in
  let units_sold := units_sold sales_data in
  let rate :=
    if (0 <? restock_quantity outcome)%Z
    then (Py.float units_sold / Py.float (restock_quantity outcome)) * 100
    else 0 in
  Some (captured outcome (sales_before sales_data) (sales_after sales_data)
          cost roi profit rate now).

Definition _capture_outcome_data (mock_mode : bool) (outcome : OutcomeData)
    (n : MockNoise) (now : Z) : option OutcomeData :=
  if mock_mode then _capture_mock_outcome_data outcome n now
  else _capture_real_outcome_data outcome now.

(** The body of the loop of [capture_business_outcomes] on the record at
    position [i]: the record as the loop leaves it, and whether it was
    captured. [noise i] holds the random values drawn for it. *)
Definition capture_record (mock_mode : bool) (noise : nat -> MockNoise)
    (now : Z) (i : nat) (outcome : OutcomeData) : OutcomeData * bool :=
  if String.eqb (status outcome) "tracking" && _should_capture_outcome outcome now
  then match _capture_outcome_data mock_mode outcome (noise i) now with
       | Some outcome' => (outcome', true)
       | None => (outcome, false)
       end
  else (outcome, false).

Definition capture_business_outcomes (self : EnhancedOutcomeTracker)
    (noise : nat -> MockNoise) (now : Z) : Z * EnhancedOutcomeTracker :=
  let results := imap (capture_record (mock_mode self) noise now) (outcome_data self) in
  let captured_count :=
    Z.of_nat (length (List.filter snd results)) in
  let self1 := set_outcome_data (map fst results) self in
  let self2 := if (0 <? captured_count)%Z then _save_outcome_data self1 else self1 in
  (captured_count, self2).

(** *** User feedback *)

Definition with_feedback (outcome : OutcomeData) (feedback : string)
    (satisfaction : Q) (now : Z) : OutcomeData :=
  {| task_id := task_id outcome;
     recommendation_id := recommendation_id outcome;
     approved_at := approved_at outcome;
     product_id := product_id outcome;
     product_name := product_name outcome;
     predicted_roi := predicted_roi outcome;
     predicted_profit := predicted_profit outcome;
     restock_quantity := restock_quantity outcome;
     restock_cost := restock_cost outcome;
     actual_sales_before := actual_sales_before outcome;
     actual_sales_after := actual_sales_after outcome;
     actual_cost := actual_cost outcome;
     actual_roi := actual_roi outcome;
     actual_profit := actual_profit outcome;
     sell_through_rate := sell_through_rate outcome;
     tracking_start := tracking_start outcome;
     tracking_end := tracking_end outcome;
     outcome_captured_at := outcome_captured_at outcome;
     user_feedback := Some feedback;
     user_satisfaction := Some satisfaction;
     feedback_collected_at := Some now;
     status := status outcome |}.

(** The position of the first record of the task:
    [next((o for o in self.outcome_data if o.task_id == task_id), None)]. *)
Fixpoint find_outcome (task : string) (l : list OutcomeData) : option nat :=
  match l with
  | [] => None
  | o :: rest =>
      if String.eqb (task_id o) task then Some 0%nat
      else S <$> find_outcome task rest
  end.

Definition collect_user_feedback (self : EnhancedOutcomeTracker)
    (task feedback : string) (satisfaction : Q) (now : Z)
  : bool * EnhancedOutcomeTracker :=
  match find_outcome task (outcome_data self) with
  | None => (false, self)
  | Some i =>
      let self1 :=
        set_outcome_data
          (alter (fun o => with_feedback o feedback satisfaction now) i
             (outcome_data self)) self in
      let self2 := _save_user_feedback self1 task feedback satisfaction now in
      (true, _save_outcome_data self2)
  end.

(** *** Enhanced rewards *)

Definition _calculate_roi_accuracy (predicted actual : Q) : Q :=
  if Qeq_bool predicted 0 && Qeq_bool actual 0 then 1
  else
    let error := Py.abs (predicted - actual) in
    let max_error := Py.max3 (Py.abs predicted) (Py.abs actual) 10 in
    Py.max 0 (1 - error / max_error).

Definition _calculate_confidence_score (outcome : OutcomeData) : Q :=
  let roi_accuracy :=
    _calculate_roi_accuracy (predicted_roi outcome) (actual_roi outcome) in
  let factors := [roi_accuracy] in
  let factors :=
    factors ++ [ if Qle_bool 80 (sell_through_rate outcome) then 1
                 else if Qle_bool 50 (sell_through_rate outcome) then 7 # 10
                 else 3 # 10 ] in
  let factors :=
    match user_satisfaction outcome with
    | Some s => factors ++ [ (s - 1) / 4 ]
    | None => factors
    end in
  let factors :=
    factors ++ [ if Py.Qltb 0 (actual_profit outcome) then 1
                 else if Py.Qltb (- (50)) (actual_profit outcome) then 1 # 2
                 else 0 ] in
  Py.mean factors.

Definition _calculate_enhanced_reward (outcome : OutcomeData) (now : Z)
  : EnhancedReward :=
  let base_reward := actual_profit outcome / 100 in
  let roi_accuracy :=
    _calculate_roi_accuracy (predicted_roi outcome) (actual_roi outcome) in
  let actual_roi_reward := (actual_roi outcome / 100) * roi_accuracy in
  let user_feedback_bonus :=
    match user_satisfaction outcome with
    | Some s =>
        let normalized_satisfaction := (s - 3) / 2 in
        normalized_satisfaction * (2 # 10)
    | None => 0
    end in
  let roi_error := Py.abs (predicted_roi outcome - actual_roi outcome) in
  let accuracy_penalty := - Py.min (roi_error / 100) (1 # 2) in
  let total_reward :=
    base_reward + actual_roi_reward + user_feedback_bonus + accuracy_penalty in
  let confidence_score := _calculate_confidence_score outcome in
  EnhancedReward.mk (task_id outcome) base_reward actual_roi_reward
    user_feedback_bonus accuracy_penalty total_reward confidence_score now.

(** [next((r for r in self.enhanced_rewards if r.task_id == ...), None)]
    is not [None]. *)
Definition has_reward (rewards : list EnhancedReward) (task : string) : bool :=
  existsb (fun r => String.eqb (EnhancedReward.task_id r) task) rewards.

(** The body of the loop of [generate_enhanced_rewards]; the accumulator
    is [(new_rewards, self.enhanced_rewards)]. *)
Definition reward_record (now : Z)
    (acc : list EnhancedReward * list EnhancedReward) (outcome : OutcomeData)
  : list EnhancedReward * list EnhancedReward :=
  let '(new_rewards, enhanced_rewards) := acc in
  if String.eqb (status outcome) "completed"
     && bool_decide (is_Some (outcome_captured_at outcome))
  then
    if has_reward enhanced_rewards (task_id outcome) then acc
    else
      let reward := _calculate_enhanced_reward outcome now in
      (new_rewards ++ [reward], enhanced_rewards ++ [reward])
  else acc.

Definition generate_enhanced_rewards (self : EnhancedOutcomeTracker) (now : Z)
  : list EnhancedReward * EnhancedOutcomeTracker :=
  let '(new_rewards, enhanced_rewards) :=
    fold_left (reward_record now) (outcome_data self)
      ([], enhanced_rewards self) in
  let self1 := set_enhanced_rewards enhanced_rewards self in
  let self2 :=
    match new_rewards with
    | [] => self1
    | _ :: _ => _save_enhanced_rewards self1
    end in
  (new_rewards, self2).

(** *** [get_training_data] *)

Record TrainingSummary := {
  total_outcomes : Z;
  average_roi_accuracy : Q;
  average_actual_roi : Q;
  average_user_satisfaction : option Q;
  profitable_recommendations : Z;
  total_actual_profit : Q
}.

Record TrainingData := {
  outcomes : list OutcomeData;
  training_rewards : list EnhancedReward;
  summary : TrainingSummary
}.

Definition get_training_data (self : EnhancedOutcomeTracker) : TrainingData :=
  let completed_outcomes :=
    List.filter (fun o => String.eqb (status o) "completed") (outcome_data self) in
  let satisfactions := omap user_satisfaction completed_outcomes in
  {| outcomes := completed_outcomes;
     training_rewards := enhanced_rewards self;
     summary :=
       {| total_outcomes := Z.of_nat (length completed_outcomes);
          average_roi_accuracy :=
            match completed_outcomes with
            | [] => 0
            | _ :: _ =>
                Py.mean (map (fun o => _calculate_roi_accuracy (predicted_roi o)
                                         (actual_roi o)) completed_outcomes)
            end;
          average_actual_roi :=
            match completed_outcomes with
            | [] => 0
            | _ :: _ => Py.mean (map actual_roi completed_outcomes)
            end;
          average_user_satisfaction :=
            match satisfactions with
            | [] => None
            | _ :: _ => Some (Py.mean satisfactions)
            end;
          profitable_recommendations :=
            Z.of_nat (length (List.filter
                                (fun o => Py.Qltb 0 (actual_profit o))
                                completed_outcomes));
          total_actual_profit := Py.sum (map actual_profit completed_outcomes) |} |}.

(** *** Worked examples *)

(** A record as [start_tracking_approved_task] creates it at time [t0]
    for a thirty-day window, and the same record once completed. *)
Definition example_tracking (task : string) (quantity : Z) (t0 : Z) : OutcomeData :=
  {| task_id := task; recommendation_id := task; approved_at := t0;
     product_id := "prod-default-product"; product_name := "Default Product";
     predicted_roi := 25; predicted_profit := 500;
     restock_quantity := quantity;
     restock_cost := Py.float quantity * 10;
     actual_sales_before := 0; actual_sales_after := 0; actual_cost := 0;
     actual_roi := 0; actual_profit := 0; sell_through_rate := 0;
     tracking_start := Some t0; tracking_end := Some (t0 + 30 * 86400)%Z;
     outcome_captured_at := None; user_feedback := None;
     user_satisfaction := None; feedback_collected_at := None;
     status := "tracking" |}.

Definition example_completed (task : string) (roi profit : Q)
    (captured_at : option Z) : OutcomeData :=
  {| task_id := task; recommendation_id := task; approved_at := 0;
     product_id := "prod-default-product"; product_name := "Default Product";
     predicted_roi := 25; predicted_profit := 500;
     restock_quantity := 100; restock_cost := 1000;
     actual_sales_before := 225; actual_sales_after := 270;
     actual_cost := 1000; actual_roi := roi; actual_profit := profit;
     sell_through_rate := 100;
     tracking_start := Some 0%Z; tracking_end := Some (30 * 86400)%Z;
     outcome_captured_at := captured_at; user_feedback := None;
     user_satisfaction := None; feedback_collected_at := None;
     status := "completed" |}.

Definition example_tracker (mock : bool) (records : list OutcomeData)
  : EnhancedOutcomeTracker :=
  {| tracking_period_days := 30; mock_mode := mock;
     outcome_data := records; enhanced_rewards := [];
     outcome_data_file := records; enhanced_rewards_file := [];
     user_feedback_file := [] |}.

Definition no_noise : MockNoise :=
  {| accuracy_noise := 0; sales_before_noise := 0; sales_after_noise := 0;
     cost_noise := 0 |}.

(** *** Notions used by the statements *)

(** The units sold that a capture counts: the smaller of the restock
    quantity and the sales after the restock in mock mode, the figure of
    the sales feed otherwise. [o'] is the captured record. *)
Definition captured_units_sold (mock : bool) (o o' : OutcomeData) : Q :=
  if mock then mock_units_sold o (actual_sales_after o')
  else Py.float (units_sold (_get_shopify_sales_data (product_id o)
                               (tracking_start o) (tracking_end o))).

(** The records [generate_enhanced_rewards] considers. *)
Definition rewardable (o : OutcomeData) : bool :=
  String.eqb (status o) "completed"
  && bool_decide (is_Some (outcome_captured_at o)).

(** The accuracy of a prediction, as the design states it. *)
Definition accuracy (predicted actual : Q) : Q :=
  Qmax 0 (1 - Qabs (predicted - actual)
              / Qmax (Qmax (Qabs predicted) (Qabs actual)) 10).

(** The terms of a reward, as the design states them. *)
Definition reward_terms_of (o : OutcomeData) (r : EnhancedReward) : Prop :=
  EnhancedReward.task_id r = task_id o
  /\ EnhancedReward.base_reward r == actual_profit o / 100
  /\ EnhancedReward.actual_roi_reward r
     == (actual_roi o / 100) * accuracy (predicted_roi o) (actual_roi o)
  /\ EnhancedReward.user_feedback_bonus r
     == match user_satisfaction o with
        | Some satisfaction => ((satisfaction - 3) / 2) * (2 # 10)
        | None => 0
        end
  /\ EnhancedReward.accuracy_penalty r
     == - Qmin (Qabs (predicted_roi o - actual_roi o) / 100) (1 # 2)
  /\ EnhancedReward.total_reward r
     == EnhancedReward.base_reward r + EnhancedReward.actual_roi_reward r
        + EnhancedReward.user_feedback_bonus r
        + EnhancedReward.accuracy_penalty r.

(** One round of outcome capture followed by reward generation, as
    [run_outcome_capture_cycle] chains them. *)
Definition capture_and_reward (self : EnhancedOutcomeTracker)
    (noise : nat -> MockNoise) (now : Z) : EnhancedOutcomeTracker :=
  snd (generate_enhanced_rewards
         (snd (capture_business_outcomes self noise now)) now).

(** Three completed records: one without its capture time, and two of
    the task id ["unknown"] that tasks approved without an id fall back
    to. *)
Definition example_uncaptured : OutcomeData :=
  example_completed "task-a" 25 100 None.
Definition example_unknown_1 : OutcomeData :=
  example_completed "unknown" 25 100 (Some 2592000%Z).
Definition example_unknown_2 : OutcomeData :=
  example_completed "unknown" 25 300 (Some 2592000%Z).

Definition count_rewards (task : string) (rewards : list EnhancedReward) : nat :=
  length (List.filter (fun r => String.eqb (EnhancedReward.task_id r) task) rewards).

(** The satisfaction of a record, when it has one, is on the scale of 1
    to 5 that [collect_user_feedback] documents. *)
Definition satisfaction_on_scale (o : OutcomeData) : Prop :=
  match user_satisfaction o with
  | Some satisfaction => 1 <= satisfaction <= 5
  | None => True
  end.

(** The fields of a record that a capture leaves alone: the request,
    its prediction, the tracking window and the feedback. *)
Definition same_request (o o' : OutcomeData) : Prop :=
  task_id o' = task_id o
  /\ recommendation_id o' = recommendation_id o
  /\ approved_at o' = approved_at o
  /\ product_id o' = product_id o
  /\ product_name o' = product_name o
  /\ predicted_roi o' = predicted_roi o
  /\ predicted_profit o' = predicted_profit o
  /\ restock_quantity o' = restock_quantity o
  /\ restock_cost o' = restock_cost o
  /\ tracking_start o' = tracking_start o
  /\ tracking_end o' = tracking_end o
  /\ user_feedback o' = user_feedback o
  /\ user_satisfaction o' = user_satisfaction o
  /\ feedback_collected_at o' = feedback_collected_at o.

(** A completed record with the feedback of its user. *)
Definition example_rated : OutcomeData :=
  with_feedback (example_completed "task-r" 20 150 (Some 2592000%Z))
    "arrived in time" 4 2600000.

End Tracker.

(** ** Retraining trigger *)

Module Training.

Record TrainingMetrics := {
  episode : Z;
  mean_reward : Q;
  std_reward : Q;
  mean_actual_roi : Q;
  roi_accuracy : Q;
  user_satisfaction : Q;
  total_profit : Q;
  training_time : Q;
  (** the ISO timestamp of the training run, as a [datetime] *)
  model_version : Z
}.

Record EnhancedRLTrainingSystem := {
  outcome_tracker : Tracker.EnhancedOutcomeTracker;
  retraining_threshold : Z;
  training_metrics : list TrainingMetrics
}.

(** The dict returned next to the decision: its ['reason'] and the
    numbers reported with it. *)
Inductive ReasonData :=
| insufficient_outcomes (current_outcomes threshold : Z)
| poor_accuracy (roi_accuracy threshold : Q)
| poor_user_satisfaction (user_satisfaction threshold : Q)
| significant_losses (total_profit threshold : Q)
| scheduled_retraining (days_since_training threshold : Z)
| no_retraining_needed.

Definition reason (d : ReasonData) : string :=
  match d with
  | insufficient_outcomes _ _ => "insufficient_outcomes"
  | poor_accuracy _ _ => "poor_accuracy"
  | poor_user_satisfaction _ _ => "poor_user_satisfaction"
  | significant_losses _ _ => "significant_losses"
  | scheduled_retraining _ _ => "scheduled_retraining"
  | no_retraining_needed => "no_retraining_needed"
  end.

(** An [if ...: return ...] statement followed by the rest of the body:
    [r] is the value returned early, if any. *)
Definition return_or {A} (r : option A) (rest : A) : A :=
  match r with
  | Some x => x
  | None => rest
  end.

Definition should_retrain (self : EnhancedRLTrainingSystem) (now : Z)
  : bool * ReasonData :=
  let training_data := Tracker.get_training_data (outcome_tracker self) in
  let outcomes := Tracker.outcomes training_data in
  let n := Z.of_nat (length outcomes) in
  return_or
    (if (n <? retraining_threshold self)%Z
     then Some (false, insufficient_outcomes n (retraining_threshold self))
     else None) (
  let summary := Tracker.summary training_data in
  let roi_accuracy := Tracker.average_roi_accuracy summary in
  return_or
    (if Py.Qltb roi_accuracy (6 # 10)
     then Some (true, poor_accuracy roi_accuracy (6 # 10))
     else None) (
  let user_satisfaction := Tracker.average_user_satisfaction summary in
  return_or
    (match user_satisfaction with
     | Some s =>
         if Py.Qltb s 3 then Some (true, poor_user_satisfaction s 3) else None
     | None => None
     end) (
  let total_profit := Tracker.total_actual_profit summary in
  return_or
    (if Py.Qltb total_profit (- (1000))
     then Some (true, significant_losses total_profit (- (1000)))
     else None) (
  return_or
    (match last (training_metrics self) with
     | Some last_training =>
         let days_since_training :=
           Py.days_between now (model_version last_training) in
         if (7 <? days_since_training)%Z
         then Some (true, scheduled_retraining days_since_training 7)
         else None
     | None => None
     end)
    (false, no_retraining_needed))))).

(** The conditions of the retraining decision, as the design lists them:
    (a) enough completed outcomes, then (b) poor accuracy, (c) poor user
    satisfaction when there is any, (d) significant losses, (e) more than
    seven days since the last training. *)
Definition days_since_last_training (self : EnhancedRLTrainingSystem) (now : Z)
  : option Z :=
  match last (training_metrics self) with
  | Some last_training => Some (Py.days_between now (model_version last_training))
  | None => None
  end.

Definition enough_outcomes (self : EnhancedRLTrainingSystem) : bool :=
  negb (Z.of_nat (length (Tracker.outcomes
                            (Tracker.get_training_data (outcome_tracker self))))
        <? retraining_threshold self)%Z.

Definition retrain_conditions (self : EnhancedRLTrainingSystem) (now : Z)
  : list (bool * ReasonData) :=
  let s := Tracker.summary (Tracker.get_training_data (outcome_tracker self)) in
  [ (Py.Qltb (Tracker.average_roi_accuracy s) (6 # 10),
     poor_accuracy (Tracker.average_roi_accuracy s) (6 # 10));
    (match Tracker.average_user_satisfaction s with
     | Some x => Py.Qltb x 3
     | None => false
     end,
     poor_user_satisfaction
       (default 0 (Tracker.average_user_satisfaction s)) 3);
    (Py.Qltb (Tracker.total_actual_profit s) (- (1000)),
     significant_losses (Tracker.total_actual_profit s) (- (1000)));
    (match days_since_last_training self now with
     | Some days => (7 <? days)%Z
     | None => false
     end,
     scheduled_retraining (default 0%Z (days_since_last_training self now)) 7) ].

(** The first satisfied condition is the reported reason. *)
Definition first_satisfied (conditions : list (bool * ReasonData))
  : bool * ReasonData :=
  match List.find fst conditions with
  | Some (_, r) => (true, r)
  | None => (false, no_retraining_needed)
  end.

(** *** A worked example: five completed outcomes, threshold ten. *)
Definition example_system : EnhancedRLTrainingSystem :=
  {| outcome_tracker :=
       Tracker.example_tracker true
         (map (fun t => Tracker.example_completed t 25 500 (Some 2592000%Z))
              ["t1"; "t2"; "t3"; "t4"; "t5"]%string);
     retraining_threshold := 10;
     training_metrics := [] |}.

(** *** Recommendations *)

(** An entry of the action log of an episode, as the recommender reads
    it. [expected_roi] is the number written in the ["...%"] string of the
    entry; [confidence_score] is absent until the recommender sets it. *)
Record ActionInfo := {
  day : Z;
  action : string;
  product : string;
  quantity : Z;
  expected_roi : Q;
  predicted_profit_usd : Q;
  inventory_level : Z;
  customer_satisfaction : Q;
  cash_flow : Q;
  confidence_score : option Q
}.

Definition _calculate_action_confidence (self : EnhancedRLTrainingSystem)
    (action_info : ActionInfo) : Q :=
  let roi_value := expected_roi action_info in
  let roi_confidence := Py.min 1 (Py.max 0 (roi_value / 100)) in
  let training_data := Tracker.get_training_data (outcome_tracker self) in
  let summary := Tracker.summary training_data in
  let historical_accuracy := Tracker.average_roi_accuracy summary in
  let confidence :=
    (6 # 10) * roi_confidence + (4 # 10) * historical_accuracy in
  Py.min 1 (Py.max 0 confidence).

Definition score_recommendation (rec : ActionInfo) : Q :=
  let roi_value := expected_roi rec in
  let roi_score := roi_value / 100 in
  let confidence_score := default (1 # 2) (confidence_score rec) in
  let profit := predicted_profit_usd rec in
  let profit_score := Py.min 1 (Py.max 0 (profit / 1000)) in
  (4 # 10) * roi_score + (3 # 10) * confidence_score + (3 # 10) * profit_score.

(** [sorted(recommendations, key=score_recommendation, reverse=True)]:
    a stable sort by descending score. An entry goes behind the entries
    with a strictly higher score and in front of the others, those with
    the same score among them, which come later in the input. *)
Fixpoint insert_by_score (rec : ActionInfo) (ranked : list ActionInfo)
  : list ActionInfo :=
  match ranked with
  | [] => [rec]
  | r :: rest =>
      if Py.Qltb (score_recommendation rec) (score_recommendation r)
      then r :: insert_by_score rec rest
      else rec :: ranked
  end.

Definition _rank_recommendations (recommendations : list ActionInfo)
  : list ActionInfo :=
  foldr insert_by_score [] recommendations.

Definition _map_confidence_to_level (confidence_score : Q) : string :=
  if Qle_bool (8 # 10) confidence_score then "high"
  else if Qle_bool (6 # 10) confidence_score then "medium"
  else "low".

(** The scores do not increase along the list. *)
Fixpoint ranked_by_score (l : list ActionInfo) : Prop :=
  match l with
  | r1 :: ((r2 :: _) as rest) =>
      score_recommendation r2 <= score_recommendation r1 /\ ranked_by_score rest
  | _ => True
  end.

(** Three entries of an action log. *)
Definition example_action (name : string) (roi profit : Q) : ActionInfo :=
  {| day := 1; action := "restock_medium"; product := name; quantity := 100;
     expected_roi := roi; predicted_profit_usd := profit;
     inventory_level := 120; customer_satisfaction := 8 # 10;
     cash_flow := 30000; confidence_score := None |}.

Definition example_actions : list ActionInfo :=
  [example_action "Premium Athletic Socks" 20 300;
   example_action "Tech Pro Wireless Mouse" 99 2500;
   example_action "Protein Powder Vanilla" 20 300].

End Training.

(** ** Integration manager *)

Module Manager.

(** [timedelta(days=days)]: an [OverflowError] beyond 999999999 days. *)
Definition timedelta_days (days : Z) : option Z :=
  if (Z.abs days <=? 999999999)%Z then Some (days * 86400)%Z else None.

(** The range of [datetime], its seconds counted from [datetime.min]:
    [date.max] is day 3652059 of the calendar. *)
Definition datetime_min : Z := 0.
Definition datetime_max : Z := 3652059 * 86400 - 1.

(** [t - delta] on a [datetime]: an [OverflowError] when the result leaves
    the range of [datetime]. *)
Definition datetime_sub (t delta : Z) : option Z :=
  let r := (t - delta)%Z in
  if (datetime_min <=? r)%Z && (r <=? datetime_max)%Z then Some r else None.

(** The dates of a record that [start_tracking_approved_task] created are
    [datetime] objects; those of a record that [_load_outcome_data] read
    from the outcome file are the ISO strings [_save_outcome_data] wrote,
    and comparing one of them with a [datetime] raises [TypeError].
    [iso_dates o] tells that the dates of [o] are such strings. *)
Definition DateForm := Tracker.OutcomeData -> bool.

(** [o.tracking_start and o.tracking_start < cutoff_date] *)
Definition started_before (iso_dates : DateForm) (cutoff_date : Z)
    (o : Tracker.OutcomeData) : option bool :=
  match Tracker.tracking_start o with
  | None => Some false
  | Some tracking_start =>
      if iso_dates o then None else Some (tracking_start <? cutoff_date)%Z
  end.

(** [not o.tracking_start or o.tracking_start >= cutoff_date] *)
Definition not_started_before (iso_dates : DateForm) (cutoff_date : Z)
    (o : Tracker.OutcomeData) : option bool :=
  match Tracker.tracking_start o with
  | None => Some true
  | Some tracking_start =>
      if iso_dates o then None else Some (cutoff_date <=? tracking_start)%Z
  end.

(** [[o for o in l if cond(o)]], where [cond] may raise. *)
Fixpoint comprehension {A} (cond : A -> option bool) (l : list A)
  : option (list A) :=
  match l with
  | [] => Some []
  | o :: l' =>
      match cond o with
      | None => None
      | Some b =>
          match comprehension cond l' with
          | None => None
          | Some r => Some (if b then o :: r else r)
          end
      end
  end.

(** The part of [cleanup_old_data] that acts on the outcome tracker, once
    the clean-up of the feedback system has returned (it catches its own
    exceptions): the records whose tracking started before the cut-off
    date are dropped and the outcome file is rewritten. The result holds
    ['outcomes_removed'] and ['outcomes_remaining']; it is [None] when an
    exception was caught and the function returned [{'error': ...}]. *)
Definition cleanup_old_data (tracker : Tracker.EnhancedOutcomeTracker)
    (iso_dates : DateForm) (days_to_keep now : Z)
  : option (Z * Z) * Tracker.EnhancedOutcomeTracker :=
  match timedelta_days days_to_keep with
  | None => (None, tracker)
  | Some delta =>
      match datetime_sub now delta with
      | None => (None, tracker)
      | Some cutoff_date =>
          match comprehension (started_before iso_dates cutoff_date)
                  (Tracker.outcome_data tracker) with
          | None => (None, tracker)
          | Some old_outcomes =>
              match comprehension (not_started_before iso_dates cutoff_date)
                      (Tracker.outcome_data tracker) with
              | None => (None, tracker)
              | Some remaining =>
                  let tracker1 := Tracker.set_outcome_data remaining tracker in
                  let tracker2 := Tracker._save_outcome_data tracker1 in
                  (Some (Z.of_nat (length old_outcomes),
                         Z.of_nat (length (Tracker.outcome_data tracker2))),
                   tracker2)
              end
          end
      end
  end.

(** The cut-off date of a clean-up, when it can be computed. *)
Definition cutoff_of (days_to_keep now : Z) : option Z :=
  match timedelta_days days_to_keep with
  | None => None
  | Some delta => datetime_sub now delta
  end.

(** A record whose tracking start is an ISO string. *)
Definition iso_start (iso_dates : DateForm) (o : Tracker.OutcomeData) : Prop :=
  iso_dates o = true /\ Tracker.tracking_start o <> None.

(** A tracker with one record read from the outcome file and two created
    since, the first of which started 100 days before the other. *)
Definition example_record (task_id : string) (tracking_start : option Z)
  : Tracker.OutcomeData :=
  {| Tracker.task_id := task_id;
     Tracker.recommendation_id := "rec";
     Tracker.approved_at := 63000000000;
     Tracker.product_id := "PROD-001";
     Tracker.product_name := "Widget";
     Tracker.predicted_roi := 20;
     Tracker.predicted_profit := 100;
     Tracker.restock_quantity := 10;
     Tracker.restock_cost := 500;
     Tracker.actual_sales_before := 0;
     Tracker.actual_sales_after := 0;
     Tracker.actual_cost := 0;
     Tracker.actual_roi := 0;
     Tracker.actual_profit := 0;
     Tracker.sell_through_rate := 0;
     Tracker.tracking_start := tracking_start;
     Tracker.tracking_end := None;
     Tracker.outcome_captured_at := None;
     Tracker.user_feedback := None;
     Tracker.user_satisfaction := None;
     Tracker.feedback_collected_at := None;
     Tracker.status := "tracking" |}.

Definition example_tracker (records : list Tracker.OutcomeData)
  : Tracker.EnhancedOutcomeTracker :=
  {| Tracker.tracking_period_days := 30;
     Tracker.mock_mode := true;
     Tracker.outcome_data := records;
     Tracker.enhanced_rewards := [];
     Tracker.outcome_data_file := records;
     Tracker.enhanced_rewards_file := [];
     Tracker.user_feedback_file := [] |}.

End Manager.

(** ** Curriculum stages *)

Module Curriculum.

Record TrainingConfig := {
  algorithm : string;
  total_timesteps : Z;
  learning_rate : Q;
  batch_size : Z;
  n_steps : Z;
  n_epochs : Z;
  gamma : Q;
  gae_lambda : Q;
  clip_range : Q;
  entropy_coef : Q;
  value_function_coef : Q;
  target_kl : option Q;
  normalize_advantage : bool;
  use_curriculum : bool;
  curriculum_stages : Z;
  eval_freq : Z;
  save_freq : Z;
  n_eval_episodes : Z;
  deterministic_eval : bool
}.

Record CurriculumStage := {
  name : string;
  timesteps : Z;
  business_complexity : Q;
  market_volatility : Q;
  demand_uncertainty : Q;
  supplier_reliability : Q;
  cash_flow_pressure : Q;
  description : string
}.

Definition create_curriculum_stages (config : TrainingConfig)
  : list CurriculumStage :=
  [ {| name := "Basic Operations";
       timesteps := (total_timesteps config / 4)%Z;
       business_complexity := 3 # 10;
       market_volatility := 2 # 10;
       demand_uncertainty := 2 # 10;
       supplier_reliability := 9 # 10;
       cash_flow_pressure := 2 # 10;
       description := "Basic inventory management with stable conditions" |};
    {| name := "Market Dynamics";
       timesteps := (total_timesteps config / 4)%Z;
       business_complexity := 5 # 10;
       market_volatility := 5 # 10;
       demand_uncertainty := 4 # 10;
       supplier_reliability := 8 # 10;
       cash_flow_pressure := 4 # 10;
       description := "Introduce market volatility and demand fluctuations" |};
    {| name := "Supply Chain Challenges";
       timesteps := (total_timesteps config / 4)%Z;
       business_complexity := 7 # 10;
       market_volatility := 6 # 10;
       demand_uncertainty := 6 # 10;
       supplier_reliability := 6 # 10;
       cash_flow_pressure := 6 # 10;
       description := "Add supplier delays and cash flow constraints" |};
    {| name := "Advanced Business Operations";
       timesteps := (total_timesteps config / 4)%Z;
       business_complexity := 1;
       market_volatility := 8 # 10;
       demand_uncertainty := 8 # 10;
       supplier_reliability := 5 # 10;
       cash_flow_pressure := 8 # 10;
       description := "Full complexity with all business challenges" |} ].

(** [TrainingConfig()] with the defaults of the dataclass, and with
    another training budget. *)
Definition default_config : TrainingConfig :=
  {| algorithm := "PPO"; total_timesteps := 1000000;
     learning_rate := 3 # 10000; batch_size := 256; n_steps := 2048;
     n_epochs := 10; gamma := 99 # 100; gae_lambda := 95 # 100;
     clip_range := 2 # 10; entropy_coef := 1 # 100;
     value_function_coef := 1 # 2; target_kl := Some (1 # 100);
     normalize_advantage := true; use_curriculum := true;
     curriculum_stages := 4; eval_freq := 10000; save_freq := 50000;
     n_eval_episodes := 20; deterministic_eval := true |}.

Definition with_total_timesteps (total : Z) (c : TrainingConfig) : TrainingConfig :=
  {| algorithm := algorithm c; total_timesteps := total;
     learning_rate := learning_rate c; batch_size := batch_size c;
     n_steps := n_steps c; n_epochs := n_epochs c; gamma := gamma c;
     gae_lambda := gae_lambda c; clip_range := clip_range c;
     entropy_coef := entropy_coef c;
     value_function_coef := value_function_coef c; target_kl := target_kl c;
     normalize_advantage := normalize_advantage c;
     use_curriculum := use_curriculum c;
     curriculum_stages := curriculum_stages c; eval_freq := eval_freq c;
     save_freq := save_freq c; n_eval_episodes := n_eval_episodes c;
     deterministic_eval := deterministic_eval c |}.

(** [dial] does not decrease from any stage to the next. *)
Fixpoint non_decreasing (dial : CurriculumStage -> Q)
    (stages : list CurriculumStage) : Prop :=
  match stages with
  | s1 :: ((s2 :: _) as rest) => dial s1 <= dial s2 /\ non_decreasing dial rest
  | _ => True
  end.

Definition non_increasing (dial : CurriculumStage -> Q)
    (stages : list CurriculumStage) : Prop :=
  non_decreasing (fun s => - dial s) stages.

Definition dials_in_unit_interval (s : CurriculumStage) : Prop :=
  0 <= business_complexity s <= 1 /\ 0 <= market_volatility s <= 1
  /\ 0 <= demand_uncertainty s <= 1 /\ 0 <= supplier_reliability s <= 1
  /\ 0 <= cash_flow_pressure s <= 1.

Definition total_stage_timesteps (stages : list CurriculumStage) : Z :=
  fold_left Z.add (map timesteps stages) 0%Z.

End Curriculum.

(** * Properties *)

(** ** Python numerics *)

Lemma Qltb_spec (x y : Q) : reflect (x < y) (Py.Qltb x y).
Proof.
  unfold Py.Qltb. destruct (Qle_bool y x) eqn:E; constructor.
  - apply Qle_bool_iff in E. lra.
  - apply Qnot_le_lt. intros H. apply Qle_bool_iff in H. congruence.
Qed.

Lemma Qleb_spec (x y : Q) : reflect (x <= y) (Qle_bool x y).
Proof.
  destruct (Qle_bool x y) eqn:E; constructor.
  - now apply Qle_bool_iff.
  - intros H. apply Qle_bool_iff in H. congruence.
Qed.

Lemma py_min_spec (a b : Q) :
  (b < a /\ Py.min a b = b) \/ (a <= b /\ Py.min a b = a).
Proof. unfold Py.min. destruct (Qltb_spec b a); [left | right]; split; auto; lra. Qed.

Lemma py_max_spec (a b : Q) :
  (a < b /\ Py.max a b = b) \/ (b <= a /\ Py.max a b = a).
Proof. unfold Py.max. destruct (Qltb_spec a b); [left | right]; split; auto; lra. Qed.

Lemma py_abs_spec (x : Q) :
  (x < 0 /\ Py.abs x = - x) \/ (0 <= x /\ Py.abs x = x).
Proof. unfold Py.abs. destruct (Qltb_spec x 0); [left | right]; split; auto; lra. Qed.

(** Case analysis on every [min], [max] and [abs] of the goal. *)
Ltac py_cases :=
  repeat match goal with
    | |- context [Py.min ?a ?b] =>
        let H := fresh in let E := fresh in
        destruct (py_min_spec a b) as [[H E] | [H E]]; rewrite E in *; clear E
    | |- context [Py.max ?a ?b] =>
        let H := fresh in let E := fresh in
        destruct (py_max_spec a b) as [[H E] | [H E]]; rewrite E in *; clear E
    | |- context [Py.abs ?a] =>
        let H := fresh in let E := fresh in
        destruct (py_abs_spec a) as [[H E] | [H E]]; rewrite E in *; clear E
    end.

Lemma py_min_le (a b : Q) : Py.min a b <= a /\ Py.min a b <= b.
Proof. py_cases; lra. Qed.

Lemma py_max_ge (a b : Q) : a <= Py.max a b /\ b <= Py.max a b.
Proof. py_cases; lra. Qed.

(** A value clamped by [min(hi, max(lo, x))] lies between the bounds. *)
Lemma clamp_bounds (lo hi x : Q) :
  lo <= hi -> lo <= Py.min hi (Py.max lo x) <= hi.
Proof. intros H. py_cases; lra. Qed.

Lemma mean5 (a b c d e : Q) :
  Py.mean [a; b; c; d; e] == (a + b + c + d + e) / 5.
Proof. unfold Py.mean, Py.sum. simpl. field. Qed.

Lemma py_float_le (a b : Z) : (a <= b)%Z -> Py.float a <= Py.float b.
Proof. unfold Py.float. now rewrite <- Zle_Qle. Qed.

Lemma py_float_lt (a b : Z) : (a < b)%Z -> Py.float a < Py.float b.
Proof. unfold Py.float. now rewrite <- Zlt_Qlt. Qed.

(** ** Projected-ROI calculator *)

Section RoiCalculator.

Import Roi.
Import Roi.ROICalculationResult.

Variable normal_cdf : Q -> Q.

(** What [calculate_roi] returns, field by field. *)
Lemma calculate_roi_inv self pid qty win w r self' :
  calculate_roi normal_cdf self pid qty win w = Some (r, self') ->
  exists pm demand,
    _get_product_metrics self pid w = (pm, self')
    /\ _calculate_projected_demand self' pm win w = Some demand
    /\ total_restock_cost r = Py.float qty * ProductMetrics.cost_per_unit pm
    /\ sell_through_rate r = _calculate_sell_through_rate pm qty demand
    /\ projected_units_sold r
       = Z.min qty (Py.int (demand * _calculate_sell_through_rate pm qty demand))
    /\ expected_revenue r
       = Py.float (projected_units_sold r) * ProductMetrics.selling_price pm
    /\ expected_profit r = expected_revenue r - total_restock_cost r
    /\ projected_roi r
       = (if Py.Qltb 0 (total_restock_cost r)
          then (expected_profit r / total_restock_cost r) * 100 else 0)
    /\ stockout_probability r
       = _calculate_stockout_probability normal_cdf pm qty win
    /\ confidence_score r
       = _calculate_confidence_score pm demand (sell_through_rate r) w.
Proof.
  unfold calculate_roi. destruct (_get_product_metrics self pid w) as [pm s1].
  destruct (_calculate_projected_demand s1 pm win w) as [demand|] eqn:Ed;
    [|discriminate].
  intros H. injection H as <- <-. exists pm, demand. simpl.
  repeat split; auto.
Qed.

(** C1. Whenever [calculate_roi] returns a result whose total restock
    cost is strictly positive, its projected ROI is
    [(expected_revenue - total_restock_cost) / total_restock_cost * 100],
    computed from the revenue and the cost of that same result; when the
    total restock cost is zero, the projected ROI is zero. *)
Theorem calculate_roi_projected_roi_formula self pid qty win w r self' :
  calculate_roi normal_cdf self pid qty win w = Some (r, self') ->
  (0 < total_restock_cost r ->
   projected_roi r
   == (expected_revenue r - total_restock_cost r) / total_restock_cost r * 100)
  /\ (total_restock_cost r == 0 -> projected_roi r == 0).
Proof.
  intros H. apply calculate_roi_inv in H
    as (pm & demand & _ & _ & _ & _ & _ & _ & Hprofit & Hroi & _).
  rewrite Hroi, Hprofit. split; intros Hc.
  - destruct (Qltb_spec 0 (total_restock_cost r)); [reflexivity | contradiction].
  - destruct (Qltb_spec 0 (total_restock_cost r)); [lra | reflexivity].
Qed.

(** The sell-through rate and the stock-out probability are clamped. *)
Lemma sell_through_rate_clamped pm qty demand :
  3 # 10 <= _calculate_sell_through_rate pm qty demand <= 98 # 100.
Proof. unfold _calculate_sell_through_rate. apply clamp_bounds. lra. Qed.

Lemma stockout_probability_clamped pm qty win :
  1 # 100 <= _calculate_stockout_probability normal_cdf pm qty win <= 95 # 100.
Proof. unfold _calculate_stockout_probability. apply clamp_bounds. lra. Qed.

Lemma projected_demand_nonneg self pm win w demand :
  _calculate_projected_demand self pm win w = Some demand -> 0 <= demand.
Proof.
  unfold _calculate_projected_demand.
  destruct (market_conditions self !! _); [|discriminate].
  destruct (Py.Qltb _ 0); [discriminate|].
  intros H. injection H as <-. apply py_max_ge.
Qed.

Lemma confidence_score_in_range pm demand rate w :
  metrics_in_range pm w -> 0 <= demand ->
  0 <= _calculate_confidence_score pm demand rate w <= 1.
Proof.
  intros (Hv & Hh & Hi & Ht) Hd. unfold _calculate_confidence_score.
  rewrite mean5.
  set (age := Py.float (Py.days_between (now w) (ProductMetrics.last_updated pm))).
  assert (0 <= age) as Hage.
  { unfold age, Py.days_between. change 0 with (Py.float 0).
    apply py_float_le. apply Z.div_pos; lia. }
  assert (0 <= age / 30) as Hage30 by (apply Qle_shift_div_l; lra).
  generalize dependent (age / 30). intros a30 Ha30.
  set (inv := Py.float (ProductMetrics.current_inventory pm)).
  assert (0 <= inv) as Hinv.
  { unfold inv. change 0 with (Py.float 0). now apply py_float_le. }
  set (den := Py.max (demand * (1 # 10)) 1).
  assert (1 <= den) as Hden by apply py_max_ge.
  assert (0 <= inv / den) as Hq.
  { apply Qle_shift_div_l; lra. }
  generalize dependent (inv / den). intros q Hq.
  py_cases; split; apply Qle_shift_div_l || apply Qle_shift_div_r; lra.
Qed.

(** C3, as the code has it. The sell-through rate returned by
    [calculate_roi] lies in [0.3, 0.98] and the stock-out probability in
    [0.01, 0.95] for any product metrics. The confidence score is a plain
    mean of five factors: it lies in [0, 1] when the product's demand
    volatility and historical sell-through rate lie in [0, 1], its
    inventory is not negative and its metrics are not dated in the
    future. *)
Theorem calculate_roi_ranges self pid qty win w r self' :
  calculate_roi normal_cdf self pid qty win w = Some (r, self') ->
  3 # 10 <= sell_through_rate r <= 98 # 100
  /\ 1 # 100 <= stockout_probability r <= 95 # 100
  /\ (metrics_in_range (fst (_get_product_metrics self pid w)) w ->
      0 <= confidence_score r <= 1).
Proof.
  intros H. apply calculate_roi_inv in H
    as (pm & demand & Hpm & Hd & _ & Hrate & _ & _ & _ & _ & Hstock & Hconf).
  rewrite Hrate, Hstock, Hconf, Hpm. simpl.
  split; [apply sell_through_rate_clamped|].
  split; [apply stockout_probability_clamped|].
  intros Hr. apply confidence_score_in_range; [exact Hr|].
  eapply projected_demand_nonneg, Hd.
Qed.

End RoiCalculator.

Lemma calculate_roi_projected_roi_formula_witness :
  exists r self',
    Roi.calculate_roi Roi.example_cdf (Roi.example_calculator (2 # 10))
      "PROD-001" 100 30 Roi.example_world = Some (r, self')
    /\ 0 < Roi.ROICalculationResult.total_restock_cost r
    /\ Roi.ROICalculationResult.projected_roi r
       == (Roi.ROICalculationResult.expected_revenue r
           - Roi.ROICalculationResult.total_restock_cost r)
          / Roi.ROICalculationResult.total_restock_cost r * 100.
Proof.
  eexists. eexists. split; [reflexivity|].
  split; [reflexivity|].
  apply (calculate_roi_projected_roi_formula Roi.example_cdf
           (Roi.example_calculator (2 # 10)) "PROD-001" 100 30
           Roi.example_world _ _ eq_refl).
  reflexivity.
Defined.

Lemma calculate_roi_ranges_witness :
  exists r self',
    Roi.calculate_roi Roi.example_cdf (Roi.example_calculator (2 # 10))
      "PROD-001" 100 30 Roi.example_world = Some (r, self')
    /\ 3 # 10 <= Roi.ROICalculationResult.sell_through_rate r <= 98 # 100
    /\ 1 # 100 <= Roi.ROICalculationResult.stockout_probability r <= 95 # 100
    /\ 0 <= Roi.ROICalculationResult.confidence_score r <= 1.
Proof.
  eexists. eexists. split; [reflexivity|].
  pose proof (calculate_roi_ranges Roi.example_cdf
                (Roi.example_calculator (2 # 10)) "PROD-001" 100 30
                Roi.example_world _ _ eq_refl) as (Hs & Hp & Hc).
  split; [exact Hs|]. split; [exact Hp|].
  apply Hc. vm_compute. intuition discriminate.
Defined.

(** A product whose demand varies by five times its mean has a negative
    confidence score: C3 does not hold for any product metrics. *)
Lemma confidence_score_outside_unit_interval :
  exists r self',
    Roi.calculate_roi Roi.example_cdf (Roi.example_calculator 5)
      "PROD-001" 100 30 Roi.example_world = Some (r, self')
    /\ ~ (0 <= Roi.ROICalculationResult.confidence_score r <= 1).
Proof.
  eexists. eexists. split; [reflexivity|].
  intros [H _]. vm_compute in H. apply H. reflexivity.
Qed.

(** ** Curriculum stages *)

Section CurriculumStages.

Import Curriculum.

(** C7, as the code has it. Across the stages of
    [create_curriculum_stages], for every training budget, business
    complexity, market volatility, demand uncertainty and cash-flow
    pressure never decrease, supplier reliability never increases, and
    every dial lies in [0, 1]; and for a training budget that is a
    multiple of four the stage timesteps add up to the budget. *)
Theorem curriculum_stages_progression config :
  let stages := create_curriculum_stages config in
  non_decreasing business_complexity stages
  /\ non_decreasing market_volatility stages
  /\ non_decreasing demand_uncertainty stages
  /\ non_increasing supplier_reliability stages
  /\ non_decreasing cash_flow_pressure stages
  /\ Forall dials_in_unit_interval stages
  /\ ((total_timesteps config mod 4 = 0)%Z ->
      total_stage_timesteps stages = total_timesteps config).
Proof.
  intros stages. unfold stages, non_increasing, create_curriculum_stages.
  repeat match goal with |- _ /\ _ => split end.
  1-5: simpl; repeat split; discriminate.
  - repeat constructor; simpl; discriminate.
  - intros Hmod. unfold total_stage_timesteps. simpl.
    pose proof (Z.div_mod (total_timesteps config) 4). lia.
Qed.

End CurriculumStages.

Lemma curriculum_stages_progression_witness :
  (Curriculum.total_timesteps Curriculum.default_config mod 4 = 0)%Z
  /\ Curriculum.non_increasing Curriculum.supplier_reliability
       (Curriculum.create_curriculum_stages Curriculum.default_config)
  /\ Curriculum.total_stage_timesteps
       (Curriculum.create_curriculum_stages Curriculum.default_config)
     = 1000000%Z.
Proof.
  split; [reflexivity|].
  pose proof (curriculum_stages_progression Curriculum.default_config) as H.
  cbv zeta in H. destruct H as (_ & _ & _ & Hs & _ & _ & Ht).
  split; [exact Hs | exact (Ht eq_refl)].
Defined.

(** With the default budget the supplier-reliability dial falls from 0.9
    to 0.8 between the first two stages, and with a budget of ten
    timesteps the stages receive eight: C7 fails on both counts. *)
Lemma curriculum_stages_not_all_non_decreasing :
  ~ Curriculum.non_decreasing Curriculum.supplier_reliability
      (Curriculum.create_curriculum_stages Curriculum.default_config)
  /\ Curriculum.total_stage_timesteps
       (Curriculum.create_curriculum_stages
          (Curriculum.with_total_timesteps 10 Curriculum.default_config))
     <> 10%Z.
Proof.
  split.
  - intros [H _]. apply H. reflexivity.
  - discriminate.
Qed.

(** ** Outcome tracker *)

Section OutcomeTracker.

Import Tracker.

Lemma find_outcome_none task l :
  (forall o, In o l -> task_id o <> task) -> find_outcome task l = None.
Proof.
  induction l as [|o l IH]; intros H; simpl; [reflexivity|].
  destruct (String.eqb_spec (task_id o) task) as [E | _].
  - exfalso. apply (H o); [now left | exact E].
  - rewrite IH; [reflexivity|]. intros o' Ho'. apply H. now right.
Qed.

(** C10. For a task id that no outcome record carries,
    [collect_user_feedback] returns [False] and leaves the tracker as it
    was: no record is created, and every record, every reward and every
    file is unchanged. *)
Theorem collect_user_feedback_unknown_task self task feedback satisfaction now :
  (forall o, In o (outcome_data self) -> task_id o <> task) ->
  collect_user_feedback self task feedback satisfaction now = (false, self).
Proof.
  intros H. unfold collect_user_feedback.
  now rewrite (find_outcome_none _ _ H).
Qed.

(** *** Capturing an outcome *)

Lemma capture_record_true mock noise now i o o' :
  capture_record mock noise now i o = (o', true) ->
  String.eqb (status o) "tracking" = true
  /\ _should_capture_outcome o now = true
  /\ _capture_outcome_data mock o (noise i) now = Some o'.
Proof.
  unfold capture_record.
  destruct (String.eqb (status o) "tracking"); simpl; [|discriminate].
  destruct (_should_capture_outcome o now); [|discriminate].
  destruct (_capture_outcome_data mock o (noise i) now); [|discriminate].
  intros H. injection H as <-. auto.
Qed.

Lemma mock_units_sold_bounds o x :
  0 <= x -> (0 <= restock_quantity o)%Z ->
  0 <= mock_units_sold o x <= Py.float (restock_quantity o).
Proof.
  intros Hx Hq. unfold mock_units_sold.
  assert (0 <= Py.float (restock_quantity o)) as H0.
  { change 0 with (Py.float 0). now apply py_float_le. }
  py_cases; lra.
Qed.

Lemma percentage_bounds (u q : Q) :
  0 < q -> 0 <= u <= q -> 0 <= u / q * 100 <= 100.
Proof.
  intros Hq [H0 H1].
  assert (0 <= u / q) by (apply Qle_shift_div_l; lra).
  assert (u / q <= 1) by (apply Qle_shift_div_r; lra).
  lra.
Qed.

Lemma capture_business_outcomes_lookup self noise now i :
  outcome_data (snd (capture_business_outcomes self noise now)) !! i
  = (fun o => fst (capture_record (mock_mode self) noise now i o))
      <$> outcome_data self !! i.
Proof.
  unfold capture_business_outcomes. simpl.
  destruct (0 <? _)%Z; simpl;
    rewrite list_lookup_fmap, list_lookup_imap;
    now destruct (outcome_data self !! i).
Qed.

Lemma capture_record_false mock noise now i o o' :
  capture_record mock noise now i o = (o', false) -> o' = o.
Proof.
  unfold capture_record.
  destruct (String.eqb (status o) "tracking" && _should_capture_outcome o now);
    [destruct (_capture_outcome_data mock o (noise i) now)|];
    intros H; injection H; congruence.
Qed.

(** C6, as the code has it. When [capture_business_outcomes] completes a
    record with a positive restock quantity, the sell-through rate it
    stores is a percentage: [units_sold / restock_quantity * 100]. It lies
    in [0, 100] when the units sold are between zero and the restock
    quantity, which the mock capture ensures by taking the smaller of the
    quantity and the sales. *)
Theorem captured_sell_through_rate_is_percentage self noise now i o o' :
  outcome_data self !! i = Some o ->
  outcome_data (snd (capture_business_outcomes self noise now)) !! i = Some o' ->
  status o = "tracking"%string -> status o' = "completed"%string ->
  (0 < restock_quantity o)%Z ->
  let units_sold := captured_units_sold (mock_mode self) o o' in
  sell_through_rate o' == units_sold / Py.float (restock_quantity o) * 100
  /\ (0 <= units_sold <= Py.float (restock_quantity o) ->
      0 <= sell_through_rate o' <= 100)
  /\ (mock_mode self = true -> 0 <= sell_through_rate o' <= 100).
Proof.
  intros Hi Hi' Hs Hs' Hq.
  rewrite capture_business_outcomes_lookup, Hi in Hi'. simpl in Hi'.
  injection Hi' as Hi'.
  destruct (capture_record (mock_mode self) noise now i o) as [o1 b] eqn:Hc.
  simpl in Hi'. subst o1. destruct b.
  2:{ apply capture_record_false in Hc. subst o'. congruence. }
  apply capture_record_true in Hc as (_ & _ & Hc).
  assert (0 < Py.float (restock_quantity o)) as Hq'.
  { change 0 with (Py.float 0). now apply py_float_lt. }
  assert (sell_through_rate o'
          == captured_units_sold (mock_mode self) o o'
             / Py.float (restock_quantity o) * 100) as Hrate.
  { unfold _capture_outcome_data, captured_units_sold in *.
    destruct (mock_mode self).
    - unfold _capture_mock_outcome_data in Hc.
      destruct (tracking_end o); [|discriminate].
      destruct (tracking_start o); [|discriminate].
      injection Hc as <-. simpl.
      apply Z.ltb_lt in Hq. rewrite Hq. reflexivity.
    - unfold _capture_real_outcome_data in Hc. injection Hc as <-. simpl.
      apply Z.ltb_lt in Hq. rewrite Hq. reflexivity. }
  intros units_sold. split; [exact Hrate|]. split.
  - intros Hu. rewrite Hrate. now apply percentage_bounds.
  - intros Hm. rewrite Hrate. apply percentage_bounds; [exact Hq'|].
    unfold captured_units_sold. rewrite Hm.
    apply mock_units_sold_bounds; [|lia].
    unfold _capture_outcome_data in Hc. rewrite Hm in Hc.
    unfold _capture_mock_outcome_data in Hc.
    destruct (tracking_end o); [|discriminate].
    destruct (tracking_start o); [|discriminate].
    injection Hc as <-. simpl. apply py_max_ge.
Qed.

End OutcomeTracker.

Lemma collect_user_feedback_unknown_task_witness :
  Tracker.collect_user_feedback
    (Tracker.example_tracker true [Tracker.example_tracking "task-1" 100 0])
    "task-2" "well timed" 5 86400
  = (false,
     Tracker.example_tracker true [Tracker.example_tracking "task-1" 100 0]).
Proof.
  apply collect_user_feedback_unknown_task.
  intros o [<- | []]. discriminate.
Defined.

Lemma captured_sell_through_rate_is_percentage_witness :
  exists o',
    Tracker.outcome_data
      (snd (Tracker.capture_business_outcomes
              (Tracker.example_tracker false
                 [Tracker.example_tracking "task-1" 50 0])
              (fun _ => Tracker.no_noise) 2592000)) !! 0%nat = Some o'
    /\ Tracker.sell_through_rate o' == 25 / 50 * 100.
Proof.
  eexists. split; [reflexivity|].
  apply (captured_sell_through_rate_is_percentage
           (Tracker.example_tracker false
              [Tracker.example_tracking "task-1" 50 0])
           (fun _ => Tracker.no_noise) 2592000 0%nat
           (Tracker.example_tracking "task-1" 50 0) _
           eq_refl eq_refl eq_refl eq_refl eq_refl).
Defined.

(** A restock of fifty units of which the sales feed reports twenty-five
    sold is stored with a sell-through rate of 50, not of
    [units_sold / restock_quantity = 0.5], and outside [0, 1]. *)
Lemma captured_sell_through_rate_not_a_fraction :
  exists o',
    Tracker.outcome_data
      (snd (Tracker.capture_business_outcomes
              (Tracker.example_tracker false
                 [Tracker.example_tracking "task-1" 50 0])
              (fun _ => Tracker.no_noise) 2592000)) !! 0%nat = Some o'
    /\ Tracker.status o' = "completed"%string
    /\ Tracker.sell_through_rate o' == 50
    /\ ~ Tracker.sell_through_rate o'
         == Tracker.captured_units_sold false
              (Tracker.example_tracking "task-1" 50 0) o'
            / Py.float (Tracker.restock_quantity
                          (Tracker.example_tracking "task-1" 50 0))
    /\ ~ (0 <= Tracker.sell_through_rate o' <= 1).
Proof.
  eexists. split; [reflexivity|].
  split; [reflexivity|]. split; [reflexivity|]. split.
  - discriminate.
  - intros [_ H]. apply H. reflexivity.
Qed.

(** ** Retraining trigger *)

Section RetrainingTrigger.

Import Training.

(** C8. With fewer completed outcomes than the retraining threshold,
    [should_retrain] answers [(False, "insufficient_outcomes")], whatever
    the other conditions are. With enough outcomes it checks poor
    accuracy, poor user satisfaction, significant losses and the seven-day
    schedule in that order, and reports the first one that holds; when
    none holds, no retraining is needed. *)
Theorem should_retrain_decision self now :
  let n := Z.of_nat (length (Tracker.outcomes
                               (Tracker.get_training_data (outcome_tracker self)))) in
  ((n < retraining_threshold self)%Z ->
   should_retrain self now
   = (false, insufficient_outcomes n (retraining_threshold self))
   /\ reason (snd (should_retrain self now)) = "insufficient_outcomes"%string)
  /\ ((retraining_threshold self <= n)%Z ->
      should_retrain self now = first_satisfied (retrain_conditions self now)).
Proof.
  intros n. unfold should_retrain. fold n. split.
  - intros Hn. apply Z.ltb_lt in Hn. rewrite Hn. simpl. auto.
  - intros Hn. apply Z.ltb_ge in Hn. rewrite Hn.
    unfold first_satisfied, retrain_conditions, days_since_last_training.
    set (s := Tracker.summary _).
    generalize (Tracker.average_roi_accuracy s) as acc.
    generalize (Tracker.average_user_satisfaction s) as sat.
    generalize (Tracker.total_actual_profit s) as profit.
    intros profit sat acc. cbn [return_or List.find fst].
    destruct (Py.Qltb acc (6 # 10)); cbn [return_or List.find fst];
      [reflexivity|].
    destruct sat as [x|]; cbn [return_or List.find fst default].
    + destruct (Py.Qltb x 3); cbn [return_or List.find fst]; [reflexivity|].
      destruct (Py.Qltb profit (- (1000))); cbn [return_or List.find fst];
        [reflexivity|].
      destruct (last (training_metrics self)) as [m|];
        cbn [return_or List.find fst default]; [|reflexivity].
      destruct (7 <? _)%Z; reflexivity.
    + destruct (Py.Qltb profit (- (1000))); cbn [return_or List.find fst];
        [reflexivity|].
      destruct (last (training_metrics self)) as [m|];
        cbn [return_or List.find fst default]; [|reflexivity].
      destruct (7 <? _)%Z; reflexivity.
Qed.

End RetrainingTrigger.

Lemma should_retrain_decision_witness :
  Training.should_retrain Training.example_system 2600000
  = (false, Training.insufficient_outcomes 5 10).
Proof.
  apply (should_retrain_decision Training.example_system 2600000).
  reflexivity.
Defined.

(** ** Enhanced rewards *)

Section EnhancedRewards.

Import Tracker.

Lemma py_abs_Qabs (x : Q) : Py.abs x == Qabs x.
Proof.
  destruct (py_abs_spec x) as [[H ->] | [H ->]].
  - symmetry. apply Qabs_neg. lra.
  - symmetry. now apply Qabs_pos.
Qed.

Lemma py_max_Qmax (a b : Q) : Py.max a b == Qmax a b.
Proof.
  destruct (py_max_spec a b) as [[H ->] | [H ->]].
  - symmetry. apply Q.max_r. lra.
  - symmetry. now apply Q.max_l.
Qed.

Lemma py_min_Qmin (a b : Q) : Py.min a b == Qmin a b.
Proof.
  destruct (py_min_spec a b) as [[H ->] | [H ->]].
  - symmetry. apply Q.min_r. lra.
  - symmetry. now apply Q.min_l.
Qed.

(** [_calculate_roi_accuracy] computes the accuracy of the design; its
    special case for two zero ROIs agrees with the formula. *)
Lemma _calculate_roi_accuracy_spec predicted actual :
  _calculate_roi_accuracy predicted actual == accuracy predicted actual.
Proof.
  unfold _calculate_roi_accuracy, accuracy, Py.max3.
  destruct (Qeq_bool predicted 0 && Qeq_bool actual 0) eqn:E.
  - apply andb_true_iff in E as [Ep Ea].
    apply Qeq_bool_eq in Ep, Ea. rewrite Ep, Ea. reflexivity.
  - rewrite (py_max_Qmax 0), (py_max_Qmax _ 10), (py_max_Qmax (Py.abs _)).
    now rewrite !py_abs_Qabs.
Qed.

(** What the loop of [generate_enhanced_rewards] adds: one reward,
    computed by [_calculate_enhanced_reward], for each considered record
    whose task has no reward yet. *)
Lemma reward_record_cases now new rs o :
  (rewardable o = true /\ has_reward rs (task_id o) = false
   /\ reward_record now (new, rs) o
      = (new ++ [_calculate_enhanced_reward o now],
         rs ++ [_calculate_enhanced_reward o now]))
  \/ ((rewardable o = false \/ has_reward rs (task_id o) = true)
      /\ reward_record now (new, rs) o = (new, rs)).
Proof.
  unfold reward_record, rewardable.
  destruct (String.eqb (status o) "completed"
            && bool_decide (is_Some (outcome_captured_at o))); [|right; auto].
  destruct (has_reward rs (task_id o)); [right; auto | left; auto].
Qed.

Lemma has_reward_app rs rs' task :
  has_reward (rs ++ rs') task = has_reward rs task || has_reward rs' task.
Proof. unfold has_reward. apply existsb_app. Qed.

Lemma reward_task_id o now :
  EnhancedReward.task_id (_calculate_enhanced_reward o now) = task_id o.
Proof. reflexivity. Qed.

Lemma reward_fold now l : forall new rs,
  exists added,
    fold_left (reward_record now) l (new, rs) = (new ++ added, rs ++ added)
    /\ (forall r, In r added ->
        exists o, In o l /\ rewardable o = true
                  /\ r = _calculate_enhanced_reward o now)
    /\ (forall o, In o l -> rewardable o = true ->
        has_reward (rs ++ added) (task_id o) = true).
Proof.
  induction l as [|o l IH]; intros new rs; cbn [fold_left].
  - exists []. rewrite !app_nil_r. split; [reflexivity|]. split; intros ? [].
  - destruct (reward_record_cases now new rs o)
      as [(Hr & Hn & ->) | (Hc & ->)].
    + destruct (IH (new ++ [_calculate_enhanced_reward o now])
                   (rs ++ [_calculate_enhanced_reward o now]))
        as (added & -> & Hadd & Hall).
      exists (_calculate_enhanced_reward o now :: added).
      rewrite <- !app_assoc. simpl. split; [reflexivity|]. split.
      * intros r [<- | Hin]; [exists o; split; [now left | auto]|].
        destruct (Hadd r Hin) as (o' & ? & ? & ?).
        exists o'. split; [now right | auto].
      * intros o' [<- | Hin] Hr'.
        -- rewrite has_reward_app. apply orb_true_iff. right.
           simpl. rewrite String.eqb_refl. reflexivity.
        -- specialize (Hall o' Hin Hr'). now rewrite <- app_assoc in Hall.
    + destruct (IH new rs) as (added & -> & Hadd & Hall).
      exists added. split; [reflexivity|]. split.
      * intros r Hin. destruct (Hadd r Hin) as (o' & ? & ? & ?).
        exists o'. split; [now right | auto].
      * intros o' [<- | Hin] Hr'; [|now apply Hall].
        destruct Hc as [Hc | Hc]; [congruence|].
        rewrite has_reward_app, Hc. reflexivity.
Qed.

Lemma has_reward_false rs task :
  has_reward rs task = false ->
  forall r, In r rs -> EnhancedReward.task_id r <> task.
Proof.
  unfold has_reward. intros H r Hin E.
  assert (existsb (fun r => String.eqb (EnhancedReward.task_id r) task) rs = true)
    as H'; [|congruence].
  apply existsb_exists. exists r. split; [exact Hin|].
  rewrite E. apply String.eqb_refl.
Qed.

Lemma has_reward_false_intro rs task :
  (forall r, In r rs -> EnhancedReward.task_id r <> task) ->
  has_reward rs task = false.
Proof.
  intros H. unfold has_reward.
  destruct (existsb _ rs) eqn:E; [|reflexivity].
  apply existsb_exists in E as (r & Hin & Hr).
  apply String.eqb_eq in Hr. exfalso. exact (H r Hin Hr).
Qed.

Lemma generate_enhanced_rewards_unfold self now :
  exists added,
    generate_enhanced_rewards self now
    = (added,
       let self1 := set_enhanced_rewards (enhanced_rewards self ++ added) self in
       match added with [] => self1 | _ :: _ => _save_enhanced_rewards self1 end)
    /\ fold_left (reward_record now) (outcome_data self) ([], enhanced_rewards self)
       = (added, enhanced_rewards self ++ added).
Proof.
  unfold generate_enhanced_rewards.
  destruct (reward_fold now (outcome_data self) [] (enhanced_rewards self))
    as (added & E & _).
  exists added. rewrite E. simpl. auto.
Qed.

Lemma _calculate_enhanced_reward_terms o now :
  reward_terms_of o (_calculate_enhanced_reward o now).
Proof.
  unfold reward_terms_of, _calculate_enhanced_reward. simpl.
  split; [reflexivity|]. split; [reflexivity|].
  split; [now rewrite _calculate_roi_accuracy_spec|].
  split; [destruct (user_satisfaction o); reflexivity|].
  split; [|reflexivity].
  now rewrite py_min_Qmin, py_abs_Qabs.
Qed.

Lemma generate_enhanced_rewards_appends self now :
  enhanced_rewards (snd (generate_enhanced_rewards self now))
  = enhanced_rewards self ++ fst (generate_enhanced_rewards self now).
Proof.
  destruct (generate_enhanced_rewards_unfold self now) as (added & -> & _).
  simpl. now destruct added.
Qed.

Lemma first_of_task_gets_reward self now i o :
  outcome_data self !! i = Some o ->
  rewardable o = true ->
  has_reward (enhanced_rewards self) (task_id o) = false ->
  (forall j o', (j < i)%nat -> outcome_data self !! j = Some o' ->
                rewardable o' = true -> task_id o' <> task_id o) ->
  In (_calculate_enhanced_reward o now) (fst (generate_enhanced_rewards self now)).
Proof.
  intros Hi Hr Hno Hfirst.
  destruct (generate_enhanced_rewards_unfold self now) as (added & -> & Hf).
  simpl. apply take_drop_middle in Hi as Hsplit. rewrite <- Hsplit in Hf.
  rewrite fold_left_app in Hf. cbn [fold_left] in Hf.
  destruct (reward_fold now (take i (outcome_data self)) []
              (enhanced_rewards self)) as (a1 & E1 & Ha1 & _).
  rewrite E1 in Hf.
  assert (has_reward (enhanced_rewards self ++ a1) (task_id o) = false) as Hn1.
  { rewrite has_reward_app, Hno. simpl.
    apply has_reward_false_intro. intros r Hin E.
    destruct (Ha1 r Hin) as (o' & Ho' & Hr' & ->).
    apply list_elem_of_In, list_elem_of_lookup in Ho' as [j Hj].
    pose proof (lookup_lt_Some _ _ _ Hj) as Hlt.
    rewrite length_take in Hlt.
    rewrite lookup_take_lt in Hj by lia.
    apply (Hfirst j o'); [lia | exact Hj | exact Hr' | exact E]. }
  destruct (reward_record_cases now ([] ++ a1) (enhanced_rewards self ++ a1) o)
    as [(_ & _ & E2) | ([Hc | Hc] & _)]; [|congruence..].
  rewrite E2 in Hf.
  destruct (reward_fold now (drop (S i) (outcome_data self))
              (([] ++ a1) ++ [_calculate_enhanced_reward o now])
              ((enhanced_rewards self ++ a1)
                 ++ [_calculate_enhanced_reward o now])) as (a3 & E3 & _).
  rewrite E3 in Hf. injection Hf as Hf _. rewrite <- Hf.
  apply in_or_app. left. apply in_or_app. right. now left.
Qed.

(** C4, as the code has it. [generate_enhanced_rewards] produces, for a
    completed record that carries its capture time, whose task has no
    reward in the tracker and which is the first such record of its task,
    a reward with base reward [actual_profit / 100], ROI term
    [(actual_roi / 100) * accuracy], feedback bonus
    [((satisfaction - 3) / 2) * 0.2] (zero without satisfaction), accuracy
    penalty [- min (|predicted - actual| / 100, 0.5)], and their sum as
    total. *)
Theorem generate_enhanced_rewards_terms self now i o :
  outcome_data self !! i = Some o ->
  status o = "completed"%string ->
  is_Some (outcome_captured_at o) ->
  has_reward (enhanced_rewards self) (task_id o) = false ->
  (forall j o', (j < i)%nat -> outcome_data self !! j = Some o' ->
                rewardable o' = true -> task_id o' <> task_id o) ->
  exists r,
    In r (fst (generate_enhanced_rewards self now))
    /\ In r (enhanced_rewards (snd (generate_enhanced_rewards self now)))
    /\ reward_terms_of o r.
Proof.
  intros Hi Hs Hc Hno Hfirst.
  assert (rewardable o = true) as Hr.
  { unfold rewardable. rewrite Hs. simpl. now apply bool_decide_eq_true. }
  pose proof (first_of_task_gets_reward self now i o Hi Hr Hno Hfirst) as Hin.
  exists (_calculate_enhanced_reward o now). split; [exact Hin|]. split.
  - rewrite generate_enhanced_rewards_appends. apply in_or_app. now right.
  - apply _calculate_enhanced_reward_terms.
Qed.

(** *** Running capture and reward generation twice *)

Lemma captured_status o sb sa c r p rate now :
  status (captured o sb sa c r p rate now) = "completed"%string.
Proof. reflexivity. Qed.

Lemma _capture_outcome_data_status mock o n now o' :
  _capture_outcome_data mock o n now = Some o' -> status o' = "completed"%string.
Proof.
  unfold _capture_outcome_data, _capture_mock_outcome_data,
    _capture_real_outcome_data.
  destruct mock; [destruct (tracking_end o), (tracking_start o)|];
    intros H; try discriminate; injection H as <-; reflexivity.
Qed.

(** Whether a capture fails does not depend on the random draws. *)
Lemma _capture_outcome_data_none mock o n n' now :
  _capture_outcome_data mock o n now = None ->
  _capture_outcome_data mock o n' now = None.
Proof.
  unfold _capture_outcome_data, _capture_mock_outcome_data,
    _capture_real_outcome_data.
  destruct mock; [destruct (tracking_end o), (tracking_start o)|];
    intros H; try discriminate; reflexivity.
Qed.

Lemma capture_record_again mock n1 n2 now i o :
  capture_record mock n2 now i (fst (capture_record mock n1 now i o))
  = (fst (capture_record mock n1 now i o), false).
Proof.
  destruct (capture_record mock n1 now i o) as [o1 b] eqn:E1. simpl.
  unfold capture_record in *.
  destruct (String.eqb (status o) "tracking" && _should_capture_outcome o now)
    eqn:Hc.
  - destruct (_capture_outcome_data mock o (n1 i) now) as [o'|] eqn:E.
    + injection E1 as <- <-.
      now rewrite (_capture_outcome_data_status _ _ _ _ _ E).
    + injection E1 as <- <-. rewrite Hc.
      now rewrite (_capture_outcome_data_none _ _ _ (n2 i) _ E).
  - injection E1 as <- <-. now rewrite Hc.
Qed.

Lemma capture_record_completed mock n now i o :
  status o = "completed"%string -> capture_record mock n now i o = (o, false).
Proof. intros H. unfold capture_record. now rewrite H. Qed.

Lemma set_outcome_data_id self : set_outcome_data (outcome_data self) self = self.
Proof. now destruct self. Qed.

Lemma set_enhanced_rewards_id self :
  set_enhanced_rewards (enhanced_rewards self) self = self.
Proof. now destruct self. Qed.

Lemma filter_snd_false {A} (l : list A) :
  List.filter snd (map (fun o => (o, false)) l) = [].
Proof. induction l as [|x l IH]; [reflexivity | exact IH]. Qed.

Lemma capture_business_outcomes_noop self noise now :
  (forall i o, outcome_data self !! i = Some o ->
               capture_record (mock_mode self) noise now i o = (o, false)) ->
  capture_business_outcomes self noise now = (0%Z, self).
Proof.
  intros H. unfold capture_business_outcomes.
  assert (imap (capture_record (mock_mode self) noise now) (outcome_data self)
          = map (fun o => (o, false)) (outcome_data self)) as ->.
  { apply list_eq. intros i. rewrite list_lookup_imap, list_lookup_fmap.
    destruct (outcome_data self !! i) as [o|] eqn:E; simpl; [|reflexivity].
    now rewrite (H i o E). }
  rewrite filter_snd_false. simpl. rewrite map_map. simpl. rewrite map_id.
  now rewrite set_outcome_data_id.
Qed.

Lemma generate_enhanced_rewards_outcome_data self now :
  outcome_data (snd (generate_enhanced_rewards self now)) = outcome_data self
  /\ mock_mode (snd (generate_enhanced_rewards self now)) = mock_mode self.
Proof.
  destruct (generate_enhanced_rewards_unfold self now) as (added & -> & _).
  simpl. now destruct added.
Qed.

Lemma capture_business_outcomes_mock_mode self noise now :
  mock_mode (snd (capture_business_outcomes self noise now)) = mock_mode self.
Proof. unfold capture_business_outcomes. simpl. now destruct (0 <? _)%Z. Qed.

Lemma reward_fold_noop now l : forall new rs,
  (forall o, In o l -> rewardable o = true -> has_reward rs (task_id o) = true) ->
  fold_left (reward_record now) l (new, rs) = (new, rs).
Proof.
  induction l as [|o l IH]; intros new rs H; cbn [fold_left]; [reflexivity|].
  destruct (reward_record_cases now new rs o) as [(Hr & Hn & _) | (_ & ->)].
  - rewrite (H o) in Hn; [discriminate | now left | exact Hr].
  - apply IH. intros o' Hin. apply H. now right.
Qed.

Lemma generate_enhanced_rewards_noop self now :
  (forall o, In o (outcome_data self) -> rewardable o = true ->
             has_reward (enhanced_rewards self) (task_id o) = true) ->
  generate_enhanced_rewards self now = ([], self).
Proof.
  intros H. unfold generate_enhanced_rewards.
  rewrite (reward_fold_noop now _ _ _ H).
  now rewrite set_enhanced_rewards_id.
Qed.

Lemma generate_enhanced_rewards_covers self now o :
  In o (outcome_data self) -> rewardable o = true ->
  has_reward (enhanced_rewards (snd (generate_enhanced_rewards self now)))
    (task_id o) = true.
Proof.
  intros Hin Hr. rewrite generate_enhanced_rewards_appends.
  destruct (generate_enhanced_rewards_unfold self now) as (added & -> & Hf).
  simpl.
  destruct (reward_fold now (outcome_data self) [] (enhanced_rewards self))
    as (a & E & _ & Hall).
  rewrite E in Hf. injection Hf as <-. now apply Hall.
Qed.

(** The number of rewards of a task. *)
Lemma count_rewards_app task rs rs' :
  count_rewards task (rs ++ rs')
  = (count_rewards task rs + count_rewards task rs')%nat.
Proof. unfold count_rewards. now rewrite List.filter_app, length_app. Qed.

Lemma count_rewards_zero task rs :
  has_reward rs task = false -> count_rewards task rs = 0%nat.
Proof.
  unfold has_reward, count_rewards. induction rs as [|r rs IH]; simpl;
    [reflexivity|].
  destruct (String.eqb (EnhancedReward.task_id r) task); simpl;
    [discriminate | exact IH].
Qed.

Lemma count_rewards_single task o now :
  count_rewards task [_calculate_enhanced_reward o now]
  = if String.eqb (task_id o) task then 1%nat else 0%nat.
Proof.
  unfold count_rewards. cbn [List.filter]. rewrite reward_task_id.
  now destruct (String.eqb (task_id o) task).
Qed.

Lemma reward_fold_count now task l : forall new rs new' rs',
  fold_left (reward_record now) l (new, rs) = (new', rs') ->
  (count_rewards task rs' <= Nat.max 1 (count_rewards task rs))%nat.
Proof.
  induction l as [|o l IH]; intros new rs new' rs'; cbn [fold_left].
  - intros H. injection H as _ <-. lia.
  - destruct (reward_record_cases now new rs o) as [(_ & Hn & ->) | (_ & ->)].
    + intros H. apply IH in H.
      rewrite count_rewards_app, count_rewards_single in H.
      destruct (String.eqb_spec (task_id o) task) as [<- | Hne]; [|lia].
      rewrite (count_rewards_zero _ _ Hn) in *. simpl in H. lia.
    + apply IH.
Qed.

(** C5. After one round of outcome capture and reward generation, a
    second round at the same time captures nothing and generates nothing:
    it returns the tracker of the first round, with the same completed
    records and the same rewards. A completed record is never captured
    again, and generating rewards never gives a task a second reward. *)
Theorem capture_and_reward_idempotent self noise1 noise2 now :
  capture_business_outcomes (capture_and_reward self noise1 now) noise2 now
  = (0%Z, capture_and_reward self noise1 now)
  /\ generate_enhanced_rewards (capture_and_reward self noise1 now) now
     = ([], capture_and_reward self noise1 now)
  /\ capture_and_reward (capture_and_reward self noise1 now) noise2 now
     = capture_and_reward self noise1 now
  /\ (forall i o, outcome_data self !! i = Some o ->
                  status o = "completed"%string ->
                  outcome_data (capture_and_reward self noise1 now) !! i = Some o)
  /\ (forall task,
        count_rewards task (enhanced_rewards (capture_and_reward self noise1 now))
        <= Nat.max 1 (count_rewards task (enhanced_rewards self)))%nat.
Proof.
  set (s1 := snd (capture_business_outcomes self noise1 now)).
  assert (capture_and_reward self noise1 now
          = snd (generate_enhanced_rewards s1 now)) as Hs2 by reflexivity.
  set (s2 := capture_and_reward self noise1 now) in *.
  destruct (generate_enhanced_rewards_outcome_data s1 now) as [Hod Hmm].
  rewrite <- Hs2 in Hod, Hmm.
  assert (mock_mode s1 = mock_mode self) as Hm1
    by apply capture_business_outcomes_mock_mode.
  assert (capture_business_outcomes s2 noise2 now = (0%Z, s2)) as Hcap.
  { apply capture_business_outcomes_noop. intros i o Hi.
    rewrite Hod in Hi. unfold s1 in Hi.
    rewrite capture_business_outcomes_lookup in Hi.
    destruct (outcome_data self !! i) as [o0|]; [|discriminate].
    simpl in Hi. injection Hi as <-. rewrite Hmm, Hm1.
    apply capture_record_again. }
  assert (generate_enhanced_rewards s2 now = ([], s2)) as Hgen.
  { apply generate_enhanced_rewards_noop. intros o Hin Hr.
    rewrite Hod in Hin. rewrite Hs2.
    now apply generate_enhanced_rewards_covers. }
  split; [exact Hcap|]. split; [exact Hgen|]. split; [|split].
  - unfold capture_and_reward at 1. rewrite Hcap. cbn [snd]. now rewrite Hgen.
  - intros i o Hi Hc. rewrite Hod. unfold s1.
    rewrite capture_business_outcomes_lookup, Hi. simpl.
    now rewrite capture_record_completed.
  - intros task. rewrite Hs2.
    destruct (generate_enhanced_rewards_unfold s1 now) as (added & E & Hf).
    rewrite E. simpl.
    assert (enhanced_rewards s1 = enhanced_rewards self) as Hr1.
    { unfold s1, capture_business_outcomes. simpl. now destruct (0 <? _)%Z. }
    rewrite Hr1 in *.
    apply (reward_fold_count now task) in Hf.
    now destruct added.
Qed.

End EnhancedRewards.

Lemma generate_enhanced_rewards_terms_witness :
  exists r,
    In r (fst (Tracker.generate_enhanced_rewards
                 (Tracker.example_tracker true
                    [Tracker.example_uncaptured; Tracker.example_unknown_1;
                     Tracker.example_unknown_2]) 2600000))
    /\ Tracker.reward_terms_of Tracker.example_unknown_1 r.
Proof.
  destruct (generate_enhanced_rewards_terms
              (Tracker.example_tracker true
                 [Tracker.example_uncaptured; Tracker.example_unknown_1;
                  Tracker.example_unknown_2]) 2600000 1%nat
              Tracker.example_unknown_1 eq_refl eq_refl
              (ex_intro _ 2592000%Z eq_refl) eq_refl) as (r & Hin & _ & Hterms).
  - intros [|j] o' Hj Ho' Hr; [|lia].
    injection Ho' as <-. discriminate Hr.
  - exists r. split; [exact Hin | exact Hterms].
Defined.

(** Of three completed records without rewards, the one without capture
    time and the second one of the task ["unknown"] receive no reward of
    their own: C4 does not hold for every completed record. *)
Lemma generate_enhanced_rewards_skips_records :
  fst (Tracker.generate_enhanced_rewards
         (Tracker.example_tracker true
            [Tracker.example_uncaptured; Tracker.example_unknown_1;
             Tracker.example_unknown_2]) 2600000)
  = [Tracker._calculate_enhanced_reward Tracker.example_unknown_1 2600000]
  /\ ~ Tracker.reward_terms_of Tracker.example_uncaptured
        (Tracker._calculate_enhanced_reward Tracker.example_unknown_1 2600000)
  /\ ~ Tracker.reward_terms_of Tracker.example_unknown_2
        (Tracker._calculate_enhanced_reward Tracker.example_unknown_1 2600000).
Proof.
  split; [reflexivity|]. split.
  - intros (H & _). discriminate H.
  - intros (_ & H & _). discriminate H.
Qed.

(** ** Enhanced business simulator *)

Section Simulator.

Import Env.

(** *** Assignments to the business state *)

Lemma set_pending_orders_id bs : set_pending_orders (pending_orders bs) bs = bs.
Proof. now destruct bs. Qed.

Lemma set_inventory_levels_id bs :
  set_inventory_levels (inventory_levels bs) bs = bs.
Proof. now destruct bs. Qed.

Lemma fold_left_preserves {A B} (P : A -> Prop) (f : A -> B -> A) l :
  (forall a x, P a -> P (f a x)) -> forall a, P a -> P (fold_left f l a).
Proof. intros Hf. induction l as [|x l IH]; simpl; auto. Qed.

(** *** Deliveries *)

Lemma list_remove_Forall (P : Order -> Prop) o l :
  Forall P l -> Forall P (list_remove o l).
Proof.
  induction 1 as [|x l Hx Hl IH]; simpl; [constructor|].
  destruct (Order.eqb x o); [exact Hl | now constructor].
Qed.

Lemma zget_nonneg l i :
  Forall (fun x => (0 <= x)%Z) l -> (0 <= zget l i)%Z.
Proof.
  intros H. unfold zget. destruct (l !! i) as [x|] eqn:E; simpl; [|lia].
  rewrite Forall_forall in H. apply H.
  apply list_elem_of_lookup. eauto.
Qed.

Lemma receive_invariant idx bs o :
  (0 < Order.quantity o)%Z ->
  inventory_nonneg bs /\ orders_positive bs ->
  inventory_nonneg (receive idx bs o) /\ orders_positive (receive idx bs o).
Proof.
  intros Hq [Hi Ho]. split; [|exact Ho].
  unfold inventory_nonneg, receive in *. simpl.
  apply Forall_insert; [exact Hi|].
  pose proof (zget_nonneg _ idx Hi). lia.
Qed.

Lemma orders_of_positive bs idx :
  orders_positive bs -> Forall (fun o => (0 < Order.quantity o)%Z) (orders_of bs idx).
Proof.
  intros H. unfold orders_of.
  destruct (pending_orders bs !! idx) as [l|] eqn:E; simpl; [eauto | constructor].
Qed.

Lemma fold_receive_invariant idx l :
  Forall (fun o => (0 < Order.quantity o)%Z) l ->
  forall bs, inventory_nonneg bs /\ orders_positive bs ->
  inventory_nonneg (fold_left (receive idx) l bs)
  /\ orders_positive (fold_left (receive idx) l bs).
Proof.
  induction 1 as [|o l Hq _ IH]; intros bs H; simpl; [exact H|].
  apply IH. now apply receive_invariant.
Qed.

Lemma fold_remove_Forall (P : Order -> Prop) removed : forall l,
  Forall P l -> Forall P (fold_left (fun l o => list_remove o l) removed l).
Proof.
  induction removed as [|o removed IH]; intros l H; simpl; [exact H|].
  apply IH. now apply list_remove_Forall.
Qed.

Lemma fold_receive_pending idx l : forall bs,
  pending_orders (fold_left (receive idx) l bs) = pending_orders bs.
Proof. induction l as [|o l IH]; intros bs; simpl; [reflexivity | now rewrite IH]. Qed.

Lemma deliver_product_invariant bs idx :
  inventory_nonneg bs /\ orders_positive bs ->
  inventory_nonneg (deliver_product bs idx)
  /\ orders_positive (deliver_product bs idx).
Proof.
  intros H. unfold deliver_product.
  set (orders := map age (orders_of bs idx)).
  assert (Forall (fun o => (0 < Order.quantity o)%Z) orders) as Hpos.
  { unfold orders. apply Forall_map.
    eapply Forall_impl; [apply orders_of_positive, H|]. auto. }
  set (delivered := List.filter arrives orders).
  assert (Forall (fun o => (0 < Order.quantity o)%Z) delivered) as Hd.
  { rewrite List.Forall_forall in *. intros o Hin. apply Hpos.
    unfold delivered in Hin. apply List.filter_In in Hin. tauto. }
  destruct (fold_receive_invariant idx delivered Hd bs H) as [Hi' Ho'].
  split; [exact Hi'|].
  intros i l. simpl. intros Hl.
  destruct (decide (idx = i)) as [-> | Hne].
  - rewrite lookup_insert_eq in Hl. injection Hl as <-.
    now apply fold_remove_Forall.
  - rewrite lookup_insert_ne in Hl by exact Hne. eauto.
Qed.

Lemma _process_supplier_deliveries_invariant bs :
  inventory_nonneg bs /\ orders_positive bs ->
  inventory_nonneg (_process_supplier_deliveries bs)
  /\ orders_positive (_process_supplier_deliveries bs).
Proof.
  unfold _process_supplier_deliveries.
  apply (fold_left_preserves (fun b => inventory_nonneg b /\ orders_positive b)).
  intros a x. apply deliver_product_invariant.
Qed.


(** *** Restock actions *)

Lemma _execute_restock_action_placed bs i product a :
  fst (_execute_restock_action bs i product a)
  = match placed_order (cash_flow bs) product a with
    | Some o => place_order i o bs
    | None => bs
    end.
Proof.
  unfold _execute_restock_action, placed_order.
  destruct (tier_quantity a) as [q0|]; [|reflexivity].
  destruct (affordable (cash_flow bs) product q0) as [q c].
  now destruct (0 <? q)%Z.
Qed.

Lemma py_int_nonneg (x : Q) :
  0 <= x -> Py.float (Py.int x) <= x /\ x < Py.float (Py.int x + 1).
Proof.
  intros Hx. unfold Py.int, Py.float.
  assert (0 <= Qnum x)%Z as Hn.
  { unfold Qle in Hx. simpl in Hx. lia. }
  rewrite Z.quot_div_nonneg by lia.
  destruct x as [n d]. cbn [Qnum Qden].
  change (n / Z.pos d)%Z with (Qfloor (n # d)).
  split; [apply Qfloor_le | apply Qlt_floor].
Qed.

Lemma py_int_nonpos (x : Q) : x <= 0 -> (Py.int x <= 0)%Z.
Proof.
  intros Hx. unfold Py.int.
  assert (Qnum x <= 0)%Z as Hn.
  { unfold Qle in Hx. simpl in Hx. lia. }
  replace (Qnum x) with (- - Qnum x)%Z by lia.
  rewrite Z.quot_opp_l by lia.
  pose proof (Z.quot_pos (- Qnum x) (Z.pos (Qden x))). lia.
Qed.

Lemma product_cost_price_positive product :
  In product products -> 0 < cost_price product.
Proof.
  unfold products, _create_product_catalog. simpl.
  intros [<- | [<- | [<- | [<- | [<- | []]]]]]; reflexivity.
Qed.

Lemma scale_le (a x p c : Q) : a <= x -> 0 < p -> x * p == c -> a * p <= c.
Proof. intros Ha Hp <-. apply Qmult_le_compat_r; lra. Qed.

Lemma scale_lt (a x p c : Q) : x < a -> 0 < p -> x * p == c -> c < a * p.
Proof. intros Ha Hp <-. apply Qmult_lt_compat_r; lra. Qed.

Lemma unscale_lt (a b p : Q) : a * p < b * p -> 0 < p -> a < b.
Proof.
  intros H Hp. destruct (Qlt_le_dec a b) as [Hlt | Hle]; [exact Hlt|].
  assert (b * p <= a * p) by (apply Qmult_le_compat_r; lra). lra.
Qed.

(** What [affordable] buys: the whole tier when the cash covers it, else
    as many units as the cash pays for. *)
Lemma affordable_spec cash product q0 :
  0 < cost_price product ->
  let '(q, c) := affordable cash product q0 in
  c = Py.float q * cost_price product
  /\ ((0 < q)%Z -> c <= cash)
  /\ (cash < Py.float q0 * cost_price product ->
      q = Py.int (cash / cost_price product)
      /\ (0 <= cash ->
          (0 <= q < q0)%Z
          /\ Py.float q * cost_price product <= cash
          /\ cash < Py.float (q + 1) * cost_price product)).
Proof.
  intros Hp. unfold affordable.
  destruct (Qltb_spec cash (Py.float q0 * cost_price product)) as [Hlt | Hge].
  - split; [reflexivity|].
    set (x := cash / cost_price product).
    assert (x * cost_price product == cash) as Hx.
    { unfold x. field. lra. }
    assert (0 <= cash -> 0 <= x) as Hx0.
    { intros H. unfold x. apply Qle_shift_div_l; lra. }
    clearbody x. split.
    + intros Hq. destruct (Qlt_le_dec cash 0) as [Hneg | Hpos].
      * assert (x <= 0) as Hx1.
        { destruct (Qlt_le_dec 0 x) as [Hx1 | Hx1]; [|exact Hx1].
          assert (0 * cost_price product < x * cost_price product)
            by (apply Qmult_lt_compat_r; lra). lra. }
        apply py_int_nonpos in Hx1. lia.
      * destruct (py_int_nonneg x (Hx0 Hpos)) as [Hlo _].
        eapply scale_le; eauto.
    + intros _. split; [reflexivity|]. intros Hc.
      destruct (py_int_nonneg x (Hx0 Hc)) as [Hlo Hhi].
      assert (Py.float (Py.int x) * cost_price product <= cash) as H1
        by (eapply scale_le; eauto).
      assert (cash < Py.float (Py.int x + 1) * cost_price product) as H2
        by (eapply scale_lt; eauto).
      split; [|split; assumption].
      split.
      * unfold Py.int. apply Z.quot_pos; [|lia].
        specialize (Hx0 Hc). unfold Qle in Hx0. simpl in Hx0. lia.
      * assert (Py.float (Py.int x) < Py.float q0) as Hf.
        { apply (unscale_lt _ _ (cost_price product)); lra. }
        unfold Py.float in Hf. now rewrite <- Zlt_Qlt in Hf.
  - split; [reflexivity|]. split; [intros _; lra|]. intros H. contradiction.
Qed.


Lemma placed_order_positive cash product a o :
  placed_order cash product a = Some o -> (0 < Order.quantity o)%Z.
Proof.
  unfold placed_order. destruct (tier_quantity a) as [q0|]; [|discriminate].
  destruct (affordable cash product q0) as [q c].
  destruct (0 <? q)%Z eqn:E; [|discriminate].
  intros H. injection H as <-. simpl. now apply Z.ltb_lt.
Qed.

Lemma place_order_invariant i o bs :
  (0 < Order.quantity o)%Z ->
  inventory_nonneg bs /\ orders_positive bs ->
  inventory_nonneg (place_order i o bs) /\ orders_positive (place_order i o bs).
Proof.
  intros Hq [Hi Ho]. split; [exact Hi|].
  intros j l. unfold place_order. simpl. intros Hl.
  destruct (decide (i = j)) as [-> | Hne].
  - rewrite lookup_insert_eq in Hl. injection Hl as <-.
    apply Forall_app. split; [now apply orders_of_positive|].
    now repeat constructor.
  - rewrite lookup_insert_ne in Hl by exact Hne. eauto.
Qed.

Lemma _execute_restock_action_invariant bs i product a :
  inventory_nonneg bs /\ orders_positive bs ->
  inventory_nonneg (fst (_execute_restock_action bs i product a))
  /\ orders_positive (fst (_execute_restock_action bs i product a)).
Proof.
  intros H. rewrite _execute_restock_action_placed.
  destruct (placed_order (cash_flow bs) product a) as [o|] eqn:E; [|exact H].
  apply place_order_invariant; [|exact H]. eapply placed_order_positive, E.
Qed.

Lemma restock_product_fst product_actions acc ip :
  fst (restock_product product_actions acc ip)
  = if (0 <? zget product_actions (fst ip))%Z
    then fst (_execute_restock_action (fst acc) (fst ip) (snd ip)
                (zget product_actions (fst ip)))
    else fst acc.
Proof.
  destruct acc as [bs c], ip as [i product]. simpl.
  destruct (0 <? zget product_actions i)%Z; [|reflexivity].
  now destruct (_execute_restock_action bs i product (zget product_actions i)).
Qed.

Lemma restock_loop_invariant product_actions todo : forall acc,
  inventory_nonneg (fst acc) /\ orders_positive (fst acc) ->
  inventory_nonneg (fst (fold_left (restock_product product_actions) todo acc))
  /\ orders_positive (fst (fold_left (restock_product product_actions) todo acc)).
Proof.
  apply (fold_left_preserves
           (fun acc => inventory_nonneg (fst acc) /\ orders_positive (fst acc))).
  intros acc ip H. rewrite restock_product_fst.
  destruct (0 <? _)%Z; [|exact H]. now apply _execute_restock_action_invariant.
Qed.

(** *** Business actions, daily operations and the update *)

Lemma boost_demand_trends_frame factor bs :
  inventory_levels (boost_demand_trends factor bs) = inventory_levels bs
  /\ pending_orders (boost_demand_trends factor bs) = pending_orders bs
  /\ cash_flow (boost_demand_trends factor bs) = cash_flow bs.
Proof.
  unfold boost_demand_trends.
  apply (fold_left_preserves
           (fun b => inventory_levels b = inventory_levels bs
                     /\ pending_orders b = pending_orders bs
                     /\ cash_flow b = cash_flow bs)); [|auto].
  intros b i H. exact H.
Qed.

Lemma _execute_business_actions_frame bs business_actions :
  inventory_levels (_execute_business_actions bs business_actions)
  = inventory_levels bs
  /\ pending_orders (_execute_business_actions bs business_actions)
     = pending_orders bs.
Proof.
  unfold _execute_business_actions.
  destruct (_ =? 1)%Z; [|destruct (_ =? 2)%Z]; try (split; reflexivity).
  - destruct (Qle_bool 1000 (cash_flow bs)); [|split; reflexivity].
    destruct (boost_demand_trends_frame (11 # 10)
                (set_cash_flow (cash_flow bs - 1000) bs)) as (-> & -> & _).
    split; reflexivity.
  - destruct (Qle_bool 2500 (cash_flow bs)); [|split; reflexivity].
    destruct (boost_demand_trends_frame (12 # 10)
                (set_cash_flow (cash_flow bs - 2500) bs)) as (-> & -> & _).
    split; reflexivity.
Qed.

Lemma simulate_product_frame dv acc ip :
  inventory_levels (loop_state (simulate_product dv acc ip))
  = <[fst ip :=
        (zget (inventory_levels (loop_state acc)) (fst ip)
         - Z.min (daily_demand_of dv (loop_state acc) (fst ip) (snd ip))
                 (zget (inventory_levels (loop_state acc)) (fst ip)))%Z]>
      (inventory_levels (loop_state acc))
  /\ pending_orders (loop_state (simulate_product dv acc ip))
     = pending_orders (loop_state acc).
Proof.
  destruct ip as [i product]. unfold simulate_product. cbn [fst snd].
  match goal with |- context [if ?c then _ else _] => destruct c end;
    split; reflexivity.
Qed.

Lemma simulate_product_invariant dv acc ip :
  inventory_nonneg (loop_state acc) /\ orders_positive (loop_state acc) ->
  inventory_nonneg (loop_state (simulate_product dv acc ip))
  /\ orders_positive (loop_state (simulate_product dv acc ip)).
Proof.
  intros [Hi Ho]. unfold inventory_nonneg, orders_positive.
  destruct (simulate_product_frame dv acc ip) as [-> ->].
  split; [|exact Ho]. apply Forall_insert; [exact Hi|]. lia.
Qed.

Lemma _simulate_daily_operations_frame dv bs :
  inventory_levels (fst (_simulate_daily_operations dv bs))
  = inventory_levels
      (loop_state
         (fold_left (simulate_product dv) (enumerate products)
            {| loop_state := bs; loop_revenue := 0; loop_costs := 0;
               loop_units_sold := 0; loop_stockouts := 0 |}))
  /\ pending_orders (fst (_simulate_daily_operations dv bs))
     = pending_orders
         (loop_state
            (fold_left (simulate_product dv) (enumerate products)
               {| loop_state := bs; loop_revenue := 0; loop_costs := 0;
                  loop_units_sold := 0; loop_stockouts := 0 |})).
Proof.
  unfold _simulate_daily_operations.
  generalize (fold_left (simulate_product dv) (enumerate products)
                {| loop_state := bs; loop_revenue := 0; loop_costs := 0;
                   loop_units_sold := 0; loop_stockouts := 0 |}).
  intros acc. cbn [fst].
  destruct (loop_stockouts acc =? 0)%Z; split; reflexivity.
Qed.

Lemma _simulate_daily_operations_invariant dv bs :
  inventory_nonneg bs /\ orders_positive bs ->
  inventory_nonneg (fst (_simulate_daily_operations dv bs))
  /\ orders_positive (fst (_simulate_daily_operations dv bs)).
Proof.
  intros H. unfold inventory_nonneg, orders_positive.
  destruct (_simulate_daily_operations_frame dv bs) as [-> ->].
  apply (fold_left_preserves
           (fun acc => inventory_nonneg (loop_state acc)
                       /\ orders_positive (loop_state acc))
           (simulate_product dv)); [|exact H].
  intros acc ip. apply simulate_product_invariant.
Qed.

Lemma _update_business_state_frame bs daily_results :
  inventory_levels (_update_business_state bs daily_results) = inventory_levels bs
  /\ pending_orders (_update_business_state bs daily_results) = pending_orders bs.
Proof.
  unfold _update_business_state.
  destruct (Py.Qltb 0 _); [destruct (Py.Qltb 0 _)|]; split; reflexivity.
Qed.

(** *** Steps and runs *)

Lemma step_from_restock_invariant days inp todo acc :
  inventory_nonneg (fst acc) /\ orders_positive (fst acc) ->
  inventory_nonneg (business_state (next_env (step_from_restock days inp todo acc)))
  /\ orders_positive
       (business_state (next_env (step_from_restock days inp todo acc))).
Proof.
  intros H. unfold step_from_restock.
  pose proof (restock_loop_invariant (take num_products (action inp)) todo acc H)
    as H2.
  destruct (fold_left _ todo acc) as [bs2 costs]. cbn [fst] in H2.
  set (bs3 := _execute_business_actions bs2 _).
  assert (inventory_nonneg bs3 /\ orders_positive bs3) as H3.
  { unfold inventory_nonneg, orders_positive, bs3.
    destruct (_execute_business_actions_frame bs2
                (drop num_products (action inp))) as [-> ->]. exact H2. }
  pose proof (_simulate_daily_operations_invariant (demand_variance inp) bs3 H3)
    as H4.
  destruct (_simulate_daily_operations _ bs3) as [bs4 results].
  cbn [fst] in H4. cbn [next_env business_state].
  unfold inventory_nonneg, orders_positive.
  destruct (_update_business_state_frame bs4 results) as [-> ->]. exact H4.
Qed.

Lemma step_invariant env inp r :
  step env inp = Some r ->
  inventory_nonneg (business_state env) /\ orders_positive (business_state env) ->
  inventory_nonneg (business_state (next_env r))
  /\ orders_positive (business_state (next_env r)).
Proof.
  unfold step. destruct (in_action_space (action inp)); [|discriminate].
  intros H Hinv. injection H as <-.
  apply step_from_restock_invariant. cbn [fst].
  now apply _process_supplier_deliveries_invariant.
Qed.

Lemma run_invariant inputs : forall env env',
  run env inputs = Some env' ->
  inventory_nonneg (business_state env) /\ orders_positive (business_state env) ->
  inventory_nonneg (business_state env') /\ orders_positive (business_state env').
Proof.
  induction inputs as [|inp inputs IH]; intros env env'; simpl.
  - intros H. now injection H as <-.
  - destruct (step env inp) as [r|] eqn:E; [|discriminate].
    intros H Hinv. apply (IH _ _ H). eapply step_invariant; eauto.
Qed.

Lemma reset_invariant d :
  draws_in_range d ->
  inventory_nonneg (business_state (reset d))
  /\ orders_positive (business_state (reset d)).
Proof.
  intros (Hinv & _). split.
  - unfold inventory_nonneg.
    cbn [business_state reset _create_business_state inventory_levels].
    apply List.Forall_forall. intros x Hx.
    apply in_map_iff in Hx as (i & <- & _). specialize (Hinv i). lia.
  - intros i l.
    cbn [business_state reset _create_business_state pending_orders].
    intros Hl. apply elem_of_list_to_map_2 in Hl.
    apply list_elem_of_fmap in Hl as (j & Hj & _). injection Hj as _ ->.
    constructor.
Qed.

(** A run goes through exactly when every action is in the action space. *)
Lemma run_total inputs : forall env,
  Forall (fun inp => in_action_space (action inp) = true) inputs ->
  exists env', run env inputs = Some env'.
Proof.
  induction inputs as [|inp inputs IH]; intros env H; simpl; [eauto|].
  inversion H as [|? ? Hin Hrest]; subst. unfold step. rewrite Hin. apply IH, Hrest.
Qed.

(** *** The cash a restock action takes *)

Lemma placed_order_cost cash product a o :
  In product products ->
  placed_order cash product a = Some o ->
  0 < Order.cost o <= cash
  /\ Order.cost o = Py.float (Order.quantity o) * cost_price product.
Proof.
  intros Hp. apply product_cost_price_positive in Hp.
  unfold placed_order. destruct (tier_quantity a) as [q0|]; [|discriminate].
  pose proof (affordable_spec cash product q0 Hp) as Hs.
  destruct (affordable cash product q0) as [q c].
  destruct Hs as (Hc & Hle & _).
  destruct (0 <? q)%Z eqn:E; [|discriminate].
  apply Z.ltb_lt in E. intros H. injection H as <-. simpl.
  split; [|exact Hc]. split; [|auto].
  rewrite Hc. apply Qmult_lt_0_compat; [|exact Hp].
  change 0 with (Py.float 0). now apply py_float_lt.
Qed.

(** C2. In every episode, after every step, the inventory level of each
    product is at least zero. A restock action never takes more cash than
    there is when it is applied: it takes nothing, or a positive amount no
    larger than the cash flow, and with a negative cash flow it changes
    nothing. When the cash does not cover the cost of the
    requested tier, the action does not fail: it buys the largest quantity
    the cash pays for, which is below the tier's. *)
Theorem inventory_and_restock_cash_invariant d inputs env :
  draws_in_range d ->
  run (reset d) inputs = Some env ->
  inventory_nonneg (business_state env)
  /\ forall bs i product a,
       In product products ->
       let bs' := fst (_execute_restock_action bs i product a) in
       let deducted := cash_flow bs - cash_flow bs' in
       0 <= deducted
       /\ (0 < deducted -> deducted <= cash_flow bs)
       /\ (cash_flow bs < 0 -> bs' = bs)
       /\ forall tier,
            tier_quantity a = Some tier ->
            0 <= cash_flow bs < Py.float tier * cost_price product ->
            let quantity := Py.int (cash_flow bs / cost_price product) in
            (0 <= quantity < tier)%Z
            /\ Py.float quantity * cost_price product <= cash_flow bs
            /\ cash_flow bs < Py.float (quantity + 1) * cost_price product
            /\ deducted == Py.float quantity * cost_price product
            /\ orders_of bs' i
               = orders_of bs i
                 ++ (if (0 <? quantity)%Z
                     then [Order.mk quantity (lead_time product)
                             (Py.float quantity * cost_price product)]
                     else []).
Proof.
  intros Hd Hrun. split.
  { apply (run_invariant inputs _ _ Hrun), reset_invariant, Hd. }
  intros bs i product a Hp bs' deducted.
  assert (match placed_order (cash_flow bs) product a with
          | Some o => deducted == Order.cost o
                      /\ orders_of bs' i = orders_of bs i ++ [o]
          | None => deducted == 0 /\ orders_of bs' i = orders_of bs i
          end) as Hcase.
  { unfold deducted, bs'. rewrite _execute_restock_action_placed.
    destruct (placed_order (cash_flow bs) product a) as [o|].
    - split; [simpl; ring|].
      unfold place_order, orders_of at 1. simpl.
      now rewrite lookup_insert_eq.
    - split; [ring | reflexivity]. }
  split; [|split; [|split]].
  - destruct (placed_order (cash_flow bs) product a) as [o|] eqn:E.
    + destruct (placed_order_cost _ _ _ _ Hp E) as [[H0 _] _].
      destruct Hcase as [-> _]. lra.
    + destruct Hcase as [-> _]. lra.
  - destruct (placed_order (cash_flow bs) product a) as [o|] eqn:E.
    + destruct (placed_order_cost _ _ _ _ Hp E) as [[_ H1] _].
      destruct Hcase as [-> _]. auto.
    + destruct Hcase as [-> _]. lra.
  - intros Hneg. unfold bs'. rewrite _execute_restock_action_placed.
    destruct (placed_order (cash_flow bs) product a) as [o|] eqn:E;
      [|reflexivity].
    destruct (placed_order_cost _ _ _ _ Hp E) as [[H0 H1] _]. lra.
  - intros tier Ht [Hc0 Hc1] quantity.
    pose proof (affordable_spec (cash_flow bs) product tier
                  (product_cost_price_positive _ Hp)) as Hs.
    unfold placed_order in Hcase. rewrite Ht in Hcase.
    destruct (affordable (cash_flow bs) product tier) as [q c].
    destruct Hs as (Hcq & _ & Hs). destruct (Hs Hc1) as (Hq & Hs').
    destruct (Hs' Hc0) as (Hr & Hlo & Hhi). fold quantity in Hq. subst q.
    split; [exact Hr|]. split; [exact Hlo|]. split; [exact Hhi|].
    destruct (0 <? quantity)%Z eqn:E.
    + destruct Hcase as [Hde Hor]. simpl in Hde. rewrite Hde, Hor, Hcq.
      split; reflexivity.
    + destruct Hcase as [Hde Hor]. rewrite Hde, Hor, app_nil_r.
      split; [|reflexivity].
      apply Z.ltb_ge in E. assert (quantity = 0%Z) as -> by lia.
      unfold Py.float. simpl. ring.
Qed.

(** *** Orders in transit *)

Ltac bs_cbn :=
  cbn [inventory_levels days_since_restock cash_flow accounts_receivable
       accounts_payable customer_satisfaction supplier_relationships
       market_condition season demand_trends monthly_revenue monthly_costs
       inventory_turnover pending_orders stockout_days total_profit
       set_inventory_levels set_days_since_restock set_cash_flow
       set_customer_satisfaction set_demand_trends set_monthly_revenue
       set_monthly_costs set_inventory_turnover set_pending_orders
       set_stockout_days set_total_profit] in *.

Lemma order_eqb_arrives x o : Order.eqb x o = true -> arrives x = arrives o.
Proof.
  unfold Order.eqb, arrives. intros H.
  apply andb_true_iff in H as [H _]. apply andb_true_iff in H as [_ H].
  apply Z.eqb_eq in H. now rewrite H.
Qed.

Lemma order_eqb_refl o : Order.eqb o o = true.
Proof.
  unfold Order.eqb. rewrite !Z.eqb_refl. simpl.
  apply Qeq_bool_iff. reflexivity.
Qed.

(** Removing arrived orders from a list whose head has not arrived
    leaves the head in place. *)
Lemma fold_remove_cons x removed : forall rest,
  arrives x = false ->
  Forall (fun o => arrives o = true) removed ->
  fold_left (fun l o => list_remove o l) removed (x :: rest)
  = x :: fold_left (fun l o => list_remove o l) removed rest.
Proof.
  induction removed as [|o removed IH]; intros rest Hx Hr; [reflexivity|].
  inversion Hr as [|? ? Ho Hr']; subst. cbn [fold_left list_remove].
  destruct (Order.eqb x o) eqn:E.
  - apply order_eqb_arrives in E. congruence.
  - now apply IH.
Qed.

Lemma filter_arrives_Forall l :
  Forall (fun o => arrives o = true) (List.filter arrives l).
Proof.
  apply List.Forall_forall. intros o Hin.
  apply List.filter_In in Hin. tauto.
Qed.

(** Removing the delivered orders one by one, as the code does, keeps
    exactly the orders that have not arrived, in their order. *)
Lemma fold_remove_delivered l :
  fold_left (fun l o => list_remove o l) (List.filter arrives l) l
  = List.filter (fun o => negb (arrives o)) l.
Proof.
  induction l as [|x l IH]; [reflexivity|].
  cbn [List.filter]. destruct (arrives x) eqn:E; cbn [negb].
  - cbn [fold_left list_remove]. now rewrite order_eqb_refl.
  - rewrite fold_remove_cons; [now rewrite IH | exact E | apply filter_arrives_Forall].
Qed.

Lemma deliver_product_unfold bs idx :
  deliver_product bs idx
  = let orders := map age (orders_of bs idx) in
    let bs1 := fold_left (receive idx) (List.filter arrives orders) bs in
    set_pending_orders
      (<[idx := List.filter (fun o => negb (arrives o)) orders]>
         (pending_orders bs1)) bs1.
Proof. unfold deliver_product. cbv zeta. now rewrite fold_remove_delivered. Qed.

Lemma fold_receive_set_pending idx P l : forall bs,
  fold_left (receive idx) l (set_pending_orders P bs)
  = set_pending_orders P (fold_left (receive idx) l bs).
Proof.
  induction l as [|o l IH]; intros bs; [reflexivity|].
  cbn [fold_left]. now rewrite <- IH.
Qed.

Lemma zget_insert (l : list Z) i v :
  (forall w, <[i := w]> (<[i := v]> l) = <[i := w]> l)
  /\ ((i < length l)%nat -> zget (<[i := v]> l) i = v)
  /\ ((length l <= i)%nat -> <[i := v]> l = l).
Proof.
  split; [|split].
  - intros w. apply list_insert_insert_eq.
  - intros Hlt. unfold zget. now rewrite list_lookup_insert_eq.
  - intros Hge. now apply list_insert_ge.
Qed.

Lemma add_inventory_add i a b bs :
  add_inventory i b (add_inventory i a bs) = add_inventory i (a + b) bs.
Proof.
  unfold add_inventory. bs_cbn.
  destruct (zget_insert (inventory_levels bs) i
              (zget (inventory_levels bs) i + a)%Z) as (Hii & Hlt & Hge).
  destruct (decide (i < length (inventory_levels bs))%nat) as [H | H].
  - rewrite (Hlt H), Hii. now rewrite Z.add_assoc.
  - rewrite !list_insert_ge by (rewrite ?length_insert; lia). reflexivity.
Qed.

Lemma add_inventory_zero i bs : add_inventory i 0 bs = bs.
Proof.
  unfold add_inventory. rewrite Z.add_0_r.
  assert (<[i := zget (inventory_levels bs) i]> (inventory_levels bs)
          = inventory_levels bs) as ->; [|apply set_inventory_levels_id].
  unfold zget. destruct (inventory_levels bs !! i) as [x|] eqn:E; simpl.
  - now apply list_insert_id.
  - apply list_insert_ge. now apply lookup_ge_None.
Qed.


Lemma receive_add_inventory_same idx q bs o :
  receive idx (add_inventory idx q bs) o = add_inventory idx q (receive idx bs o).
Proof.
  change (receive idx (add_inventory idx q bs) o)
    with (add_inventory idx (Order.quantity o) (add_inventory idx q bs)).
  change (receive idx bs o) with (add_inventory idx (Order.quantity o) bs).
  rewrite !add_inventory_add. f_equal. lia.
Qed.

Lemma fold_receive_add_inventory_same idx q l : forall bs,
  fold_left (receive idx) l (add_inventory idx q bs)
  = add_inventory idx q (fold_left (receive idx) l bs).
Proof.
  induction l as [|o l IH]; intros bs; [reflexivity|].
  cbn [fold_left]. now rewrite receive_add_inventory_same, IH.
Qed.

Lemma fold_receive_middle idx l1 o l2 bs :
  fold_left (receive idx) (l1 ++ o :: l2) bs
  = add_inventory idx (Order.quantity o) (fold_left (receive idx) (l1 ++ l2) bs).
Proof.
  rewrite !fold_left_app. cbn [fold_left].
  change (receive idx (fold_left (receive idx) l1 bs) o)
    with (add_inventory idx (Order.quantity o) (fold_left (receive idx) l1 bs)).
  apply fold_receive_add_inventory_same.
Qed.

Lemma zget_insert_ne (l : list Z) i j v : i <> j -> zget (<[i := v]> l) j = zget l j.
Proof. intros H. unfold zget. now rewrite list_lookup_insert_ne. Qed.

Lemma receive_add_inventory_other i idx q bs o :
  idx <> i ->
  receive idx (add_inventory i q bs) o = add_inventory i q (receive idx bs o).
Proof.
  intros Hne. unfold receive, add_inventory. bs_cbn.
  rewrite !zget_insert_ne by congruence.
  rewrite (list_insert_insert_ne (inventory_levels bs) idx i) by congruence. reflexivity.
Qed.

Lemma fold_receive_add_inventory_other i idx q l : idx <> i -> forall bs,
  fold_left (receive idx) l (add_inventory i q bs)
  = add_inventory i q (fold_left (receive idx) l bs).
Proof.
  intros Hne. induction l as [|o l IH]; intros bs; [reflexivity|].
  cbn [fold_left]. now rewrite receive_add_inventory_other, IH.
Qed.

(** The orders that stay in transit after a day. *)
Lemma with_order_orders_of i pre o post bs bsw :
  with_order i pre o post bs bsw ->
  orders_of bs i = pre ++ post /\ orders_of bsw i = pre ++ o :: post
  /\ (forall idx, idx <> i -> orders_of bsw idx = orders_of bs idx)
  /\ inventory_levels bsw = inventory_levels bs
  /\ cash_flow bsw = cash_flow bs.
Proof.
  intros [Hp ->]. unfold orders_of. bs_cbn.
  rewrite Hp, lookup_insert_eq. repeat split; try reflexivity.
  intros idx Hne. now rewrite lookup_insert_ne by congruence.
Qed.

Lemma deliver_product_other i idx pre o post bs bsw :
  idx <> i ->
  with_order i pre o post bs bsw ->
  with_order i pre o post (deliver_product bs idx) (deliver_product bsw idx).
Proof.
  intros Hne H.
  destruct (with_order_orders_of _ _ _ _ _ _ H) as (_ & _ & Hother & _ & _).
  destruct H as [Hp ->]. rewrite !deliver_product_unfold. cbv zeta.
  rewrite (Hother idx Hne). rewrite fold_receive_set_pending. split.
  - bs_cbn. rewrite ?fold_receive_pending.
    now rewrite lookup_insert_ne by congruence.
  - bs_cbn. rewrite ?fold_receive_pending.
    rewrite (insert_insert_ne (pending_orders bs)) by congruence. reflexivity.
Qed.

Lemma deliver_product_in_transit i pre o post bs bsw :
  with_order i pre o post bs bsw ->
  arrives (age o) = false ->
  with_order i
    (List.filter (fun o => negb (arrives o)) (map age pre)) (age o)
    (List.filter (fun o => negb (arrives o)) (map age post))
    (deliver_product bs i) (deliver_product bsw i).
Proof.
  intros H Ho.
  destruct (with_order_orders_of _ _ _ _ _ _ H) as (Hb & Hw & _).
  destruct H as [Hp ->]. rewrite !deliver_product_unfold. cbv zeta.
  rewrite Hb, Hw. rewrite !map_app, !List.filter_app. cbn [map List.filter].
  rewrite Ho. cbn [negb]. rewrite <- !List.filter_app.
  rewrite fold_receive_set_pending. split.
  - bs_cbn. rewrite lookup_insert_eq. now rewrite List.filter_app.
  - bs_cbn. rewrite ?fold_receive_pending, !insert_insert_eq. reflexivity.
Qed.

Lemma deliver_product_arrival i pre o post bs bsw :
  with_order i pre o post bs bsw ->
  arrives (age o) = true ->
  deliver_product bsw i = add_inventory i (Order.quantity o) (deliver_product bs i).
Proof.
  intros H Ho.
  destruct (with_order_orders_of _ _ _ _ _ _ H) as (Hb & Hw & _).
  destruct H as [Hp ->]. rewrite !deliver_product_unfold. cbv zeta.
  rewrite Hb, Hw. rewrite !map_app, !List.filter_app. cbn [map List.filter].
  rewrite Ho. cbn [negb].
  rewrite fold_receive_set_pending, fold_receive_middle.
  change (Order.quantity (age o)) with (Order.quantity o).
  unfold add_inventory. bs_cbn.
  rewrite ?fold_receive_pending, insert_insert_eq. reflexivity.
Qed.

Lemma deliver_product_merged i idx q bs :
  idx <> i ->
  deliver_product (add_inventory i q bs) idx
  = add_inventory i q (deliver_product bs idx).
Proof.
  intros Hne. rewrite !deliver_product_unfold. cbv zeta.
  change (orders_of (add_inventory i q bs) idx) with (orders_of bs idx).
  rewrite fold_receive_add_inventory_other by exact Hne. reflexivity.
Qed.

Lemma seq_split (n i : nat) :
  (i < n)%nat -> seq 0 n = seq 0 i ++ i :: seq (S i) (n - S i).
Proof.
  intros H. replace n with (i + S (n - S i))%nat at 1 by lia.
  now rewrite seq_app.
Qed.

Lemma deliveries_other i pre o post l : forall bs bsw,
  ~ In i l ->
  with_order i pre o post bs bsw ->
  with_order i pre o post
    (fold_left deliver_product l bs) (fold_left deliver_product l bsw).
Proof.
  induction l as [|idx l IH]; intros bs bsw Hin H; [exact H|].
  cbn [fold_left]. apply IH; [intros Hl; apply Hin; now right|].
  apply deliver_product_other; [|exact H]. intros ->. apply Hin. now left.
Qed.

Lemma deliveries_merged i q l : forall bs,
  ~ In i l ->
  fold_left deliver_product l (add_inventory i q bs)
  = add_inventory i q (fold_left deliver_product l bs).
Proof.
  induction l as [|idx l IH]; intros bs Hin; [reflexivity|].
  cbn [fold_left]. rewrite deliver_product_merged.
  - apply IH. intros Hl. apply Hin. now right.
  - intros ->. apply Hin. now left.
Qed.

Lemma seq_not_in_before i : ~ In i (seq 0 i).
Proof. rewrite in_seq. lia. Qed.

Lemma seq_not_in_after i k : ~ In i (seq (S i) k).
Proof. rewrite in_seq. lia. Qed.

(** While an order has more than one day to go, a day of deliveries only
    ages it. *)
Lemma _process_supplier_deliveries_in_transit i pre o post bs bsw :
  (i < num_products)%nat ->
  with_order i pre o post bs bsw ->
  arrives (age o) = false ->
  exists pre' post',
    with_order i pre' (age o) post'
      (_process_supplier_deliveries bs) (_process_supplier_deliveries bsw).
Proof.
  intros Hi H Ho. unfold _process_supplier_deliveries.
  rewrite (seq_split _ _ Hi), !fold_left_app. cbn [fold_left].
  eexists. eexists. apply deliveries_other; [apply seq_not_in_after|].
  apply deliver_product_in_transit; [|exact Ho].
  apply deliveries_other; [apply seq_not_in_before | exact H].
Qed.

(** On its last day in transit, the deliveries add the order's quantity
    to the inventory of its product and drop it from the pending orders. *)
Lemma _process_supplier_deliveries_arrival i pre o post bs bsw :
  (i < num_products)%nat ->
  with_order i pre o post bs bsw ->
  arrives (age o) = true ->
  _process_supplier_deliveries bsw
  = add_inventory i (Order.quantity o) (_process_supplier_deliveries bs).
Proof.
  intros Hi H Ho. unfold _process_supplier_deliveries.
  rewrite (seq_split _ _ Hi), !fold_left_app. cbn [fold_left].
  rewrite (deliver_product_arrival i pre o post
             (fold_left deliver_product (seq 0 i) bs)
             (fold_left deliver_product (seq 0 i) bsw)); [| |exact Ho].
  - apply deliveries_merged, seq_not_in_after.
  - apply deliveries_other; [apply seq_not_in_before | exact H].
Qed.

(** *** The rest of a step does not look at the orders in transit *)

Lemma fold_left_commute {A B} (h : A -> A) (g : A -> B -> A) l :
  (forall a x, g (h a) x = h (g a x)) ->
  forall a, fold_left g l (h a) = h (fold_left g l a).
Proof.
  intros Hg. induction l as [|x l IH]; intros a; [reflexivity|].
  cbn [fold_left]. now rewrite Hg, IH.
Qed.

Lemma boost_demand_trends_set_pending factor P bs :
  boost_demand_trends factor (set_pending_orders P bs)
  = set_pending_orders P (boost_demand_trends factor bs).
Proof.
  unfold boost_demand_trends.
  apply (fold_left_commute (set_pending_orders P)). reflexivity.
Qed.

Lemma _execute_business_actions_set_pending P bs business_actions :
  _execute_business_actions (set_pending_orders P bs) business_actions
  = set_pending_orders P (_execute_business_actions bs business_actions).
Proof.
  unfold _execute_business_actions. bs_cbn.
  destruct (_ =? 1)%Z; [|destruct (_ =? 2)%Z]; try reflexivity.
  - destruct (Qle_bool 1000 (cash_flow bs)); [|reflexivity].
    now rewrite <- boost_demand_trends_set_pending.
  - destruct (Qle_bool 2500 (cash_flow bs)); [|reflexivity].
    now rewrite <- boost_demand_trends_set_pending.
Qed.

Lemma simulate_product_set_pending dv P acc ip :
  simulate_product dv (on_loop_state (set_pending_orders P) acc) ip
  = on_loop_state (set_pending_orders P) (simulate_product dv acc ip).
Proof.
  destruct ip as [i product], acc as [bs rev costs units so].
  unfold simulate_product, on_loop_state, daily_demand_of.
  cbn [loop_state loop_revenue loop_costs loop_units_sold loop_stockouts].
  bs_cbn.
  match goal with |- context [if ?c then _ else _] => destruct c end;
    reflexivity.
Qed.

Lemma _simulate_daily_operations_set_pending dv P bs :
  _simulate_daily_operations dv (set_pending_orders P bs)
  = (set_pending_orders P (fst (_simulate_daily_operations dv bs)),
     snd (_simulate_daily_operations dv bs)).
Proof.
  unfold _simulate_daily_operations.
  change {| loop_state := set_pending_orders P bs; loop_revenue := 0;
            loop_costs := 0; loop_units_sold := 0; loop_stockouts := 0 |}
    with (on_loop_state (set_pending_orders P)
            {| loop_state := bs; loop_revenue := 0; loop_costs := 0;
               loop_units_sold := 0; loop_stockouts := 0 |}).
  rewrite (fold_left_commute (on_loop_state (set_pending_orders P))
             (simulate_product dv));
    [|intros; apply simulate_product_set_pending].
  generalize (fold_left (simulate_product dv) (enumerate products)
                {| loop_state := bs; loop_revenue := 0; loop_costs := 0;
                   loop_units_sold := 0; loop_stockouts := 0 |}).
  intros acc. unfold on_loop_state.
  cbn [loop_state loop_revenue loop_costs loop_units_sold loop_stockouts fst snd].
  destruct (loop_stockouts acc =? 0)%Z; reflexivity.
Qed.

Lemma _update_business_state_set_pending P bs daily_results :
  _update_business_state (set_pending_orders P bs) daily_results
  = set_pending_orders P (_update_business_state bs daily_results).
Proof.
  unfold _update_business_state. bs_cbn.
  destruct (Py.Qltb 0 _); [|reflexivity].
  change (inventory_value
            (set_cash_flow (cash_flow bs + daily_profit daily_results)
               (set_total_profit (total_profit bs + daily_profit daily_results)
                  (set_monthly_costs (monthly_costs bs + daily_costs daily_results)
                     (set_monthly_revenue
                        (monthly_revenue bs + daily_revenue daily_results)
                        (set_pending_orders P bs))))))
    with (inventory_value bs).
  change (inventory_value
            (set_cash_flow (cash_flow bs + daily_profit daily_results)
               (set_total_profit (total_profit bs + daily_profit daily_results)
                  (set_monthly_costs (monthly_costs bs + daily_costs daily_results)
                     (set_monthly_revenue
                        (monthly_revenue bs + daily_revenue daily_results)
                        bs)))))
    with (inventory_value bs).
  destruct (Py.Qltb 0 (inventory_value bs)); reflexivity.
Qed.

Lemma _simulate_daily_operations_pending dv bs :
  pending_orders (fst (_simulate_daily_operations dv bs)) = pending_orders bs.
Proof.
  destruct (_simulate_daily_operations_frame dv bs) as [_ ->].
  apply (fold_left_preserves
           (fun acc => pending_orders (loop_state acc) = pending_orders bs)
           (simulate_product dv)); [|reflexivity].
  intros acc ip H. now destruct (simulate_product_frame dv acc ip) as [_ ->].
Qed.

(** *** Restock actions next to an order in transit *)

Lemma place_order_with_order i j n pre o post bs bsw :
  with_order i pre o post bs bsw ->
  exists post',
    with_order i pre o post' (place_order j n bs) (place_order j n bsw).
Proof.
  intros [Hp ->]. unfold place_order, orders_of. bs_cbn.
  destruct (decide (j = i)) as [-> | Hne].
  - exists (post ++ [n]). rewrite lookup_insert_eq, Hp. unfold default, id.
    split; bs_cbn.
    + rewrite lookup_insert_eq. now rewrite List.app_assoc.
    + rewrite !insert_insert_eq.
      now rewrite <- List.app_assoc, <- List.app_comm_cons.
  - exists post. rewrite lookup_insert_ne by congruence.
    split; bs_cbn.
    + now rewrite lookup_insert_ne by congruence.
    + rewrite (insert_insert_ne (pending_orders bs) j i) by congruence.
      reflexivity.
Qed.

Lemma _execute_restock_action_with_order i j product a pre o post bs bsw :
  with_order i pre o post bs bsw ->
  exists post',
    with_order i pre o post'
      (fst (_execute_restock_action bs j product a))
      (fst (_execute_restock_action bsw j product a)).
Proof.
  intros H. rewrite !_execute_restock_action_placed.
  destruct (with_order_orders_of _ _ _ _ _ _ H) as (_ & _ & _ & _ & ->).
  destruct (placed_order (cash_flow bs) product a) as [n|]; [|eauto].
  exact (place_order_with_order i j n pre o post bs bsw H).
Qed.

Lemma restock_loop_with_order i product_actions pre o todo : forall post acc accw,
  with_order i pre o post (fst acc) (fst accw) ->
  exists post',
    with_order i pre o post'
      (fst (fold_left (restock_product product_actions) todo acc))
      (fst (fold_left (restock_product product_actions) todo accw)).
Proof.
  induction todo as [|ip todo IH]; intros post acc accw H; [eauto|].
  cbn [fold_left].
  assert (exists post',
             with_order i pre o post'
               (fst (restock_product product_actions acc ip))
               (fst (restock_product product_actions accw ip))) as [post' H'].
  { rewrite !restock_product_fst. destruct (0 <? _)%Z; [|eauto].
    eapply _execute_restock_action_with_order, H. }
  eapply IH, H'.
Qed.

(** From the restock loop on, a step keeps an order in transit as it is. *)
Lemma step_from_restock_with_order i days inp todo pre o post acc accw :
  with_order i pre o post (fst acc) (fst accw) ->
  exists post',
    with_order i pre o post'
      (business_state (next_env (step_from_restock days inp todo acc)))
      (business_state (next_env (step_from_restock days inp todo accw)))
    /\ days_remaining (next_env (step_from_restock days inp todo accw))
       = days_remaining (next_env (step_from_restock days inp todo acc)).
Proof.
  intros H.
  destruct (restock_loop_with_order i (take num_products (action inp))
              pre o todo post acc accw H) as [post' H2].
  exists post'. unfold step_from_restock.
  destruct (fold_left _ todo acc) as [bs2 c2].
  destruct (fold_left _ todo accw) as [bsw2 cw2].
  cbn [fst] in H2. destruct H2 as [Hp ->].
  rewrite _execute_business_actions_set_pending,
    _simulate_daily_operations_set_pending.
  set (bs3 := _execute_business_actions bs2 _).
  pose proof (_simulate_daily_operations_pending (demand_variance inp) bs3) as H4.
  destruct (_simulate_daily_operations (demand_variance inp) bs3) as [bs4 res].
  cbn [fst snd next_env business_state days_remaining] in *.
  rewrite _update_business_state_set_pending.
  destruct (_update_business_state_frame bs4 res) as [_ H5].
  destruct (_execute_business_actions_frame bs2
              (drop num_products (action inp))) as [_ H3]. fold bs3 in H3.
  split; [|reflexivity]. split.
  - now rewrite H5, H4, H3.
  - now rewrite H5, H4, H3.
Qed.

Lemma step_in_transit i o env envw inp rw :
  (i < num_products)%nat ->
  in_transit i o env envw ->
  arrives (age o) = false ->
  step envw inp = Some rw ->
  exists r, step env inp = Some r
            /\ in_transit i (age o) (next_env r) (next_env rw).
Proof.
  intros Hi (Hd & pre & post & H) Ho. unfold step.
  destruct (in_action_space (action inp)); [|discriminate].
  intros Hs. injection Hs as <-. eexists. split; [reflexivity|].
  destruct (_process_supplier_deliveries_in_transit i pre o post _ _ Hi H Ho)
    as (pre' & post' & H').
  destruct (step_from_restock_with_order i (days_remaining envw) inp
              (enumerate products) pre' (age o) post'
              (_process_supplier_deliveries (business_state env), 0)
              (_process_supplier_deliveries (business_state envw), 0) H')
    as (post'' & H'' & Hd'').
  rewrite Hd in *. split; [exact Hd''|]. eauto.
Qed.

Lemma age_aged k o : age (aged k o) = aged (S k) o.
Proof. unfold age, aged. cbn [Order.quantity Order.days_remaining Order.cost]. f_equal. lia. Qed.

Lemma run_in_transit i o inputs : forall k env envw envw',
  (i < num_products)%nat ->
  in_transit i (aged k o) env envw ->
  (Z.of_nat k + Z.of_nat (length inputs) < Order.days_remaining o)%Z ->
  run envw inputs = Some envw' ->
  exists env',
    run env inputs = Some env'
    /\ in_transit i (aged (k + length inputs) o) env' envw'.
Proof.
  induction inputs as [|inp inputs IH]; intros k env envw envw' Hi H Hk;
    cbn [run length].
  - intros Hr. injection Hr as <-. exists env. now rewrite Nat.add_0_r.
  - destruct (step envw inp) as [rw|] eqn:Es; [|discriminate]. intros Hr.
    destruct (step_in_transit i (aged k o) env envw inp rw Hi H) as (r & -> & H').
    + unfold arrives, age, aged. cbn [Order.days_remaining].
      apply Z.leb_gt. cbn [length] in Hk. lia.
    + exact Es.
    + rewrite age_aged in H'.
      destruct (IH (S k) (next_env r) (next_env rw) envw' Hi H') as (env' & He & Ht).
      * cbn [length] in Hk. lia.
      * exact Hr.
      * exists env'. split; [exact He|].
        now replace (k + S (length inputs))%nat with (S k + length inputs)%nat by lia.
Qed.

(** *** The step that places the order *)

Lemma fold_receive_cash_flow idx l : forall bs,
  cash_flow (fold_left (receive idx) l bs) = cash_flow bs.
Proof. induction l as [|o l IH]; intros bs; [reflexivity|]. cbn [fold_left]. now rewrite IH. Qed.

Lemma _process_supplier_deliveries_cash_flow bs :
  cash_flow (_process_supplier_deliveries bs) = cash_flow bs.
Proof.
  unfold _process_supplier_deliveries.
  apply (fold_left_preserves (fun b => cash_flow b = cash_flow bs)); [|reflexivity].
  intros b idx H. rewrite deliver_product_unfold. cbv zeta. bs_cbn.
  now rewrite fold_receive_cash_flow.
Qed.

Lemma _execute_restock_action_pending_other i j product a bs :
  j <> i ->
  pending_orders (fst (_execute_restock_action bs j product a)) !! i
  = pending_orders bs !! i.
Proof.
  intros Hne. rewrite _execute_restock_action_placed.
  destruct (placed_order (cash_flow bs) product a) as [n|]; [|reflexivity].
  unfold place_order. bs_cbn. now rewrite lookup_insert_ne.
Qed.

Lemma restock_loop_pending_other i product_actions todo :
  Forall (fun ip => fst ip <> i) todo ->
  forall acc,
    pending_orders (fst (fold_left (restock_product product_actions) todo acc)) !! i
    = pending_orders (fst acc) !! i.
Proof.
  induction 1 as [|ip todo Hip _ IH]; intros acc; [reflexivity|].
  cbn [fold_left]. rewrite IH, restock_product_fst.
  destruct (0 <? _)%Z; [|reflexivity].
  now apply _execute_restock_action_pending_other.
Qed.

Lemma step_from_restock_pending days inp todo acc :
  pending_orders (business_state (next_env (step_from_restock days inp todo acc)))
  = pending_orders
      (fst (fold_left (restock_product (take num_products (action inp))) todo acc)).
Proof.
  unfold step_from_restock.
  destruct (fold_left _ todo acc) as [bs2 c2].
  set (bs3 := _execute_business_actions bs2 _).
  pose proof (_simulate_daily_operations_pending (demand_variance inp) bs3) as H4.
  destruct (_simulate_daily_operations (demand_variance inp) bs3) as [bs4 res].
  cbn [fst next_env business_state] in *.
  destruct (_update_business_state_frame bs4 res) as [_ ->]. rewrite H4.
  unfold bs3. now destruct (_execute_business_actions_frame bs2
                              (drop num_products (action inp))) as [_ ->].
Qed.

(** The product with a lead time of seven days is the first of the
    catalog. *)
Lemma lead_time_seven_first i product :
  products !! i = Some product -> lead_time product = 7%Z ->
  i = 0%nat
  /\ exists rest,
       enumerate products = (0%nat, product) :: rest
       /\ Forall (fun ip => fst ip <> 0%nat) rest.
Proof.
  unfold enumerate, products, _create_product_catalog.
  destruct i as [|[|[|[|[|i]]]]]; cbn [lookup list_lookup];
    intros H; try discriminate H; injection H as <-;
    cbn [lead_time]; intros Hl; try discriminate Hl.
  split; [reflexivity|]. eexists. split; [reflexivity|].
  repeat constructor; discriminate.
Qed.

Lemma with_order_newest i o env :
  (exists pre, pending_orders (business_state env) !! i = Some (pre ++ [o])) ->
  in_transit i o (without_newest_order i env) env.
Proof.
  intros [pre Hp]. split; [reflexivity|]. exists pre, [].
  unfold with_order, without_newest_order, orders_of.
  cbn [business_state]. bs_cbn. rewrite Hp. unfold default, id.
  rewrite removelast_last, lookup_insert_eq, app_nil_r.
  split; [reflexivity|].
  rewrite insert_insert_eq, insert_id by exact Hp.
  symmetry. etransitivity; [|apply set_pending_orders_id]. reflexivity.
Qed.

Lemma step_places_order env inp r i product quantity cost :
  products !! i = Some product -> lead_time product = 7%Z ->
  step env inp = Some r ->
  action inp !! i = Some 3%Z ->
  affordable (cash_flow (business_state env)) product 200 = (quantity, cost) ->
  (0 < quantity)%Z ->
  exists pre,
    pending_orders (business_state (next_env r)) !! i
    = Some (pre ++ [Order.mk quantity 7 cost]).
Proof.
  intros Hp Hl Hs Ha Haff Hq.
  destruct (lead_time_seven_first i product Hp Hl) as (-> & rest & He & Hrest).
  unfold step in Hs. destruct (in_action_space (action inp)); [|discriminate].
  injection Hs as <-. rewrite step_from_restock_pending, He. cbn [fold_left].
  rewrite restock_loop_pending_other by exact Hrest.
  rewrite restock_product_fst. cbn [fst snd].
  assert (zget (take num_products (action inp)) 0 = 3%Z) as ->.
  { unfold zget. rewrite lookup_take_lt by (unfold num_products; simpl; lia).
    now rewrite Ha. }
  change (0 <? 3)%Z with true. cbv iota.
  rewrite _execute_restock_action_placed.
  rewrite _process_supplier_deliveries_cash_flow.
  unfold placed_order. change (tier_quantity 3) with (Some 200%Z).
  cbv iota. rewrite Haff.
  apply Z.ltb_lt in Hq. rewrite Hq, Hl.
  unfold place_order. bs_cbn. rewrite lookup_insert_eq. eauto.
Qed.

(** *** The step that places an order *)

Lemma restock_loop_inventory product_actions todo : forall acc,
  inventory_levels (fst (fold_left (restock_product product_actions) todo acc))
  = inventory_levels (fst acc).
Proof.
  intros acc.
  apply (fold_left_preserves
           (fun a => inventory_levels (fst a) = inventory_levels (fst acc)));
    [|reflexivity].
  intros a ip H. rewrite restock_product_fst.
  destruct (0 <? _)%Z; [|exact H].
  rewrite _execute_restock_action_placed.
  destruct (placed_order _ _ _); exact H.
Qed.

(** The restocks and the business actions of a step add nothing to the
    inventory. *)
Lemma after_purchases_inventory bs a :
  inventory_levels (after_purchases bs a) = inventory_levels bs.
Proof.
  unfold after_purchases.
  destruct (_execute_business_actions_frame
              (fst (fold_left (restock_product (take num_products a))
                      (enumerate products) (bs, 0)))
              (drop num_products a)) as [-> _].
  apply (restock_loop_inventory _ _ (bs, 0)).
Qed.

Lemma step_after_purchases env inp r :
  step env inp = Some r ->
  business_state (next_env r)
  = _update_business_state
      (fst (_simulate_daily_operations (demand_variance inp)
              (after_purchases
                 (_process_supplier_deliveries (business_state env))
                 (action inp))))
      (snd (_simulate_daily_operations (demand_variance inp)
              (after_purchases
                 (_process_supplier_deliveries (business_state env))
                 (action inp)))).
Proof.
  unfold step. destruct (in_action_space (action inp)); [|discriminate].
  intros H. injection H as <-. unfold step_from_restock, after_purchases.
  destruct (fold_left _ (enumerate products) _) as [bs2 costs]. cbn [fst].
  destruct (_simulate_daily_operations _ _) as [bs4 results]. reflexivity.
Qed.

Lemma simulate_product_no_rise dv acc ip j :
  (zget (inventory_levels (loop_state (simulate_product dv acc ip))) j
   <= Z.max 0 (zget (inventory_levels (loop_state acc)) j))%Z.
Proof.
  destruct (simulate_product_frame dv acc ip) as [-> _].
  destruct ip as [i product]. cbn [fst snd].
  assert (0 <= daily_demand_of dv (loop_state acc) i product)%Z as Hd
    by (unfold daily_demand_of; lia).
  destruct (decide (i = j)) as [->|Hne].
  - destruct (zget_insert (inventory_levels (loop_state acc)) j
                (zget (inventory_levels (loop_state acc)) j
                 - Z.min (daily_demand_of dv (loop_state acc) j product)
                         (zget (inventory_levels (loop_state acc)) j))%Z)
      as (_ & Hin & Hout).
    destruct (Nat.lt_ge_cases j (length (inventory_levels (loop_state acc))))
      as [Hlt|Hge].
    + rewrite (Hin Hlt). lia.
    + rewrite (Hout Hge). lia.
  - rewrite zget_insert_ne by exact Hne. lia.
Qed.

(** The sales of a day raise no inventory level. *)
Lemma _simulate_daily_operations_no_rise dv bs j :
  (zget (inventory_levels (fst (_simulate_daily_operations dv bs))) j
   <= Z.max 0 (zget (inventory_levels bs) j))%Z.
Proof.
  destruct (_simulate_daily_operations_frame dv bs) as [-> _].
  apply (fold_left_preserves
           (fun acc => (zget (inventory_levels (loop_state acc)) j
                        <= Z.max 0 (zget (inventory_levels bs) j))%Z)
           (simulate_product dv)); [|cbn [loop_state]; lia].
  intros acc ip H.
  pose proof (simulate_product_no_rise dv acc ip j). lia.
Qed.

(** C9. A large restock (tier 3, 200 units) of the product with a lead
    time of seven days adds nothing to the inventory on the step that
    places it: the restocks and the business actions of that step leave
    the inventory levels as the deliveries opening the step left them, the
    step ends with the day of sales from that inventory, and no level
    after the step is above the level those deliveries left. The order
    placed then stays in transit for the next six days, whatever happens
    on them: the inventory levels are those of the run without the order,
    which is still pending with its remaining days counted down. On the
    seventh day the deliveries that open the step, before any demand is
    served, add its quantity to the inventory of the product and remove
    it from the pending orders. *)
Theorem large_restock_arrives_after_seven_days
    env inp r i product quantity cost inputs env' :
  products !! i = Some product -> lead_time product = 7%Z ->
  step env inp = Some r ->
  action inp !! i = Some 3%Z ->
  affordable (cash_flow (business_state env)) product 200 = (quantity, cost) ->
  (0 < quantity)%Z ->
  (length inputs <= 6)%nat ->
  run (next_env r) inputs = Some env' ->
  (inventory_levels
     (after_purchases (_process_supplier_deliveries (business_state env))
        (action inp))
   = inventory_levels (_process_supplier_deliveries (business_state env))
   /\ business_state (next_env r)
      = _update_business_state
          (fst (_simulate_daily_operations (demand_variance inp)
                  (after_purchases
                     (_process_supplier_deliveries (business_state env))
                     (action inp))))
          (snd (_simulate_daily_operations (demand_variance inp)
                  (after_purchases
                     (_process_supplier_deliveries (business_state env))
                     (action inp))))
   /\ forall j,
        (zget (inventory_levels (business_state (next_env r))) j
         <= Z.max 0
              (zget (inventory_levels
                       (_process_supplier_deliveries (business_state env)))
                 j))%Z)
  /\ exists twin,
    run (without_newest_order i (next_env r)) inputs = Some twin
    /\ in_transit i
         (Order.mk quantity (7 - Z.of_nat (length inputs)) cost) twin env'
    /\ inventory_levels (business_state env')
       = inventory_levels (business_state twin)
    /\ In (Order.mk quantity (7 - Z.of_nat (length inputs)) cost)
          (orders_of (business_state env') i)
    /\ (length inputs = 6%nat ->
        _process_supplier_deliveries (business_state env')
        = add_inventory i quantity
            (_process_supplier_deliveries (business_state twin))).
Proof.
  intros Hp Hl Hs Ha Haff Hq Hlen Hrun.
  split.
  { split; [apply after_purchases_inventory|].
    pose proof (step_after_purchases env inp r Hs) as Hstep.
    split; [exact Hstep|].
    intros j. rewrite Hstep.
    destruct (_update_business_state_frame
                (fst (_simulate_daily_operations (demand_variance inp)
                        (after_purchases
                           (_process_supplier_deliveries (business_state env))
                           (action inp))))
                (snd (_simulate_daily_operations (demand_variance inp)
                        (after_purchases
                           (_process_supplier_deliveries (business_state env))
                           (action inp))))) as [-> _].
    pose proof (_simulate_daily_operations_no_rise (demand_variance inp)
                  (after_purchases
                     (_process_supplier_deliveries (business_state env))
                     (action inp)) j) as Hno.
    rewrite after_purchases_inventory in Hno. exact Hno. }
  pose proof (step_places_order env inp r i product quantity cost
                Hp Hl Hs Ha Haff Hq) as Hplaced.
  apply with_order_newest in Hplaced.
  assert (i < num_products)%nat as Hi.
  { destruct (lead_time_seven_first i product Hp Hl) as [-> _].
    unfold num_products. simpl. lia. }
  destruct (run_in_transit i (Order.mk quantity 7 cost) inputs 0
              (without_newest_order i (next_env r)) (next_env r) env' Hi)
    as (twin & Htwin & Ht).
  - exact Hplaced.
  - cbn [Order.days_remaining]. lia.
  - exact Hrun.
  - exists twin. split; [exact Htwin|].
    change (aged (0 + length inputs) (Order.mk quantity 7 cost))
      with (Order.mk quantity (7 - Z.of_nat (length inputs)) cost) in Ht.
    split; [exact Ht|].
    destruct Ht as (_ & pre & post & Hw).
    destruct (with_order_orders_of _ _ _ _ _ _ Hw) as (_ & Ho & _ & Hinv & _).
    split; [exact Hinv|]. split.
    + rewrite Ho. apply in_or_app. right. now left.
    + intros H6.
      apply (_process_supplier_deliveries_arrival i pre _ post _ _ Hi Hw).
      unfold arrives, age. cbn [Order.days_remaining]. rewrite H6.
      reflexivity.
Qed.


End Simulator.

Lemma example_draws_in_range : Env.draws_in_range Env.example_draws.
Proof.
  unfold Env.draws_in_range. cbn [Env.example_draws Env.init_inventory
    Env.init_days_since_restock Env.init_cash_flow Env.init_accounts_receivable
    Env.init_accounts_payable Env.init_customer_satisfaction
    Env.init_supplier_relationships Env.init_demand_trends].
  repeat match goal with |- _ /\ _ => split end; intros; try lia; lra.
Qed.

Lemma inventory_and_restock_cash_invariant_witness :
  match Env.run (Env.reset Env.example_draws)
          [Env.example_restock; Env.example_idle] with
  | Some env => Env.inventory_nonneg (Env.business_state env)
  | None => False
  end.
Proof.
  destruct (Env.run (Env.reset Env.example_draws)
              [Env.example_restock; Env.example_idle]) as [env|] eqn:E.
  - exact (proj1 (inventory_and_restock_cash_invariant Env.example_draws
                    [Env.example_restock; Env.example_idle] env
                    example_draws_in_range E)).
  - vm_compute in E. discriminate E.
Defined.

Lemma large_restock_arrives_after_seven_days_witness :
  exists r env' twin,
    Env.step (Env.reset Env.example_draws) Env.example_restock = Some r
    /\ Env.run (Env.next_env r) (replicate 6 Env.example_idle) = Some env'
    /\ Env.run (Env.without_newest_order 0 (Env.next_env r))
         (replicate 6 Env.example_idle) = Some twin
    /\ In (Env.Order.mk 200 1 5000)
          (Env.orders_of (Env.business_state env') 0)
    /\ Env._process_supplier_deliveries (Env.business_state env')
       = Env.add_inventory 0 200
           (Env._process_supplier_deliveries (Env.business_state twin)).
Proof.
  pose (r := Env.step_from_restock
               (Env.days_remaining (Env.reset Env.example_draws))
               Env.example_restock (Env.enumerate Env.products)
               (Env._process_supplier_deliveries
                  (Env.business_state (Env.reset Env.example_draws)), 0)).
  assert (Env.step (Env.reset Env.example_draws) Env.example_restock = Some r)
    as Hs by reflexivity.
  destruct (Env.run (Env.next_env r) (replicate 6 Env.example_idle))
    as [env'|] eqn:Hr; [|vm_compute in Hr; discriminate Hr].
  destruct (large_restock_arrives_after_seven_days
              (Env.reset Env.example_draws) Env.example_restock r 0%nat _
              200%Z 5000 (replicate 6 Env.example_idle) env'
              eq_refl eq_refl Hs eq_refl eq_refl eq_refl
              (le_n 6) Hr) as (_ & twin & Ht & _ & _ & Hin & Harr).
  exists r, env', twin. split; [exact Hs|]. split; [exact Hr|].
  split; [exact Ht|]. split; [exact Hin | exact (Harr eq_refl)].
Defined.

(** ** Projected-ROI calculator: errors, stored metrics and bounds *)

(** Case analysis on the [min] and [max] left in the hypotheses. *)
Ltac py_cases_in_hyps :=
  repeat match goal with
    | _ : context [Py.min ?a ?b] |- _ =>
        let H := fresh in let E := fresh in
        destruct (py_min_spec a b) as [[H E] | [H E]]; rewrite E in *; clear E
    | _ : context [Py.max ?a ?b] |- _ =>
        let H := fresh in let E := fresh in
        destruct (py_max_spec a b) as [[H E] | [H E]]; rewrite E in *; clear E
    end.

Section RoiCalculatorBounds.

Import Roi.
Import Roi.ROICalculationResult.

Variable normal_cdf : Q -> Q.

Lemma _get_product_metrics_market self pid w :
  market_conditions (snd (_get_product_metrics self pid w))
  = market_conditions self.
Proof.
  unfold _get_product_metrics.
  destruct (product_metrics self !! pid); reflexivity.
Qed.

(** X1. [calculate_roi] raises when the market conditions have no
    ["overall_demand_multiplier"] entry, and when the demand volatility of
    the product, stored or newly drawn, is negative: it returns no result
    in either case, whatever the quantity and the time window. *)
Theorem calculate_roi_raises self pid qty win w :
  market_conditions self !! "overall_demand_multiplier"%string = None
  \/ ProductMetrics.demand_volatility
       (fst (_get_product_metrics self pid w)) < 0 ->
  calculate_roi normal_cdf self pid qty win w = None.
Proof.
  unfold calculate_roi.
  pose proof (_get_product_metrics_market self pid w) as Hm.
  destruct (_get_product_metrics self pid w) as [pm s1]. simpl in *.
  unfold _calculate_projected_demand. rewrite Hm.
  destruct (market_conditions self !! "overall_demand_multiplier"%string)
    as [market_factor|]; [|reflexivity].
  intros [H|H]; [discriminate|].
  destruct (Qltb_spec (ProductMetrics.demand_volatility pm) 0) as [Hv|Hv];
    [reflexivity | contradiction].
Qed.

(** X2. The metrics of a product are created once. After a first look-up the
    calculator holds the metrics it returned; a second look-up, whatever
    the random generator would draw then, returns the same metrics and
    leaves the calculator as it is. The metrics of the other products and
    the market conditions are not touched, and a product that already has
    metrics never changes the calculator. *)
Theorem _get_product_metrics_stored self pid w w' :
  let pm := fst (_get_product_metrics self pid w) in
  let self' := snd (_get_product_metrics self pid w) in
  product_metrics self' !! pid = Some pm
  /\ _get_product_metrics self' pid w' = (pm, self')
  /\ (forall other, other <> pid ->
      product_metrics self' !! other = product_metrics self !! other)
  /\ market_conditions self' = market_conditions self
  /\ (forall known, product_metrics self !! pid = Some known ->
      pm = known /\ self' = self).
Proof.
  unfold _get_product_metrics.
  destruct (product_metrics self !! pid) as [known|] eqn:E; cbn [fst snd].
  - split; [exact E|]. split; [now rewrite E|].
    split; [reflexivity|]. split; [reflexivity|].
    intros k Hk. now injection Hk as <-.
  - cbn [product_metrics market_conditions].
    rewrite lookup_insert_eq.
    split; [reflexivity|]. split; [reflexivity|].
    split; [intros other Ho; now rewrite lookup_insert_ne|].
    split; [reflexivity | discriminate].
Qed.

(** X3. With a larger projected demand the sell-through rate is never lower,
    whatever the historical rate of the product. *)
Theorem sell_through_rate_monotone pm qty demand1 demand2 :
  demand1 <= demand2 ->
  _calculate_sell_through_rate pm qty demand1
  <= _calculate_sell_through_rate pm qty demand2.
Proof.
  intros Hd. unfold _calculate_sell_through_rate.
  set (m := Py.float (Z.max qty 1)).
  assert (0 < m) as Hm.
  { unfold m. change 0 with (Py.float 0). apply py_float_lt. lia. }
  assert (demand1 / m <= demand2 / m) as Hr.
  { apply Qle_shift_div_l; [exact Hm|].
    assert (demand1 / m * m == demand1) as -> by (field; lra). exact Hd. }
  generalize dependent (demand1 / m). intros r1.
  generalize (demand2 / m). intros r2 Hr.
  set (b := ProductMetrics.historical_sell_through_rate pm).
  destruct (ProductMetrics.current_inventory pm <? ProductMetrics.reorder_point pm)%Z;
    destruct (Qleb_spec 1 r1), (Qleb_spec 1 r2),
             (Qleb_spec (7 # 10) r1), (Qleb_spec (7 # 10) r2);
    try lra; py_cases; py_cases_in_hyps; lra.
Qed.

(** X4. Without demand volatility the stock-out probability does not consult
    the normal distribution, and the clamp keeps it away from certainty:
    it is 0.95 when the expected demand exceeds the inventory with the
    restock, and 0.01 otherwise. *)
Theorem stockout_probability_without_volatility pm qty win :
  ProductMetrics.demand_volatility pm == 0 ->
  _calculate_stockout_probability normal_cdf pm qty win
  = if Py.Qltb (Py.float (ProductMetrics.current_inventory pm + qty)%Z)
         (ProductMetrics.avg_daily_sales pm * Py.float win)
    then 95 # 100 else 1 # 100.
Proof.
  intros Hv. unfold _calculate_stockout_probability.
  destruct (Qltb_spec 0
              (ProductMetrics.avg_daily_sales pm * Py.float win
               * ProductMetrics.demand_volatility pm)) as [H|_].
  - rewrite Hv in H. lra.
  - destruct (Py.Qltb _ _); reflexivity.
Qed.

Lemma py_int_sign (x : Q) : 0 <= x -> (0 <= Py.int x)%Z.
Proof.
  intros H. unfold Py.int. apply Z.quot_pos; [|lia].
  destruct x as [n d]. unfold Qle in H. simpl in *. lia.
Qed.

Lemma calculate_roi_prices self pid qty win w r self' :
  calculate_roi normal_cdf self pid qty win w = Some (r, self') ->
  exists pm,
    _get_product_metrics self pid w = (pm, self')
    /\ cost_per_unit r = ProductMetrics.cost_per_unit pm
    /\ selling_price_per_unit r = ProductMetrics.selling_price pm
    /\ restock_quantity r = qty.
Proof.
  unfold calculate_roi. destruct (_get_product_metrics self pid w) as [pm s1].
  destruct (_calculate_projected_demand s1 pm win w) as [demand|];
    [|discriminate].
  intros H. injection H as <- <-. exists pm. simpl. auto.
Qed.

Lemma projected_revenue_bounds self pid qty win w r self' :
  calculate_roi normal_cdf self pid qty win w = Some (r, self') ->
  (0 < qty)%Z -> 0 <= selling_price_per_unit r ->
  (0 <= projected_units_sold r <= qty)%Z
  /\ 0 <= expected_revenue r <= Py.float qty * selling_price_per_unit r.
Proof.
  intros H Hq Hp.
  destruct (calculate_roi_prices _ _ _ _ _ _ _ H) as (pm & Hpm & _ & Ep & _).
  apply calculate_roi_inv in H
    as (pm' & demand & Hpm' & Hd & _ & _ & Hu & Hrev & _).
  rewrite Hpm in Hpm'. injection Hpm' as <-.
  apply projected_demand_nonneg in Hd.
  pose proof (sell_through_rate_clamped pm qty demand) as [Hr _].
  assert (0 <= projected_units_sold r <= qty)%Z as Hunits.
  { rewrite Hu. split; [|apply Z.le_min_l].
    apply Z.min_glb; [lia|]. apply py_int_sign.
    apply Qmult_le_0_compat; lra. }
  split; [exact Hunits|].
  rewrite <- Ep in Hrev.
  assert (0 <= Py.float (projected_units_sold r) <= Py.float qty) as [Hu0 Hu1].
  { split; [change 0 with (Py.float 0)|]; apply py_float_le; lia. }
  rewrite Hrev. split.
  - apply Qmult_le_0_compat; assumption.
  - apply Qmult_le_compat_r; assumption.
Qed.

Lemma projected_roi_from_revenue self pid qty win w r self' :
  calculate_roi normal_cdf self pid qty win w = Some (r, self') ->
  (0 < qty)%Z -> 0 < cost_per_unit r ->
  0 <= expected_revenue r <= Py.float qty * selling_price_per_unit r ->
  - (100) <= projected_roi r
  <= (selling_price_per_unit r / cost_per_unit r - 1) * 100.
Proof.
  intros H Hq Hc Hrevb.
  destruct (calculate_roi_prices _ _ _ _ _ _ _ H) as (pm & Hpm & Ec & _).
  apply calculate_roi_inv in H
    as (pm' & demand & Hpm' & _ & Hcost & _ & _ & _ & Hprofit & Hroi & _).
  rewrite Hpm in Hpm'. injection Hpm' as <-.
  rewrite <- Ec in Hcost.
  set (p := selling_price_per_unit r) in *.
  set (c := cost_per_unit r) in *.
  assert (0 < Py.float qty) as Hq'.
  { change 0 with (Py.float 0). now apply py_float_lt. }
  assert (0 < total_restock_cost r) as Ht.
  { rewrite Hcost. apply Qmult_lt_0_compat; assumption. }
  rewrite Hroi. destruct (Qltb_spec 0 (total_restock_cost r)); [|contradiction].
  rewrite Hprofit. split.
  - assert (- (1) <= (expected_revenue r - total_restock_cost r)
                     / total_restock_cost r) as Hlow.
    { apply Qle_shift_div_l; [exact Ht | lra]. }
    generalize dependent ((expected_revenue r - total_restock_cost r)
                          / total_restock_cost r). intros; lra.
  - assert ((expected_revenue r - total_restock_cost r) / total_restock_cost r
            <= p / c - 1) as Hhigh.
    { apply Qle_shift_div_r; [exact Ht|].
      assert ((p / c - 1) * total_restock_cost r
              == Py.float qty * p - total_restock_cost r) as ->.
      { rewrite Hcost. field. lra. }
      lra. }
    generalize dependent ((expected_revenue r - total_restock_cost r)
                          / total_restock_cost r).
    generalize dependent (p / c). intros; lra.
Qed.

(** X5. For a restock of at least one unit of a product with a positive unit
    cost and a price that is not negative, the units projected to sell
    lie between zero and the restock quantity, the expected revenue is at
    most the revenue of selling them all, and the projected ROI lies
    between -100 % and the markup of the product,
    [(selling_price / cost_per_unit - 1) * 100]. *)
Theorem projected_roi_bounds self pid qty win w r self' :
  calculate_roi normal_cdf self pid qty win w = Some (r, self') ->
  (0 < qty)%Z -> 0 < cost_per_unit r -> 0 <= selling_price_per_unit r ->
  (0 <= projected_units_sold r <= qty)%Z
  /\ 0 <= expected_revenue r <= Py.float qty * selling_price_per_unit r
  /\ - (100) <= projected_roi r
     <= (selling_price_per_unit r / cost_per_unit r - 1) * 100.
Proof.
  intros H Hq Hc Hp.
  destruct (projected_revenue_bounds _ _ _ _ _ _ _ H Hq Hp) as [Hunits Hrev].
  split; [exact Hunits|]. split; [exact Hrev|].
  exact (projected_roi_from_revenue _ _ _ _ _ _ _ H Hq Hc Hrev).
Qed.

Lemma cost_range_positive category : 0 < fst (cost_range category).
Proof.
  unfold cost_range.
  repeat match goal with
         | |- context [String.eqb ?a ?b] => destruct (String.eqb a b)
         end; reflexivity.
Qed.

Lemma mock_metrics_in_range pid w :
  mock_draws_in_range (mock_draws w) ->
  metrics_in_range (_create_mock_product_metrics pid w) w.
Proof.
  intros (_ & _ & _ & _ & _ & _ & _ & Hi & _ & Hs & _ & Hv).
  unfold metrics_in_range, _create_mock_product_metrics. simpl.
  repeat split; try lra; lia.
Qed.

(** X6. A product the calculator has not seen gets mock metrics drawn from
    fixed ranges. For such a product the confidence score of the result
    lies in [0.59, 0.89], the selling price exceeds the unit cost, and for
    a restock of at least one unit the projected ROI lies between -100 %
    and 80 %. *)
Theorem calculate_roi_new_product self pid qty win w r self' :
  product_metrics self !! pid = None ->
  mock_draws_in_range (mock_draws w) ->
  calculate_roi normal_cdf self pid qty win w = Some (r, self') ->
  59 # 100 <= confidence_score r <= 89 # 100
  /\ 0 < cost_per_unit r < selling_price_per_unit r
  /\ ((0 < qty)%Z -> - (100) <= projected_roi r <= 80).
Proof.
  intros Hnew Hd H.
  pose proof Hd as (_ & Hcost & Hmark & _ & _ & _ & _ & Hinv & _ & Hs & _ & Hv).
  pose proof (cost_range_positive (draw_category (mock_draws w))) as Hpos.
  destruct (calculate_roi_prices _ _ _ _ _ _ _ H) as (pm & Hpm & Ec & Ep & _).
  assert (pm = _create_mock_product_metrics pid w) as Epm.
  { unfold _get_product_metrics in Hpm. rewrite Hnew in Hpm.
    now injection Hpm as <- _. }
  assert (0 < cost_per_unit r) as Hc.
  { rewrite Ec, Epm. simpl. lra. }
  assert (selling_price_per_unit r
          == cost_per_unit r * draw_markup_factor (mock_draws w)) as Hprice.
  { rewrite Ec, Ep, Epm. simpl. reflexivity. }
  assert (cost_per_unit r < selling_price_per_unit r) as Hgt.
  { rewrite Hprice.
    assert (cost_per_unit r * (12 # 10)
            <= cost_per_unit r * draw_markup_factor (mock_draws w)).
    { rewrite !(Qmult_comm (cost_per_unit r)).
      apply Qmult_le_compat_r; lra. }
    lra. }
  split; [|split; [split; assumption|]].
  - apply calculate_roi_inv in H
      as (pm' & demand & Hpm' & Hdem & _ & _ & _ & _ & _ & _ & _ & Hconf).
    rewrite Hpm in Hpm'. injection Hpm' as <-.
    apply projected_demand_nonneg in Hdem.
    rewrite Hconf, Epm. unfold _calculate_confidence_score.
    rewrite mean5. cbn [ProductMetrics.last_updated
      ProductMetrics.demand_volatility
      ProductMetrics.historical_sell_through_rate
      ProductMetrics.current_inventory _create_mock_product_metrics].
    assert (Py.days_between (now w) (now w) = 0%Z) as ->.
    { unfold Py.days_between. now rewrite Z.sub_diag. }
    set (inv := Py.float (draw_inventory (mock_draws w))).
    assert (0 <= inv) as Hinv0.
    { unfold inv. change 0 with (Py.float 0). apply py_float_le. lia. }
    set (den := Py.max (demand * (1 # 10)) 1).
    assert (1 <= den) as Hden by apply py_max_ge.
    assert (0 <= inv / den) as Hq by (apply Qle_shift_div_l; lra).
    generalize dependent (inv / den). intros q Hq.
    assert (Py.float 0 / 30 == 0) as E0 by reflexivity.
    py_cases; split; apply Qle_shift_div_l || apply Qle_shift_div_r;
      try lra; rewrite ?E0 in *; lra.
  - intros Hq.
    assert (0 <= selling_price_per_unit r) as Hp by lra.
    destruct (projected_revenue_bounds _ _ _ _ _ _ _ H Hq Hp) as [_ Hrev].
    destruct (projected_roi_from_revenue _ _ _ _ _ _ _ H Hq Hc Hrev)
      as [Hlo Hhi].
    split; [exact Hlo|].
    assert (selling_price_per_unit r / cost_per_unit r <= 18 # 10) as Hm.
    { apply Qle_shift_div_r; [exact Hc|]. rewrite Hprice.
      rewrite (Qmult_comm (cost_per_unit r)).
      apply Qmult_le_compat_r; lra. }
    generalize dependent (selling_price_per_unit r / cost_per_unit r).
    intros; lra.
Qed.

End RoiCalculatorBounds.

Lemma example_mock_draws_in_range :
  Roi.mock_draws_in_range (Roi.mock_draws Roi.example_world).
Proof.
  unfold Roi.mock_draws_in_range. simpl.
  repeat match goal with |- _ /\ _ => split end;
    try lia; try lra; auto 10.
Qed.

Lemma calculate_roi_raises_witness :
  Roi.ProductMetrics.demand_volatility
    (fst (Roi._get_product_metrics (Roi.example_calculator (- (1 # 10)))
            "PROD-001" Roi.example_world)) < 0
  /\ Roi.calculate_roi Roi.example_cdf (Roi.example_calculator (- (1 # 10)))
       "PROD-001" 100 30 Roi.example_world = None.
Proof.
  assert (Roi.ProductMetrics.demand_volatility
            (fst (Roi._get_product_metrics (Roi.example_calculator (- (1 # 10)))
                    "PROD-001" Roi.example_world)) < 0) as H
    by reflexivity.
  split; [exact H|].
  exact (calculate_roi_raises Roi.example_cdf
           (Roi.example_calculator (- (1 # 10))) "PROD-001" 100 30
           Roi.example_world (or_intror H)).
Defined.

Lemma sell_through_rate_monotone_witness :
  50 <= 150
  /\ Roi._calculate_sell_through_rate (Roi.example_metrics (2 # 10)) 100 50
     <= Roi._calculate_sell_through_rate (Roi.example_metrics (2 # 10)) 100 150.
Proof.
  split; [lra|].
  apply (sell_through_rate_monotone (Roi.example_metrics (2 # 10)) 100 50 150).
  lra.
Defined.

Lemma stockout_probability_without_volatility_witness :
  Roi.ProductMetrics.demand_volatility (Roi.example_metrics 0) == 0
  /\ Roi._calculate_stockout_probability Roi.example_cdf
       (Roi.example_metrics 0) 100 30 = 95 # 100.
Proof.
  split; [reflexivity|].
  exact (stockout_probability_without_volatility Roi.example_cdf
           (Roi.example_metrics 0) 100 30 (Qeq_refl 0)).
Defined.

Lemma projected_roi_bounds_witness :
  exists r self',
    Roi.calculate_roi Roi.example_cdf (Roi.example_calculator (2 # 10))
      "PROD-001" 100 30 Roi.example_world = Some (r, self')
    /\ (0 <= Roi.ROICalculationResult.projected_units_sold r <= 100)%Z
    /\ - (100) <= Roi.ROICalculationResult.projected_roi r
       <= (Roi.ROICalculationResult.selling_price_per_unit r
           / Roi.ROICalculationResult.cost_per_unit r - 1) * 100.
Proof.
  eexists. eexists. split; [reflexivity|].
  destruct (projected_roi_bounds Roi.example_cdf
              (Roi.example_calculator (2 # 10)) "PROD-001" 100 30
              Roi.example_world _ _ eq_refl) as (Hu & _ & Hr).
  - reflexivity.
  - reflexivity.
  - discriminate.
  - split; [exact Hu | exact Hr].
Defined.

Lemma calculate_roi_new_product_witness :
  exists r self',
    Roi.calculate_roi Roi.example_cdf (Roi.example_calculator (2 # 10))
      "PROD-002" 100 30 Roi.example_world = Some (r, self')
    /\ 59 # 100 <= Roi.ROICalculationResult.confidence_score r <= 89 # 100
    /\ - (100) <= Roi.ROICalculationResult.projected_roi r <= 80.
Proof.
  eexists. eexists. split; [reflexivity|].
  destruct (calculate_roi_new_product Roi.example_cdf
              (Roi.example_calculator (2 # 10)) "PROD-002" 100 30
              Roi.example_world _ _ eq_refl example_mock_draws_in_range eq_refl)
    as (Hc & _ & Hr).
  split; [exact Hc | apply Hr; reflexivity].
Defined.

(** ** Outcome tracker: accuracy, rewards, capture and feedback *)

Section OutcomeTrackerBounds.

Import Tracker.

Lemma py_abs_nonneg (x : Q) : 0 <= Py.abs x.
Proof. py_cases; lra. Qed.

Lemma py_abs_zero (x : Q) : Py.abs x == 0 <-> x == 0.
Proof. py_cases; split; intros; lra. Qed.

Lemma py_max3_ge (a b c : Q) : c <= Py.max3 a b c.
Proof. unfold Py.max3. py_cases; lra. Qed.

Lemma accuracy_sym predicted actual :
  accuracy predicted actual == accuracy actual predicted.
Proof.
  unfold accuracy.
  assert (Qabs (predicted - actual) == Qabs (actual - predicted)) as ->.
  { rewrite Qabs_Qminus. reflexivity. }
  rewrite (Q.max_comm (Qabs predicted)). reflexivity.
Qed.

Lemma _calculate_roi_accuracy_range predicted actual :
  0 <= _calculate_roi_accuracy predicted actual <= 1.
Proof.
  unfold _calculate_roi_accuracy.
  destruct (Qeq_bool predicted 0 && Qeq_bool actual 0); [lra|].
  pose proof (py_abs_nonneg (predicted - actual)) as He.
  pose proof (py_max3_ge (Py.abs predicted) (Py.abs actual) 10) as Hm.
  assert (0 <= Py.abs (predicted - actual)
               / Py.max3 (Py.abs predicted) (Py.abs actual) 10) as Hq.
  { apply Qle_shift_div_l; lra. }
  generalize dependent (Py.abs (predicted - actual)
                        / Py.max3 (Py.abs predicted) (Py.abs actual) 10).
  intros q Hq. py_cases; lra.
Qed.

(** X7. The accuracy of a prediction lies in [0, 1] and does not depend on
    which of the two values is the prediction. It is 1 when the predicted
    and the actual ROI are equal, and 0 once their difference reaches the
    largest of their magnitudes and 10, as it does for two ROIs of
    opposite signs one of which is at least 10 in magnitude. *)
Theorem _calculate_roi_accuracy_properties predicted actual :
  0 <= _calculate_roi_accuracy predicted actual <= 1
  /\ _calculate_roi_accuracy predicted actual
     == _calculate_roi_accuracy actual predicted
  /\ (predicted == actual -> _calculate_roi_accuracy predicted actual == 1)
  /\ (Py.max3 (Py.abs predicted) (Py.abs actual) 10
      <= Py.abs (predicted - actual) ->
      _calculate_roi_accuracy predicted actual == 0)
  /\ (predicted * actual <= 0 -> 10 <= Py.abs predicted ->
      _calculate_roi_accuracy predicted actual == 0).
Proof.
  split; [apply _calculate_roi_accuracy_range|]. split.
  { rewrite !_calculate_roi_accuracy_spec. apply accuracy_sym. }
  assert (Py.max3 (Py.abs predicted) (Py.abs actual) 10
          <= Py.abs (predicted - actual) ->
          _calculate_roi_accuracy predicted actual == 0) as Hzero.
  { intros Hfar. unfold _calculate_roi_accuracy.
    pose proof (py_max3_ge (Py.abs predicted) (Py.abs actual) 10) as Hm.
    destruct (Qeq_bool predicted 0 && Qeq_bool actual 0) eqn:E.
    - apply andb_true_iff in E as [Ep Ea].
      apply Qeq_bool_eq in Ep, Ea. exfalso. revert Hfar Hm.
      unfold Py.max3. py_cases; py_cases_in_hyps; intros; lra.
    - set (e := Py.abs (predicted - actual)) in *.
      set (m := Py.max3 (Py.abs predicted) (Py.abs actual) 10) in *.
      assert (1 <= e / m) as Hq by (apply Qle_shift_div_l; lra).
      generalize dependent (e / m). intros q Hq. py_cases; lra. }
  split; [|split; [exact Hzero|]].
  - intros H. unfold _calculate_roi_accuracy.
    destruct (Qeq_bool predicted 0 && Qeq_bool actual 0); [reflexivity|].
    pose proof (py_abs_zero (predicted - actual)) as Hz.
    pose proof (py_max3_ge (Py.abs predicted) (Py.abs actual) 10) as Hm.
    set (e := Py.abs (predicted - actual)) in *.
    set (m := Py.max3 (Py.abs predicted) (Py.abs actual) 10) in *.
    assert (e == 0) as He0 by (apply Hz; lra).
    assert (e / m == 0) as H0.
    { rewrite He0. field. lra. }
    generalize dependent (e / m). intros q Hq. py_cases; lra.
  - intros Hsign Hbig. apply Hzero.
    assert (0 <= predicted /\ actual <= 0 \/ predicted <= 0 /\ 0 <= actual)
      as Hcases.
    { destruct (Qlt_le_dec predicted 0) as [Hp|Hp].
      - right. split; [lra|].
        destruct (Qlt_le_dec actual 0) as [Ha|Ha]; [|exact Ha].
        assert (0 < (- predicted) * (- actual))
          by (apply Qmult_lt_0_compat; lra).
        assert ((- predicted) * (- actual) == predicted * actual) by ring.
        lra.
      - destruct (Qlt_le_dec 0 predicted) as [Hp'|Hp'].
        + left. split; [lra|].
          destruct (Qlt_le_dec 0 actual) as [Ha|Ha]; [|exact Ha].
          assert (0 < predicted * actual) by (apply Qmult_lt_0_compat; lra).
          lra.
        + exfalso. assert (predicted == 0) as E0 by lra.
          revert Hbig. py_cases; intros; lra. }
    unfold Py.max3. py_cases; py_cases_in_hyps; lra.
Qed.

(** *** Means *)

Lemma py_sum_bounds (lo hi : Q) l : forall acc,
  Forall (fun x => lo <= x <= hi) l ->
  acc + inject_Z (Z.of_nat (length l)) * lo <= fold_left Qplus l acc
  /\ fold_left Qplus l acc <= acc + inject_Z (Z.of_nat (length l)) * hi.
Proof.
  induction l as [|x l IH]; intros acc Hall.
  - simpl. split; ring_simplify; lra.
  - apply List.Forall_cons_iff in Hall as [Hx Hl].
    destruct (IH (acc + x) Hl) as [IH1 IH2]. clear IH.
    cbn [fold_left length].
    rewrite Nat2Z.inj_succ. unfold Z.succ. rewrite inject_Z_plus.
    change (inject_Z 1) with 1.
    generalize dependent (inject_Z (Z.of_nat (length l))). intros n IH1 IH2.
    split.
    + eapply Qle_trans; [|exact IH1].
      assert ((n + 1) * lo == n * lo + lo) as -> by ring. lra.
    + eapply Qle_trans; [exact IH2|].
      assert ((n + 1) * hi == n * hi + hi) as -> by ring. lra.
Qed.

(** The mean of a non-empty list lies between any two bounds of its
    entries. *)
Lemma py_mean_bounds (lo hi : Q) l :
  l <> [] -> Forall (fun x => lo <= x <= hi) l -> lo <= Py.mean l <= hi.
Proof.
  intros Hne Hall. unfold Py.mean, Py.sum.
  destruct (py_sum_bounds lo hi l 0 Hall) as [H1 H2].
  assert (0 < inject_Z (Z.of_nat (length l))) as Hn.
  { change 0 with (inject_Z 0). rewrite <- Zlt_Qlt.
    destruct l; [contradiction | simpl; lia]. }
  generalize dependent (inject_Z (Z.of_nat (length l))). intros n H1 H2 Hn.
  split.
  - apply Qle_shift_div_l; [exact Hn|]. rewrite Qmult_comm. lra.
  - apply Qle_shift_div_r; [exact Hn|]. rewrite Qmult_comm. lra.
Qed.

Lemma _calculate_confidence_score_range o :
  satisfaction_on_scale o -> 0 <= _calculate_confidence_score o <= 1.
Proof.
  intros Hs. unfold _calculate_confidence_score.
  apply py_mean_bounds.
  - destruct (user_satisfaction o); discriminate.
  - pose proof (_calculate_roi_accuracy_range (predicted_roi o) (actual_roi o)).
    assert (forall x : Q, 0 <= x <= 1 -> forall l,
              Forall (fun x => 0 <= x <= 1) l ->
              Forall (fun x => 0 <= x <= 1) (x :: l)) as Hc
      by (intros; now constructor).
    unfold satisfaction_on_scale in Hs.
    destruct (user_satisfaction o) as [s|]; cbn [app];
      repeat (apply Hc || apply List.Forall_nil);
      try assumption;
      repeat match goal with
             | |- context [if ?b then _ else _] => destruct b
             end; try lra.
    split; [apply Qle_shift_div_l | apply Qle_shift_div_r]; lra.
Qed.

(** X8. The terms of an enhanced reward are bounded. For every record the
    accuracy penalty lies in [-0.5, 0] and the actual-ROI reward lies
    between zero and a hundredth of the actual ROI. For a record whose
    satisfaction, if any, is on the scale of 1 to 5, the feedback bonus
    lies in [-0.2, 0.2], the confidence score in [0, 1], and the total
    reward between the profit and ROI terms minus 0.7 and plus 0.2. *)
Theorem _calculate_enhanced_reward_bounds o now :
  let r := _calculate_enhanced_reward o now in
  - (1 # 2) <= EnhancedReward.accuracy_penalty r <= 0
  /\ (0 <= actual_roi o ->
      0 <= EnhancedReward.actual_roi_reward r <= actual_roi o / 100)
  /\ (actual_roi o <= 0 ->
      actual_roi o / 100 <= EnhancedReward.actual_roi_reward r <= 0)
  /\ (satisfaction_on_scale o ->
      - (2 # 10) <= EnhancedReward.user_feedback_bonus r <= 2 # 10
      /\ 0 <= EnhancedReward.confidence_score r <= 1
      /\ EnhancedReward.base_reward r + EnhancedReward.actual_roi_reward r
         - (7 # 10)
         <= EnhancedReward.total_reward r
         <= EnhancedReward.base_reward r + EnhancedReward.actual_roi_reward r
            + (2 # 10)).
Proof.
  intros r.
  assert (- (1 # 2) <= EnhancedReward.accuracy_penalty r <= 0) as Hpen.
  { unfold r, _calculate_enhanced_reward. cbn [EnhancedReward.accuracy_penalty].
    pose proof (py_abs_nonneg (predicted_roi o - actual_roi o)) as He.
    assert (0 <= Py.abs (predicted_roi o - actual_roi o) / 100) as Hq
      by (apply Qle_shift_div_l; lra).
    generalize dependent (Py.abs (predicted_roi o - actual_roi o) / 100).
    intros q Hq. py_cases; lra. }
  pose proof (_calculate_roi_accuracy_range (predicted_roi o) (actual_roi o))
    as Hacc.
  split; [exact Hpen|].
  split; [|split].
  - intros Hroi. unfold r, _calculate_enhanced_reward.
    cbn [EnhancedReward.actual_roi_reward].
    assert (0 <= actual_roi o / 100) as Hq by (apply Qle_shift_div_l; lra).
    generalize dependent (actual_roi o / 100). intros q Hq.
    generalize dependent (_calculate_roi_accuracy (predicted_roi o) (actual_roi o)).
    intros a Ha. split.
    + apply Qmult_le_0_compat; lra.
    + assert (q * a <= q * 1) as H1.
      { rewrite !(Qmult_comm q). apply Qmult_le_compat_r; lra. }
      lra.
  - intros Hroi. unfold r, _calculate_enhanced_reward.
    cbn [EnhancedReward.actual_roi_reward].
    assert (actual_roi o / 100 <= 0) as Hq by (apply Qle_shift_div_r; lra).
    generalize dependent (actual_roi o / 100). intros q Hq.
    generalize dependent (_calculate_roi_accuracy (predicted_roi o) (actual_roi o)).
    intros a Ha.
    assert (0 <= (- q) * a) as H0 by (apply Qmult_le_0_compat; lra).
    assert ((- q) * a <= (- q) * 1) as H1.
    { rewrite !(Qmult_comm (- q)). apply Qmult_le_compat_r; lra. }
    split; lra.
  - intros Hs.
    assert (- (2 # 10) <= EnhancedReward.user_feedback_bonus r <= 2 # 10)
      as Hbon.
    { unfold r, _calculate_enhanced_reward.
      cbn [EnhancedReward.user_feedback_bonus].
      unfold satisfaction_on_scale in Hs.
      destruct (user_satisfaction o) as [s|]; [|lra].
      assert (- (1) <= (s - 3) / 2 <= 1) as Hn.
      { split; [apply Qle_shift_div_l | apply Qle_shift_div_r]; lra. }
      generalize dependent ((s - 3) / 2). intros; lra. }
    split; [exact Hbon|].
    split; [apply _calculate_confidence_score_range, Hs|].
    assert (EnhancedReward.total_reward r
            = EnhancedReward.base_reward r + EnhancedReward.actual_roi_reward r
              + EnhancedReward.user_feedback_bonus r
              + EnhancedReward.accuracy_penalty r) as -> by reflexivity.
    lra.
Qed.

End OutcomeTrackerBounds.

Lemma _calculate_enhanced_reward_bounds_witness :
  Tracker.satisfaction_on_scale Tracker.example_rated
  /\ - (2 # 10)
     <= Tracker.EnhancedReward.user_feedback_bonus
          (Tracker._calculate_enhanced_reward Tracker.example_rated 2700000)
     <= 2 # 10
  /\ 0 <= Tracker.EnhancedReward.confidence_score
            (Tracker._calculate_enhanced_reward Tracker.example_rated 2700000)
     <= 1.
Proof.
  assert (Tracker.satisfaction_on_scale Tracker.example_rated) as Hs.
  { unfold Tracker.satisfaction_on_scale. simpl. split; discriminate. }
  split; [exact Hs|].
  pose proof (_calculate_enhanced_reward_bounds Tracker.example_rated 2700000)
    as H.
  cbv zeta in H. destruct H as (_ & _ & _ & H).
  destruct (H Hs) as (Hb & Hc & _).
  split; [exact Hb | exact Hc].
Defined.

Section OutcomeTrackerCapture.

Import Tracker.

Lemma _capture_outcome_data_captured mock o n now o' :
  _capture_outcome_data mock o n now = Some o' ->
  exists sb sa c r p rate, o' = captured o sb sa c r p rate now.
Proof.
  unfold _capture_outcome_data, _capture_mock_outcome_data,
    _capture_real_outcome_data.
  destruct mock.
  - destruct (tracking_end o); [|discriminate].
    destruct (tracking_start o); [|discriminate].
    intros H. injection H as <-. eauto 10.
  - intros H. injection H as <-. eauto 10.
Qed.

Lemma captured_same_request o sb sa c r p rate now :
  same_request o (captured o sb sa c r p rate now).
Proof. unfold same_request. simpl. repeat split. Qed.

Lemma capture_record_cases mock noise now i o :
  (exists o', capture_record mock noise now i o = (o', true)
              /\ status o = "tracking"%string
              /\ _should_capture_outcome o now = true
              /\ status o' = "completed"%string
              /\ outcome_captured_at o' = Some now
              /\ same_request o o')
  \/ capture_record mock noise now i o = (o, false).
Proof.
  destruct (capture_record mock noise now i o) as [o' [|]] eqn:E.
  - left. exists o'. split; [reflexivity|].
    apply capture_record_true in E as (Hs & Hd & Hc).
    apply String.eqb_eq in Hs.
    apply _capture_outcome_data_captured in Hc
      as (sb & sa & c & r & p & rate & ->).
    split; [exact Hs|]. split; [exact Hd|]. split; [reflexivity|].
    split; [reflexivity|]. apply captured_same_request.
  - right. apply capture_record_false in E. now subst.
Qed.

Lemma imap_fst_unchanged {A} (l : list A) : forall (f : nat -> A -> A * bool),
  (forall i x, snd (f i x) = false -> fst (f i x) = x) ->
  List.filter snd (imap f l) = [] -> map fst (imap f l) = l.
Proof.
  induction l as [|x l IH]; intros f Hf H; [reflexivity|].
  cbn [imap List.filter map] in *.
  destruct (snd (f 0%nat x)) eqn:E; [discriminate|].
  rewrite (Hf _ _ E). f_equal. apply IH; [|exact H].
  intros i y. apply Hf.
Qed.

Lemma filter_length_le {A} (p : A -> bool) (l : list A) :
  (length (List.filter p l) <= length l)%nat.
Proof.
  induction l as [|x l IH]; [reflexivity|].
  simpl. destruct (p x); simpl; lia.
Qed.

(** X9. A round of outcome capture keeps the number of records and touches
    neither the rewards nor the feedback file. Each record is either left
    as it is, or it was being tracked with its tracking period over and is
    now completed, stamped with the capture time, with its request,
    prediction, tracking window and feedback unchanged. The number
    returned is at most the number of records; when it is zero the tracker
    is unchanged, and otherwise the outcome file holds the records of the
    tracker. *)
Theorem capture_business_outcomes_frame self noise now :
  let count := fst (capture_business_outcomes self noise now) in
  let self' := snd (capture_business_outcomes self noise now) in
  length (outcome_data self') = length (outcome_data self)
  /\ enhanced_rewards self' = enhanced_rewards self
  /\ enhanced_rewards_file self' = enhanced_rewards_file self
  /\ user_feedback_file self' = user_feedback_file self
  /\ (0 <= count <= Z.of_nat (length (outcome_data self)))%Z
  /\ (count = 0%Z -> self' = self)
  /\ ((0 < count)%Z -> outcome_data_file self' = outcome_data self')
  /\ forall i o o',
       outcome_data self !! i = Some o -> outcome_data self' !! i = Some o' ->
       o' = o
       \/ (status o = "tracking"%string
           /\ _should_capture_outcome o now = true
           /\ status o' = "completed"%string
           /\ outcome_captured_at o' = Some now
           /\ same_request o o').
Proof.
  intros count self'.
  pose proof (capture_business_outcomes_lookup self noise now) as Hlook.
  fold self' in Hlook.
  unfold count, self', capture_business_outcomes in *.
  set (results := imap (capture_record (mock_mode self) noise now)
                    (outcome_data self)) in *.
  cbn [fst snd] in *.
  assert (length (map fst results) = length (outcome_data self)) as Hlen.
  { unfold results. now rewrite List.length_map, length_imap. }
  assert (length (List.filter snd results) <= length (outcome_data self))%nat
    as Hcount.
  { rewrite <- (length_imap (capture_record (mock_mode self) noise now)).
    apply filter_length_le. }
  split.
  { destruct (0 <? _)%Z; exact Hlen. }
  split; [destruct (0 <? _)%Z; reflexivity|].
  split; [destruct (0 <? _)%Z; reflexivity|].
  split; [destruct (0 <? _)%Z; reflexivity|].
  split; [lia|].
  split.
  { intros H0. rewrite H0. cbn [Z.ltb Z.compare].
    assert (List.filter snd results = []) as Hnil.
    { destruct (List.filter snd results); [reflexivity | simpl in H0; lia]. }
    unfold results in *. rewrite imap_fst_unchanged; [|..|exact Hnil].
    - apply set_outcome_data_id.
    - intros i x Hs.
      destruct (capture_record (mock_mode self) noise now i x) as [y b] eqn:E.
      simpl in Hs. subst b. apply capture_record_false in E. now subst. }
  split.
  { intros Hpos. apply Z.ltb_lt in Hpos. rewrite Hpos. reflexivity. }
  intros i o o' Ho Ho'. rewrite Hlook, Ho in Ho'. simpl in Ho'.
  injection Ho' as <-.
  destruct (capture_record_cases (mock_mode self) noise now i o)
    as [(o' & -> & H) | ->]; [right; exact H | now left].
Qed.

(** X10. What a capture records. The actual ROI is the actual profit over the
    actual cost, in percent, or zero when the cost is not positive. In
    mock mode the cost is the restock cost with its noise and the profit is
    20 a unit sold minus that cost. In real mode the feeds are
    placeholders: every capture records a cost of 250, a profit of 180 and
    an ROI of 72 %. *)
Theorem captured_roi_formula mock noise now i o o' :
  capture_record mock noise now i o = (o', true) ->
  (0 < actual_cost o' ->
   actual_roi o' == actual_profit o' / actual_cost o' * 100)
  /\ (actual_cost o' <= 0 -> actual_roi o' == 0)
  /\ (mock = true ->
      actual_cost o' == restock_cost o * (1 + cost_noise (noise i))
      /\ actual_profit o'
         == mock_units_sold o (actual_sales_after o') * 20 - actual_cost o')
  /\ (mock = false ->
      actual_cost o' == 250 /\ actual_profit o' == 180 /\ actual_roi o' == 72).
Proof.
  intros H. apply capture_record_true in H as (_ & _ & H).
  unfold _capture_outcome_data, _capture_mock_outcome_data,
    _capture_real_outcome_data in H.
  destruct mock.
  - destruct (tracking_end o); [|discriminate].
    destruct (tracking_start o); [|discriminate].
    injection H as <-. cbn [actual_cost actual_roi actual_profit captured
      actual_sales_after].
    set (cost := restock_cost o * (1 + cost_noise (noise i))).
    repeat split; try reflexivity; try discriminate.
    + intros Hc. destruct (Qltb_spec 0 cost); [reflexivity | contradiction].
    + intros Hc. destruct (Qltb_spec 0 cost); [lra | reflexivity].
  - injection H as <-. simpl.
    split; [intros _; reflexivity|]. split; [intros Hc; lra|].
    split; [discriminate|]. intros _. repeat split.
Qed.

End OutcomeTrackerCapture.

Lemma captured_roi_formula_witness :
  exists o',
    Tracker.capture_record true (fun _ => Tracker.no_noise) 2592000 0
      (Tracker.example_tracking "task-1" 100 0) = (o', true)
    /\ Tracker.actual_roi o'
       == Tracker.actual_profit o' / Tracker.actual_cost o' * 100.
Proof.
  eexists. split; [reflexivity|].
  apply (captured_roi_formula true (fun _ => Tracker.no_noise) 2592000 0
           (Tracker.example_tracking "task-1" 100 0) _ eq_refl).
  reflexivity.
Defined.

Section OutcomeTrackerFeedback.

Import Tracker.

Lemma find_outcome_some task l i :
  find_outcome task l = Some i ->
  exists first,
    l !! i = Some first /\ task_id first = task
    /\ forall j other, (j < i)%nat -> l !! j = Some other -> task_id other <> task.
Proof.
  revert i. induction l as [|o l IH]; intros i; [discriminate|].
  cbn [find_outcome].
  destruct (String.eqb (task_id o) task) eqn:E.
  - intros H. injection H as <-. exists o.
    apply String.eqb_eq in E. split; [reflexivity|]. split; [exact E|].
    intros j other Hj. lia.
  - destruct (find_outcome task l) as [k|]; [|discriminate].
    intros H. injection H as <-.
    destruct (IH k eq_refl) as (first & Hl & Ht & Hb).
    exists first. split; [exact Hl|]. split; [exact Ht|].
    intros [|j] other Hj Ho.
    + injection Ho as <-. now apply String.eqb_neq.
    + apply (Hb j); [lia | exact Ho].
Qed.

Lemma find_outcome_in task l o :
  In o l -> task_id o = task -> exists i, find_outcome task l = Some i.
Proof.
  intros Hin Ht.
  destruct (find_outcome task l) as [i|] eqn:E; [eauto|].
  exfalso. induction l as [|x l IH]; [contradiction|].
  cbn [find_outcome] in E.
  destruct (String.eqb (task_id x) task) eqn:Ex; [discriminate|].
  destruct Hin as [-> | Hin].
  - apply String.eqb_neq in Ex. contradiction.
  - apply IH; [exact Hin|].
    destruct (find_outcome task l); [discriminate | reflexivity].
Qed.

(** X11. Feedback for a task that has a record is accepted. It is attached to
    the first record of the task, with the time of collection; the
    outcome fields and the status of that record, and every other record,
    stay as they are. One entry is appended to the feedback file, the
    outcome file is rewritten with the records of the tracker, and the
    rewards are not touched. *)
Theorem collect_user_feedback_known_task self task feedback satisfaction now o :
  In o (outcome_data self) -> task_id o = task ->
  exists i first,
    outcome_data self !! i = Some first
    /\ task_id first = task
    /\ (forall j other, (j < i)%nat -> outcome_data self !! j = Some other ->
        task_id other <> task)
    /\ fst (collect_user_feedback self task feedback satisfaction now) = true
    /\ let self' := snd (collect_user_feedback self task feedback satisfaction now) in
       outcome_data self' !! i
       = Some (with_feedback first feedback satisfaction now)
       /\ (forall j, j <> i -> outcome_data self' !! j = outcome_data self !! j)
       /\ length (outcome_data self') = length (outcome_data self)
       /\ outcome_data_file self' = outcome_data self'
       /\ user_feedback_file self'
          = user_feedback_file self
            ++ [ {| fb_task_id := task; fb_feedback := feedback;
                    fb_satisfaction := satisfaction; fb_collected_at := now |} ]
       /\ enhanced_rewards self' = enhanced_rewards self
       /\ enhanced_rewards_file self' = enhanced_rewards_file self.
Proof.
  intros Hin Ht.
  destruct (find_outcome_in task _ o Hin Ht) as [i Hi].
  destruct (find_outcome_some _ _ _ Hi) as (first & Hl & Hf & Hb).
  exists i, first. split; [exact Hl|]. split; [exact Hf|]. split; [exact Hb|].
  unfold collect_user_feedback. rewrite Hi. cbn [fst snd].
  split; [reflexivity|]. cbn [outcome_data _save_outcome_data
    _save_user_feedback set_outcome_data outcome_data_file user_feedback_file
    enhanced_rewards enhanced_rewards_file].
  split; [now rewrite list_lookup_alter_eq, Hl|].
  split; [intros j Hj; now apply list_lookup_alter_ne|].
  split; [apply length_alter|]. repeat split.
Qed.

(** *** New rewards *)

Lemma reward_fold_fresh now l : forall new rs,
  exists added,
    fold_left (reward_record now) l (new, rs) = (new ++ added, rs ++ added)
    /\ (forall r, In r added -> has_reward rs (EnhancedReward.task_id r) = false)
    /\ NoDup (map EnhancedReward.task_id added).
Proof.
  induction l as [|o l IH]; intros new rs.
  - exists []. rewrite !app_nil_r. split; [reflexivity|].
    split; [contradiction | constructor].
  - cbn [fold_left].
    destruct (reward_record_cases now new rs o)
      as [(Hr & Hh & ->) | (_ & ->)].
    + destruct (IH (new ++ [_calculate_enhanced_reward o now])
                   (rs ++ [_calculate_enhanced_reward o now]))
        as (added & E & Hfresh & Hnd).
      exists (_calculate_enhanced_reward o now :: added).
      rewrite E, <- !List.app_assoc. split; [reflexivity|].
      assert (forall r, In r added ->
                has_reward rs (EnhancedReward.task_id r) = false
                /\ EnhancedReward.task_id r <> task_id o) as Hboth.
      { intros r Hin. specialize (Hfresh r Hin).
        rewrite has_reward_app in Hfresh.
        apply orb_false_iff in Hfresh as [H1 H2]. split; [exact H1|].
        unfold has_reward in H2. cbn [existsb] in H2.
        rewrite orb_false_r in H2. rewrite reward_task_id in H2.
        apply String.eqb_neq in H2. congruence. }
      split.
      * intros r [<- | Hin]; [now rewrite reward_task_id | now apply Hboth].
      * cbn [map]. constructor; [|exact Hnd].
        rewrite reward_task_id. intros Hin.
        apply list_elem_of_In, in_map_iff in Hin as (r & Hr' & Hin).
        destruct (Hboth r Hin) as [_ Hne]. contradiction.
    + exact (IH new rs).
Qed.

(** X12. The rewards a generation adds are appended to those of the tracker,
    which are kept as they are. The new rewards are for pairwise
    different tasks, none of which had a reward, and each is computed from
    a completed and captured record. The rewards file is written exactly
    when there is a new reward. *)
Theorem generate_enhanced_rewards_fresh self now :
  let new_rewards := fst (generate_enhanced_rewards self now) in
  let self' := snd (generate_enhanced_rewards self now) in
  enhanced_rewards self' = enhanced_rewards self ++ new_rewards
  /\ NoDup (map EnhancedReward.task_id new_rewards)
  /\ (forall r, In r new_rewards ->
      has_reward (enhanced_rewards self) (EnhancedReward.task_id r) = false
      /\ exists o, In o (outcome_data self) /\ rewardable o = true
                   /\ r = _calculate_enhanced_reward o now)
  /\ (new_rewards = [] -> self' = self)
  /\ (new_rewards <> [] -> enhanced_rewards_file self' = enhanced_rewards self')
  /\ outcome_data self' = outcome_data self.
Proof.
  intros new_rewards self'.
  destruct (generate_enhanced_rewards_unfold self now) as (added & E & Hfold).
  destruct (reward_fold_fresh now (outcome_data self) [] (enhanced_rewards self))
    as (added1 & E1 & Hfresh & Hnd).
  destruct (reward_fold now (outcome_data self) [] (enhanced_rewards self))
    as (added2 & E2 & Hsrc & _).
  rewrite Hfold in E1, E2. cbn [app] in E1, E2.
  injection E1 as <- _. injection E2 as <- _.
  unfold new_rewards, self'. rewrite E. cbn [fst snd].
  split; [destruct added; reflexivity|].
  split; [exact Hnd|].
  split; [intros r Hin; split; [now apply Hfresh | now apply Hsrc]|].
  split.
  { intros ->. rewrite app_nil_r. apply set_enhanced_rewards_id. }
  split; [destruct added; [congruence | reflexivity]|].
  destruct added; reflexivity.
Qed.

Lemma filter_task_app task (rs added : list EnhancedReward) :
  (forall r, In r added -> EnhancedReward.task_id r <> task) ->
  List.filter (fun r => String.eqb (EnhancedReward.task_id r) task) (rs ++ added)
  = List.filter (fun r => String.eqb (EnhancedReward.task_id r) task) rs.
Proof.
  intros H. rewrite List.filter_app.
  assert (List.filter (fun r => String.eqb (EnhancedReward.task_id r) task) added
          = []) as ->; [|apply app_nil_r].
  induction added as [|r added IH]; [reflexivity|].
  cbn [List.filter].
  assert (String.eqb (EnhancedReward.task_id r) task = false) as ->.
  { apply String.eqb_neq, H. now left. }
  apply IH. intros r' Hin. apply H. now right.
Qed.

(** X13. Feedback that arrives after the reward of its task was generated
    does not reach any reward: collecting it leaves the rewards as they
    are, the next generation adds no reward for the task, and the rewards
    of the task afterwards are those computed before the feedback. *)
Theorem feedback_after_reward_not_rewarded
    self task feedback satisfaction now later :
  has_reward (enhanced_rewards self) task = true ->
  let self1 := snd (collect_user_feedback self task feedback satisfaction now) in
  let self2 := snd (generate_enhanced_rewards self1 later) in
  enhanced_rewards self1 = enhanced_rewards self
  /\ (forall r, In r (fst (generate_enhanced_rewards self1 later)) ->
      EnhancedReward.task_id r <> task)
  /\ List.filter (fun r => String.eqb (EnhancedReward.task_id r) task)
       (enhanced_rewards self2)
     = List.filter (fun r => String.eqb (EnhancedReward.task_id r) task)
         (enhanced_rewards self).
Proof.
  intros Hhas self1 self2.
  assert (enhanced_rewards self1 = enhanced_rewards self) as Hsame.
  { unfold self1, collect_user_feedback.
    destruct (find_outcome task (outcome_data self)); reflexivity. }
  split; [exact Hsame|].
  destruct (generate_enhanced_rewards_unfold self1 later) as (added & E & Hfold).
  destruct (reward_fold_fresh later (outcome_data self1) []
              (enhanced_rewards self1)) as (added1 & E1 & Hfresh & _).
  rewrite Hfold in E1. cbn [app] in E1. injection E1 as <- _.
  assert (forall r, In r added -> EnhancedReward.task_id r <> task) as Hne.
  { intros r Hin Heq. specialize (Hfresh r Hin).
    rewrite Hsame, Heq in Hfresh. congruence. }
  split.
  - rewrite E. exact Hne.
  - unfold self2. rewrite generate_enhanced_rewards_appends, E. cbn [fst].
    rewrite Hsame. now apply filter_task_app.
Qed.

(** *** Training data *)

Lemma filter_Forall {A} (p : A -> bool) (l : list A) :
  Forall (fun x => p x = true) (List.filter p l).
Proof.
  apply List.Forall_forall. intros x Hin. now apply filter_In in Hin.
Qed.

Lemma omap_nil_iff {A B} (f : A -> option B) (l : list A) :
  omap f l = [] <-> Forall (fun x => f x = None) l.
Proof.
  induction l as [|x l IH]; [split; [constructor | reflexivity]|].
  cbn [omap list_omap]. destruct (f x) eqn:E.
  - split; [discriminate|]. intros H.
    apply List.Forall_cons_iff in H as [H _]. congruence.
  - rewrite IH. split.
    + intros H. now constructor.
    + intros H. now apply List.Forall_cons_iff in H as [_ H].
Qed.

Lemma omap_Forall {A B} (f : A -> option B) (P : B -> Prop) (l : list A) :
  Forall (fun x => match f x with Some y => P y | None => True end) l ->
  Forall P (omap f l).
Proof.
  induction 1 as [|x l Hx Hl IH]; [constructor|].
  cbn [omap list_omap]. destruct (f x); [constructor|]; assumption.
Qed.

Lemma average_roi_accuracy_range self :
  0 <= average_roi_accuracy (summary (get_training_data self)) <= 1.
Proof.
  unfold get_training_data. cbn [summary average_roi_accuracy].
  destruct (List.filter _ (outcome_data self)) as [|o rest]; [lra|].
  apply py_mean_bounds; [discriminate|].
  apply List.Forall_forall. intros x Hin.
  apply in_map_iff in Hin as (o' & <- & _).
  apply _calculate_roi_accuracy_range.
Qed.

(** X14. The training data hold the completed records only. The summary
    counts them; the number of profitable recommendations is at most that
    count; the average ROI accuracy lies in [0, 1]; the average user
    satisfaction is missing exactly when no completed record has any, and
    it lies on the scale of 1 to 5 when the satisfaction of every
    completed record does. *)
Theorem get_training_data_summary self :
  let data := get_training_data self in
  Forall (fun o => status o = "completed"%string) (outcomes data)
  /\ total_outcomes (summary data) = Z.of_nat (length (outcomes data))
  /\ (0 <= profitable_recommendations (summary data)
      <= total_outcomes (summary data))%Z
  /\ 0 <= average_roi_accuracy (summary data) <= 1
  /\ (average_user_satisfaction (summary data) = None
      <-> Forall (fun o => user_satisfaction o = None) (outcomes data))
  /\ (Forall satisfaction_on_scale (outcomes data) ->
      match average_user_satisfaction (summary data) with
      | Some average => 1 <= average <= 5
      | None => True
      end)
  /\ training_rewards data = enhanced_rewards self.
Proof.
  intros data. unfold data, get_training_data.
  cbn [outcomes summary total_outcomes profitable_recommendations
       average_roi_accuracy average_user_satisfaction training_rewards].
  set (completed := List.filter (fun o => String.eqb (status o) "completed")
                      (outcome_data self)).
  split.
  { eapply List.Forall_impl; [|apply filter_Forall].
    intros o Ho. now apply String.eqb_eq. }
  split; [reflexivity|].
  split.
  { pose proof (filter_length_le (fun o => Py.Qltb 0 (actual_profit o)) completed).
    lia. }
  split; [exact (average_roi_accuracy_range self)|].
  split.
  { rewrite <- omap_nil_iff.
    destruct (omap user_satisfaction completed); split;
      intros; congruence. }
  split; [|reflexivity].
  intros Hall.
  pose proof (omap_Forall user_satisfaction (fun s => 1 <= s <= 5) completed Hall)
    as Hs.
  destruct (omap user_satisfaction completed) as [|s rest] eqn:Eo; [exact I|].
  apply py_mean_bounds; [discriminate | exact Hs].
Qed.

End OutcomeTrackerFeedback.

Lemma collect_user_feedback_known_task_witness :
  In (Tracker.example_tracking "task-1" 100 0)
     (Tracker.outcome_data
        (Tracker.example_tracker true [Tracker.example_tracking "task-1" 100 0]))
  /\ fst (Tracker.collect_user_feedback
            (Tracker.example_tracker true [Tracker.example_tracking "task-1" 100 0])
            "task-1" "well timed" 5 86400) = true.
Proof.
  assert (In (Tracker.example_tracking "task-1" 100 0)
            (Tracker.outcome_data
               (Tracker.example_tracker true
                  [Tracker.example_tracking "task-1" 100 0]))) as Hin
    by (left; reflexivity).
  split; [exact Hin|].
  destruct (collect_user_feedback_known_task
              (Tracker.example_tracker true [Tracker.example_tracking "task-1" 100 0])
              "task-1" "well timed" 5 86400
              (Tracker.example_tracking "task-1" 100 0) Hin eq_refl)
    as (i & first & _ & _ & _ & H & _).
  exact H.
Defined.

Lemma feedback_after_reward_not_rewarded_witness :
  Tracker.has_reward
    (Tracker.enhanced_rewards
       (snd (Tracker.generate_enhanced_rewards
               (Tracker.example_tracker true [Tracker.example_unknown_1])
               2600000))) "unknown" = true
  /\ forall r,
       In r (fst (Tracker.generate_enhanced_rewards
                    (snd (Tracker.collect_user_feedback
                            (snd (Tracker.generate_enhanced_rewards
                                    (Tracker.example_tracker true
                                       [Tracker.example_unknown_1]) 2600000))
                            "unknown" "too late" 2 2700000)) 2800000)) ->
       Tracker.EnhancedReward.task_id r <> "unknown"%string.
Proof.
  assert (Tracker.has_reward
            (Tracker.enhanced_rewards
               (snd (Tracker.generate_enhanced_rewards
                       (Tracker.example_tracker true [Tracker.example_unknown_1])
                       2600000))) "unknown" = true) as Hhas
    by reflexivity.
  split; [exact Hhas|].
  exact (proj1 (proj2 (feedback_after_reward_not_rewarded
                         (snd (Tracker.generate_enhanced_rewards
                                 (Tracker.example_tracker true
                                    [Tracker.example_unknown_1]) 2600000))
                         "unknown" "too late" 2 2700000 2800000 Hhas))).
Defined.

Section ManagerCleanup.

Import Tracker.

Lemma filter_filter_same {A} (p : A -> bool) (l : list A) :
  List.filter p (List.filter p l) = List.filter p l.
Proof.
  induction l as [|x l IH]; [reflexivity|].
  cbn [List.filter]. destruct (p x) eqn:E; [|exact IH].
  cbn [List.filter]. now rewrite E, IH.
Qed.

Lemma filter_complement {A} (p q : A -> bool) (l : list A) :
  (forall x, q x = negb (p x)) ->
  (length (List.filter p l) + length (List.filter q l) = length l)%nat.
Proof.
  intros H. induction l as [|x l IH]; [reflexivity|].
  cbn [List.filter]. rewrite H. destruct (p x); simpl; lia.
Qed.

Lemma filter_none {A} (p q : A -> bool) (l : list A) :
  (forall x, q x = negb (p x)) -> List.filter p (List.filter q l) = [].
Proof.
  intros H. induction l as [|x l IH]; [reflexivity|].
  cbn [List.filter]. destruct (q x) eqn:E; [|exact IH].
  cbn [List.filter]. rewrite H in E.
  destruct (p x); [discriminate | exact IH].
Qed.

Lemma comprehension_None {A} (cond : A -> option bool) (l : list A) :
  Manager.comprehension cond l = None <-> List.Exists (fun o => cond o = None) l.
Proof.
  induction l as [|o l IH]; cbn [Manager.comprehension].
  - split; [discriminate | intros H; inversion H].
  - destruct (cond o) as [b|] eqn:E.
    + destruct (Manager.comprehension cond l) as [r|].
      * split; [discriminate|]. intros H.
        inversion H as [? ? H0|? ? H0]; subst; [congruence|].
        apply IH in H0. discriminate H0.
      * split; [|reflexivity]. intros _. apply List.Exists_cons_tl.
        apply IH. reflexivity.
    + split; [|reflexivity]. intros _. apply List.Exists_cons_hd. exact E.
Qed.

Lemma comprehension_filter {A} (cond : A -> option bool) (p : A -> bool)
    (l : list A) :
  (forall o, In o l -> cond o = Some (p o)) ->
  Manager.comprehension cond l = Some (List.filter p l).
Proof.
  induction l as [|o l IH]; intros H; [reflexivity|].
  cbn [Manager.comprehension List.filter].
  rewrite (H o (or_introl eq_refl)), IH by (intros; apply H; now right).
  reflexivity.
Qed.

Lemma started_before_None iso_dates cutoff o :
  Manager.started_before iso_dates cutoff o = None
  <-> Manager.iso_start iso_dates o.
Proof.
  unfold Manager.started_before, Manager.iso_start.
  destruct (tracking_start o), (iso_dates o); split;
    first [ discriminate
          | intros _; first [ reflexivity
                            | split; [reflexivity | discriminate] ]
          | intros [? ?]; congruence ].
Qed.

Lemma not_started_before_None iso_dates cutoff o :
  Manager.not_started_before iso_dates cutoff o = None
  <-> Manager.iso_start iso_dates o.
Proof.
  unfold Manager.not_started_before, Manager.iso_start.
  destruct (tracking_start o), (iso_dates o); split;
    first [ discriminate
          | intros _; first [ reflexivity
                            | split; [reflexivity | discriminate] ]
          | intros [? ?]; congruence ].
Qed.

Lemma comprehension_iso_start iso_dates cond (l : list OutcomeData) :
  (forall o, cond o = None <-> Manager.iso_start iso_dates o) ->
  Manager.comprehension cond l = None
  <-> List.Exists (Manager.iso_start iso_dates) l.
Proof.
  intros H. rewrite comprehension_None, !List.Exists_exists.
  split; intros (o & Hin & Ho); exists o; (split; [exact Hin|]);
    apply H; exact Ho.
Qed.

(** The cut-off date can be computed exactly when [days_to_keep] is within
    the days of a [timedelta] and the date lies in the range of
    [datetime]; it is then [days_to_keep] days before now. *)
Lemma cutoff_of_spec days_to_keep now :
  match Manager.cutoff_of days_to_keep now with
  | None => (999999999 < Z.abs days_to_keep
             \/ now - days_to_keep * 86400 < Manager.datetime_min
             \/ Manager.datetime_max < now - days_to_keep * 86400)%Z
  | Some cutoff_date =>
      cutoff_date = (now - days_to_keep * 86400)%Z
      /\ (Z.abs days_to_keep <= 999999999
          /\ Manager.datetime_min <= now - days_to_keep * 86400
             <= Manager.datetime_max)%Z
  end.
Proof.
  unfold Manager.cutoff_of, Manager.timedelta_days, Manager.datetime_sub.
  destruct (Z.abs days_to_keep <=? 999999999)%Z eqn:Ed.
  - apply Z.leb_le in Ed. cbv zeta.
    destruct (Manager.datetime_min <=? now - days_to_keep * 86400)%Z eqn:E1;
      cbn [andb].
    + destruct (now - days_to_keep * 86400 <=? Manager.datetime_max)%Z eqn:E2.
      * apply Z.leb_le in E1, E2. repeat split; assumption.
      * apply Z.leb_gt in E2. right. right. exact E2.
    + apply Z.leb_gt in E1. right. left. exact E1.
  - apply Z.leb_gt in Ed. left. exact Ed.
Qed.

Lemma cleanup_old_data_unfold tracker iso_dates days_to_keep now :
  Manager.cleanup_old_data tracker iso_dates days_to_keep now
  = match Manager.cutoff_of days_to_keep now with
    | None => (None, tracker)
    | Some cutoff_date =>
        match Manager.comprehension
                (Manager.started_before iso_dates cutoff_date)
                (outcome_data tracker) with
        | None => (None, tracker)
        | Some old_outcomes =>
            match Manager.comprehension
                    (Manager.not_started_before iso_dates cutoff_date)
                    (outcome_data tracker) with
            | None => (None, tracker)
            | Some remaining =>
                (Some (Z.of_nat (length old_outcomes),
                       Z.of_nat (length remaining)),
                 _save_outcome_data (set_outcome_data remaining tracker))
            end
        end
    end.
Proof.
  unfold Manager.cleanup_old_data, Manager.cutoff_of.
  destruct (Manager.timedelta_days days_to_keep); [|reflexivity].
  destruct (Manager.datetime_sub now z); reflexivity.
Qed.

(** Without a record whose start is an ISO string, the two comprehensions
    are the two filters. *)
Lemma cleanup_old_data_filters tracker iso_dates days_to_keep now cutoff_date :
  Manager.cutoff_of days_to_keep now = Some cutoff_date ->
  ~ List.Exists (Manager.iso_start iso_dates) (outcome_data tracker) ->
  let old o := match tracking_start o with
               | Some t => (t <? cutoff_date)%Z | None => false end in
  let keep o := match tracking_start o with
                | Some t => (cutoff_date <=? t)%Z | None => true end in
  Manager.cleanup_old_data tracker iso_dates days_to_keep now
  = (Some (Z.of_nat (length (List.filter old (outcome_data tracker))),
           Z.of_nat (length (List.filter keep (outcome_data tracker)))),
     _save_outcome_data
       (set_outcome_data (List.filter keep (outcome_data tracker)) tracker)).
Proof.
  intros Hc Hno old keep. rewrite cleanup_old_data_unfold, Hc.
  assert (forall o, In o (outcome_data tracker) ->
                    ~ Manager.iso_start iso_dates o) as Hfresh.
  { intros o Hin Ho. apply Hno, List.Exists_exists. now exists o. }
  rewrite (comprehension_filter _ old), (comprehension_filter _ keep).
  - reflexivity.
  - intros o Hin. specialize (Hfresh o Hin).
    unfold Manager.not_started_before, keep, Manager.iso_start in *.
    destruct (tracking_start o); [|reflexivity].
    destruct (iso_dates o); [|reflexivity].
    exfalso. apply Hfresh. split; [reflexivity | discriminate].
  - intros o Hin. specialize (Hfresh o Hin).
    unfold Manager.started_before, old, Manager.iso_start in *.
    destruct (tracking_start o); [|reflexivity].
    destruct (iso_dates o); [|reflexivity].
    exfalso. apply Hfresh. split; [reflexivity | discriminate].
Qed.

(** X15. The clean-up fails, returning an error and leaving the tracker as it
    was, exactly when [days_to_keep] is beyond the days of a [timedelta],
    or the cut-off date, [days_to_keep] days before now, lies outside the
    range of [datetime], or some record has for tracking start an ISO
    string read from the outcome file. Otherwise it splits the records in
    two: the number removed and the number remaining add up to the number
    there was. A record is then kept exactly when its tracking has no
    start or started at the cut-off date or later. The outcome file is
    rewritten with the records kept, the rewards, those of the removed
    records among them, are not touched, and a second clean-up at the
    same time removes nothing. *)
Theorem cleanup_old_data_partition tracker iso_dates days_to_keep now :
  let result :=
    fst (Manager.cleanup_old_data tracker iso_dates days_to_keep now) in
  let tracker' :=
    snd (Manager.cleanup_old_data tracker iso_dates days_to_keep now) in
  let cutoff_date := (now - days_to_keep * 86400)%Z in
  (result = None
   <-> (999999999 < Z.abs days_to_keep)%Z
       \/ (cutoff_date < Manager.datetime_min
           \/ Manager.datetime_max < cutoff_date)%Z
       \/ List.Exists (Manager.iso_start iso_dates) (outcome_data tracker))
  /\ (result = None -> tracker' = tracker)
  /\ (forall removed remaining, result = Some (removed, remaining) ->
      (removed + remaining = Z.of_nat (length (outcome_data tracker)))%Z
      /\ remaining = Z.of_nat (length (outcome_data tracker'))
      /\ (forall o, In o (outcome_data tracker')
                    <-> In o (outcome_data tracker)
                        /\ match tracking_start o with
                           | Some t => (cutoff_date <= t)%Z
                           | None => True
                           end)
      /\ outcome_data_file tracker' = outcome_data tracker'
      /\ enhanced_rewards tracker' = enhanced_rewards tracker
      /\ Manager.cleanup_old_data tracker' iso_dates days_to_keep now
         = (Some (0%Z, remaining), tracker')).
Proof.
  intros result tracker' cutoff_date.
  pose proof (cutoff_of_spec days_to_keep now) as Hc.
  destruct (Manager.cutoff_of days_to_keep now) as [c|] eqn:Ec.
  2:{ assert (Manager.cleanup_old_data tracker iso_dates days_to_keep now
              = (None, tracker)) as Hr
        by (rewrite cleanup_old_data_unfold, Ec; reflexivity).
      unfold result, tracker'. rewrite Hr. cbn [fst snd].
      split; [|split; [reflexivity | discriminate]].
      split; [intros _ | reflexivity]. fold cutoff_date in Hc. tauto. }
  destruct Hc as (-> & Hd & Hrange). fold cutoff_date in Hrange, Ec.
  destruct (List.Exists_dec (Manager.iso_start iso_dates) (outcome_data tracker))
    as [Hiso|Hno].
  { intros o. unfold Manager.iso_start.
    destruct (iso_dates o), (tracking_start o);
      first [ left; split; [reflexivity | discriminate]
            | right; intros [? ?]; congruence ]. }
  - assert (Manager.cleanup_old_data tracker iso_dates days_to_keep now
            = (None, tracker)) as Hr.
    { rewrite cleanup_old_data_unfold, Ec.
      pose proof (proj2 (comprehension_iso_start iso_dates
                           (Manager.started_before iso_dates cutoff_date)
                           (outcome_data tracker)
                           (started_before_None iso_dates cutoff_date)) Hiso)
        as ->.
      reflexivity. }
    unfold result, tracker'. rewrite Hr. cbn [fst snd].
    split; [|split; [reflexivity | discriminate]].
    split; [intros _ | reflexivity]. right. right. exact Hiso.
  - pose proof (cleanup_old_data_filters tracker iso_dates days_to_keep now
                  cutoff_date Ec Hno) as Hr.
    cbv zeta in Hr.
    set (old := fun o => match tracking_start o with
                         | Some t => (t <? cutoff_date)%Z | None => false end)
      in *.
    set (keep := fun o => match tracking_start o with
                          | Some t => (cutoff_date <=? t)%Z | None => true end)
      in *.
    assert (forall o, keep o = negb (old o)) as Hneg.
    { intros o. unfold keep, old. destruct (tracking_start o); [|reflexivity].
      apply Z.leb_antisym. }
    unfold result, tracker'. rewrite Hr. cbn [fst snd].
    split.
    { split; [discriminate|]. intros [H|[H|H]]; [lia | lia | contradiction]. }
    split; [discriminate|].
    intros removed remaining Heq. injection Heq as <- <-.
    cbn [outcome_data _save_outcome_data set_outcome_data
         outcome_data_file enhanced_rewards].
    split.
    { pose proof (filter_complement old keep (outcome_data tracker) Hneg). lia. }
    split; [reflexivity|].
    split.
    { intros o. rewrite filter_In. unfold keep.
      destruct (tracking_start o); [rewrite Z.leb_le|]; tauto. }
    split; [reflexivity|]. split; [reflexivity|].
    set (tracker1 := _save_outcome_data
                       (set_outcome_data
                          (List.filter keep (outcome_data tracker)) tracker)).
    assert (~ List.Exists (Manager.iso_start iso_dates) (outcome_data tracker1))
      as Hno1.
    { intros H. apply Hno. apply List.Exists_exists in H as (o & Hin & Ho).
      apply List.Exists_exists. exists o. split; [|exact Ho].
      unfold tracker1 in Hin.
      cbn [outcome_data _save_outcome_data set_outcome_data] in Hin.
      apply filter_In in Hin. tauto. }
    rewrite (cleanup_old_data_filters tracker1 iso_dates days_to_keep now
               cutoff_date Ec Hno1).
    cbv zeta. fold old keep. unfold tracker1.
    cbn [outcome_data _save_outcome_data set_outcome_data
         outcome_data_file enhanced_rewards tracking_period_days mock_mode
         enhanced_rewards_file user_feedback_file].
    rewrite filter_filter_same, (filter_none old keep _ Hneg). reflexivity.
Qed.

End ManagerCleanup.

(** On a tracker with three records created in this process, a clean-up
    that keeps 90 days removes the two that started earlier; once the
    records have been read back from the outcome file, it fails. *)
Lemma cleanup_old_data_partition_witness :
  let records := [Manager.example_record "old" (Some 63000000000%Z);
                  Manager.example_record "new" (Some 63008640000%Z);
                  Manager.example_record "unstarted" None;
                  Manager.example_record "older" (Some 62000000000%Z)] in
  let tracker := Manager.example_tracker records in
  let now := 63010000000%Z in
  fst (Manager.cleanup_old_data tracker (fun _ => false) 90 now)
  = Some (2%Z, 2%Z)
  /\ Tracker.outcome_data
       (snd (Manager.cleanup_old_data tracker (fun _ => false) 90 now))
     = [Manager.example_record "new" (Some 63008640000%Z);
        Manager.example_record "unstarted" None]
  /\ Manager.cleanup_old_data
       (snd (Manager.cleanup_old_data tracker (fun _ => false) 90 now))
       (fun _ => false) 90 now
     = (Some (0%Z, 2%Z),
        snd (Manager.cleanup_old_data tracker (fun _ => false) 90 now))
  /\ Manager.cleanup_old_data tracker (fun _ => true) 90 now
     = (None, tracker).
Proof.
  intros records tracker now.
  pose proof (cleanup_old_data_partition tracker (fun _ => false) 90 now) as H.
  cbv zeta in H. destruct H as (_ & _ & H).
  assert (fst (Manager.cleanup_old_data tracker (fun _ => false) 90 now)
          = Some (2%Z, 2%Z)) as Hr by reflexivity.
  destruct (H _ _ Hr) as (_ & _ & _ & _ & _ & Hagain).
  split; [exact Hr|]. split; [reflexivity|].
  split; [exact Hagain | reflexivity].
Defined.

(** ** Enhanced business simulator: shape, orders and accounts *)

Section SimulatorShape.

Import Env.

Lemma fold_left_preserves_in {A B} (P : A -> Prop) (f : A -> B -> A) l :
  (forall a x, In x l -> P a -> P (f a x)) ->
  forall a, P a -> P (fold_left f l a).
Proof.
  induction l as [|x l IH]; intros Hf a Ha; [exact Ha|].
  cbn [fold_left]. apply IH.
  - intros b y Hy. apply Hf. now right.
  - apply Hf; [now left | exact Ha].
Qed.

Lemma enumerate_lookup {A} (l : list A) i x :
  In (i, x) (enumerate l) -> l !! i = Some x.
Proof.
  intros H. apply list_elem_of_In, elem_of_lookup_imap_1 in H
    as (j & y & E & Hl).
  now injection E as -> ->.
Qed.

Lemma enumerate_index {A} (l : list A) ip :
  In ip (enumerate l) -> (fst ip < length l)%nat /\ l !! fst ip = Some (snd ip).
Proof.
  destruct ip as [i x]. intros H. apply enumerate_lookup in H.
  split; [|exact H]. now apply lookup_lt_Some in H.
Qed.

Lemma pending_keys_insert (m : gmap nat (list Order)) i x n :
  (i < n)%nat ->
  (forall j, is_Some (m !! j) <-> (j < n)%nat) ->
  forall j, is_Some (<[i := x]> m !! j) <-> (j < n)%nat.
Proof.
  intros Hi H j. rewrite lookup_insert_is_Some, H.
  destruct (decide (i = j)) as [->|]; intuition lia.
Qed.

(** Unfolds [well_shaped] on both sides and settles what assignments to
    scalars and to entries of the lists leave to prove. *)
Ltac shape :=
  let H := fresh in
  intros H; unfold well_shaped in *; cbn in *;
  destruct H as (? & ? & ? & ? & ? & ?);
  rewrite ?length_insert;
  repeat match goal with |- _ /\ _ => split end; try assumption;
  try (apply pending_keys_insert; assumption).

Lemma receive_well_shaped idx bs o :
  well_shaped bs -> well_shaped (receive idx bs o).
Proof. unfold receive. shape. Qed.

Lemma deliver_product_well_shaped bs idx :
  (idx < num_products)%nat ->
  well_shaped bs -> well_shaped (deliver_product bs idx).
Proof.
  intros Hi Hs. rewrite deliver_product_unfold. cbv zeta.
  assert (well_shaped
            (fold_left (receive idx)
               (List.filter arrives (map age (orders_of bs idx))) bs)) as H.
  { apply fold_left_preserves; [|exact Hs].
    intros a o. apply receive_well_shaped. }
  revert H. generalize (fold_left (receive idx)
               (List.filter arrives (map age (orders_of bs idx))) bs).
  intros b. shape.
Qed.

Lemma _process_supplier_deliveries_well_shaped bs :
  well_shaped bs -> well_shaped (_process_supplier_deliveries bs).
Proof.
  unfold _process_supplier_deliveries.
  apply (fold_left_preserves_in well_shaped).
  intros a idx Hin. apply deliver_product_well_shaped.
  apply in_seq in Hin. lia.
Qed.

Lemma place_order_well_shaped i o bs :
  (i < num_products)%nat -> well_shaped bs -> well_shaped (place_order i o bs).
Proof. intros Hi. unfold place_order. shape. Qed.

Lemma _execute_restock_action_well_shaped bs i product a :
  (i < num_products)%nat ->
  well_shaped bs -> well_shaped (fst (_execute_restock_action bs i product a)).
Proof.
  intros Hi Hs. rewrite _execute_restock_action_placed.
  destruct (placed_order (cash_flow bs) product a); [|exact Hs].
  now apply place_order_well_shaped.
Qed.

Lemma restock_loop_well_shaped product_actions : forall acc,
  well_shaped (fst acc) ->
  well_shaped (fst (fold_left (restock_product product_actions)
                      (enumerate products) acc)).
Proof.
  apply (fold_left_preserves_in (fun acc => well_shaped (fst acc))).
  intros acc ip Hin H. rewrite restock_product_fst.
  destruct (0 <? _)%Z; [|exact H].
  apply _execute_restock_action_well_shaped; [|exact H].
  now apply enumerate_index in Hin as [Hi _].
Qed.

Lemma boost_demand_trends_well_shaped factor bs :
  well_shaped bs -> well_shaped (boost_demand_trends factor bs).
Proof.
  unfold boost_demand_trends. apply (fold_left_preserves well_shaped).
  intros b i. shape.
Qed.

Lemma _execute_business_actions_well_shaped bs business_actions :
  well_shaped bs -> well_shaped (_execute_business_actions bs business_actions).
Proof.
  intros Hs. unfold _execute_business_actions.
  destruct (_ =? 1)%Z; [|destruct (_ =? 2)%Z]; try exact Hs.
  - destruct (Qle_bool 1000 (cash_flow bs)); [|exact Hs].
    apply boost_demand_trends_well_shaped. revert Hs. shape.
  - destruct (Qle_bool 2500 (cash_flow bs)); [|exact Hs].
    apply boost_demand_trends_well_shaped. revert Hs. shape.
Qed.

Lemma simulate_product_well_shaped dv acc ip :
  well_shaped (loop_state acc) ->
  well_shaped (loop_state (simulate_product dv acc ip)).
Proof.
  destruct ip as [i product]. unfold simulate_product.
  cbn [loop_state].
  match goal with |- context [if ?c then _ else _] => destruct c end; shape.
Qed.

Lemma _simulate_daily_operations_well_shaped dv bs :
  well_shaped bs -> well_shaped (fst (_simulate_daily_operations dv bs)).
Proof.
  intros Hs. unfold _simulate_daily_operations.
  assert (well_shaped
            (loop_state
               (fold_left (simulate_product dv) (enumerate products)
                  {| loop_state := bs; loop_revenue := 0; loop_costs := 0;
                     loop_units_sold := 0; loop_stockouts := 0 |}))) as H.
  { apply (fold_left_preserves (fun acc => well_shaped (loop_state acc)));
      [|exact Hs].
    intros acc ip. apply simulate_product_well_shaped. }
  revert H.
  generalize (fold_left (simulate_product dv) (enumerate products)
                {| loop_state := bs; loop_revenue := 0; loop_costs := 0;
                   loop_units_sold := 0; loop_stockouts := 0 |}).
  intros acc. cbn [fst].
  destruct (loop_stockouts acc =? 0)%Z; [shape | auto].
Qed.

Lemma _update_business_state_well_shaped bs daily_results :
  well_shaped bs -> well_shaped (_update_business_state bs daily_results).
Proof.
  unfold _update_business_state.
  destruct (Py.Qltb 0 _); [destruct (Py.Qltb 0 _)|]; shape.
Qed.

Lemma step_well_shaped env inp r :
  step env inp = Some r ->
  well_shaped (business_state env) -> well_shaped (business_state (next_env r)).
Proof.
  unfold step. destruct (in_action_space (action inp)); [|discriminate].
  intros H Hs. injection H as <-. unfold step_from_restock.
  apply _process_supplier_deliveries_well_shaped in Hs.
  pose proof (restock_loop_well_shaped (take num_products (action inp))
                (_process_supplier_deliveries (business_state env), 0) Hs) as H2.
  destruct (fold_left _ (enumerate products) _) as [bs2 costs]. cbn [fst] in H2.
  apply (_execute_business_actions_well_shaped _
           (drop num_products (action inp))) in H2.
  apply (_simulate_daily_operations_well_shaped (demand_variance inp)) in H2.
  destruct (_simulate_daily_operations _ _) as [bs4 results].
  cbn [fst] in H2. cbn [next_env business_state].
  now apply _update_business_state_well_shaped.
Qed.

Lemma run_well_shaped_from inputs : forall env env',
  run env inputs = Some env' ->
  well_shaped (business_state env) -> well_shaped (business_state env').
Proof.
  induction inputs as [|inp inputs IH]; intros env env'; simpl.
  - intros H. now injection H as <-.
  - destruct (step env inp) as [r|] eqn:E; [|discriminate].
    intros H Hs. apply (IH _ _ H). eapply step_well_shaped; eauto.
Qed.

Lemma reset_well_shaped d : well_shaped (business_state (reset d)).
Proof.
  unfold well_shaped.
  cbn [business_state reset _create_business_state inventory_levels
       days_since_restock supplier_relationships demand_trends stockout_days
       pending_orders].
  rewrite !List.length_map, !List.length_seq, length_replicate.
  repeat match goal with |- _ /\ _ => split end; try reflexivity.
  intros i. rewrite <- elem_of_dom, dom_list_to_map_L, elem_of_list_to_set.
  rewrite list_elem_of_fmap. split.
  - intros ([j l] & -> & Hin). apply list_elem_of_In, in_map_iff in Hin
      as (k & E & Hk). injection E as <- _. apply in_seq in Hk. simpl. lia.
  - intros Hi. exists (i, []). split; [reflexivity|].
    apply list_elem_of_In, in_map_iff. exists i. split; [reflexivity|].
    apply in_seq. lia.
Qed.

Lemma _get_observation_length env :
  well_shaped (business_state env) ->
  length (_get_observation env) = length obs_low.
Proof.
  intros (H1 & H2 & _ & H4 & _). unfold _get_observation, obs_low.
  rewrite !length_app, !List.length_map, !length_replicate, H1, H2, H4.
  reflexivity.
Qed.

(** X16. In every episode, after every step, each per-product list of the
    business state has one entry for each product of the catalog and the
    pending orders have one key for each product, so that every index the
    simulator reads exists; and the observation has as many entries as
    the bounds of the observation space, twenty-five. *)
Theorem run_well_shaped d inputs env :
  run (reset d) inputs = Some env ->
  well_shaped (business_state env)
  /\ length (_get_observation env) = length obs_low
  /\ length obs_low = 25%nat /\ length obs_high = 25%nat.
Proof.
  intros Hrun.
  assert (well_shaped (business_state env)) as Hs.
  { apply (run_well_shaped_from inputs _ _ Hrun), reset_well_shaped. }
  split; [exact Hs|]. split; [now apply _get_observation_length|].
  split; reflexivity.
Qed.

End SimulatorShape.

Lemma run_well_shaped_witness :
  match Env.run (Env.reset Env.example_draws)
          [Env.example_restock; Env.example_idle] with
  | Some env => length (Env._get_observation env) = 25%nat
  | None => False
  end.
Proof.
  destruct (Env.run (Env.reset Env.example_draws)
              [Env.example_restock; Env.example_idle]) as [env|] eqn:E.
  - destruct (run_well_shaped Env.example_draws
                [Env.example_restock; Env.example_idle] env E)
      as (_ & H & H25 & _).
    now rewrite H.
  - vm_compute in E. discriminate E.
Defined.

Section SimulatorObservation.

Import Env.

Lemma py_float_between (lo hi z : Z) (a b : Q) :
  (lo <= z <= hi)%Z -> a <= Py.float lo -> Py.float hi <= b ->
  a <= Py.float z /\ Py.float z <= b.
Proof.
  intros [H1 H2] Ha Hb.
  apply py_float_le in H1, H2. split; lra.
Qed.

(** X17. The first observation of an episode lies in the declared observation
    space exactly when the market condition drawn is not the recession:
    the entry that encodes the market condition is zero for a recession,
    below the lower bound 0.1 the space gives it. *)
Theorem reset_observation_in_space d :
  draws_in_range d ->
  in_observation_space (_get_observation (reset d))
  <-> init_market_condition d <> RECESSION.
Proof.
  intros (Hinv & Hdays & Hcash & _ & _ & Hcs & _ & Htrend).
  unfold in_observation_space, _get_observation, reset, obs_low, obs_high,
    _create_business_state.
  cbn [business_state days_remaining inventory_levels days_since_restock
       cash_flow market_condition season customer_satisfaction
       inventory_turnover demand_trends monthly_revenue].
  change num_products with 5%nat.
  cbn [seq map replicate app List.map].
  split.
  - intros [Hlow _] Hm.
    assert (1 # 10 <= market_condition_value (init_market_condition d) / 4)
      as H.
    { eapply (Forall2_lookup_lr _ _ _ 12%nat _ _ Hlow); reflexivity. }
    rewrite Hm in H. vm_compute in H. now apply H.
  - intros Hm.
    pose proof (Hinv 0%nat). pose proof (Hinv 1%nat). pose proof (Hinv 2%nat).
    pose proof (Hinv 3%nat). pose proof (Hinv 4%nat).
    pose proof (Hdays 0%nat). pose proof (Hdays 1%nat). pose proof (Hdays 2%nat).
    pose proof (Hdays 3%nat). pose proof (Hdays 4%nat).
    pose proof (Htrend 0%nat). pose proof (Htrend 1%nat).
    pose proof (Htrend 2%nat). pose proof (Htrend 3%nat).
    pose proof (Htrend 4%nat).
    assert (forall z, (50 <= z <= 200)%Z -> 0 <= Py.float z /\ Py.float z <= 1000)
      as Hi.
    { intros z Hz. apply (py_float_between 50 200); [exact Hz | | ]; reflexivity
        || (vm_compute; discriminate). }
    assert (forall z, (0 <= z <= 10)%Z -> 0 <= Py.float z /\ Py.float z <= 30)
      as Hd.
    { intros z Hz. apply (py_float_between 0 10); [exact Hz | | ]; reflexivity
        || (vm_compute; discriminate). }
    assert (1 # 10 <= market_condition_value (init_market_condition d) / 4
            /\ market_condition_value (init_market_condition d) / 4 <= 1) as Hv.
    { destruct (init_market_condition d); [contradiction|..];
        split; vm_compute; discriminate. }
    assert (1 # 2 <= _get_market_factor (init_market_condition d)
            /\ _get_market_factor (init_market_condition d) <= 2) as Hf.
    { destruct (init_market_condition d); split; vm_compute; discriminate. }
    assert (0 <= season_value (init_season d) / 3
            /\ season_value (init_season d) / 3 <= 1) as Hse.
    { destruct (init_season d); split; vm_compute; discriminate. }
    assert (0 <= 0 / 10 /\ 0 / 10 <= 1) as H010
      by (split; vm_compute; discriminate).
    assert (Py.float max_days <= Py.float max_days) as Hmax by apply Qle_refl.
    split; repeat constructor;
      try (apply Hi; assumption); try (apply Hd; assumption);
      try apply Hv; try apply Hf; try apply Hse; try apply H010;
      try exact Hmax; lra.
Qed.

End SimulatorObservation.

Lemma reset_observation_in_space_witness :
  Env.draws_in_range Env.example_draws
  /\ Env.in_observation_space (Env._get_observation (Env.reset Env.example_draws)).
Proof.
  split; [exact example_draws_in_range|].
  apply (reset_observation_in_space Env.example_draws example_draws_in_range).
  discriminate.
Defined.

Section SimulatorOrders.

Import Env.

Lemma product_lead_time_positive product :
  In product products -> (1 <= lead_time product)%Z.
Proof.
  unfold products, _create_product_catalog. simpl.
  intros [<- | [<- | [<- | [<- | [<- | []]]]]]; simpl; lia.
Qed.

Lemma lookup_In {A} (l : list A) i x : l !! i = Some x -> In x l.
Proof. intros H. eapply list_elem_of_In, list_elem_of_lookup_2, H. Qed.

Lemma reset_no_orders d i l :
  pending_orders (business_state (reset d)) !! i = Some l -> l = [].
Proof.
  cbn [business_state reset _create_business_state pending_orders].
  intros Hl. apply elem_of_list_to_map_2 in Hl.
  apply list_elem_of_fmap in Hl as (j & Hj & _). now injection Hj as _ ->.
Qed.

Lemma tier_quantity_bounds a q0 :
  tier_quantity a = Some q0 -> (0 < q0 <= 200)%Z.
Proof.
  unfold tier_quantity.
  destruct (a =? 1)%Z; [|destruct (a =? 2)%Z; [|destruct (a =? 3)%Z]];
    intros H; inversion H; lia.
Qed.

(** The order a restock action places is well formed. *)
Lemma placed_order_well_formed cash product a o :
  In product products ->
  placed_order cash product a = Some o -> order_well_formed product o.
Proof.
  intros Hp. unfold placed_order.
  destruct (tier_quantity a) as [q0|] eqn:Ht; [|discriminate].
  apply tier_quantity_bounds in Ht.
  pose proof (affordable_spec cash product q0
                (product_cost_price_positive _ Hp)) as Hs.
  assert (Py.Qltb cash (Py.float q0 * cost_price product) = false ->
          fst (affordable cash product q0) = q0) as Hfull.
  { unfold affordable. now intros ->. }
  destruct (affordable cash product q0) as [q c].
  destruct Hs as (Hc & _ & Hpart).
  destruct (0 <? q)%Z eqn:Hq; [|discriminate].
  apply Z.ltb_lt in Hq. intros H. injection H as <-.
  unfold order_well_formed. cbn [Order.quantity Order.days_remaining Order.cost].
  split; [|split; [|exact Hc]].
  - split; [exact Hq|].
    destruct (Qltb_spec cash (Py.float q0 * cost_price product)) as [Hlt|Hge].
    + destruct (Hpart Hlt) as [Hint Hpos].
      destruct (Qlt_le_dec cash 0) as [Hneg|Hnn].
      * assert (cash / cost_price product <= 0) as Hx.
        { apply Qle_shift_div_r;
            [now apply product_cost_price_positive | lra]. }
        apply py_int_nonpos in Hx. lia.
      * destruct (Hpos Hnn) as [Hr _]. lia.
    + cbn [fst] in Hfull. rewrite Hfull; [lia | reflexivity].
  - pose proof (product_lead_time_positive _ Hp). lia.
Qed.

Lemma orders_well_formed_pending bs bs' :
  pending_orders bs' = pending_orders bs ->
  orders_well_formed bs -> orders_well_formed bs'.
Proof. unfold orders_well_formed. now intros ->. Qed.

Lemma age_well_formed product o :
  order_well_formed product o -> arrives (age o) = false ->
  order_well_formed product (age o).
Proof.
  unfold order_well_formed, arrives, age.
  cbn [Order.quantity Order.days_remaining Order.cost].
  intros (Hq & Hd & Hc) Ha. apply Z.leb_gt in Ha.
  split; [exact Hq|]. split; [lia | exact Hc].
Qed.

Lemma deliver_product_well_formed bs idx :
  orders_well_formed bs -> orders_well_formed (deliver_product bs idx).
Proof.
  intros H. rewrite deliver_product_unfold. cbv zeta.
  unfold orders_well_formed.
  cbn [pending_orders set_pending_orders].
  rewrite fold_receive_pending.
  intros i product l Hp.
  destruct (decide (idx = i)) as [->|Hne].
  - rewrite lookup_insert_eq. intros Hl. injection Hl as <-.
    unfold orders_of.
    destruct (pending_orders bs !! i) as [l0|] eqn:El; [|constructor].
    specialize (H i product l0 Hp El). cbn [default].
    apply List.Forall_forall. intros o Ho.
    apply filter_In in Ho as [Ho Ha]. apply in_map_iff in Ho as (o0 & <- & Ho0).
    apply negb_true_iff in Ha.
    apply age_well_formed; [|exact Ha].
    rewrite List.Forall_forall in H. now apply H.
  - rewrite lookup_insert_ne by exact Hne. now apply H.
Qed.

Lemma _process_supplier_deliveries_well_formed bs :
  orders_well_formed bs ->
  orders_well_formed (_process_supplier_deliveries bs).
Proof.
  unfold _process_supplier_deliveries.
  apply (fold_left_preserves orders_well_formed).
  intros a idx. apply deliver_product_well_formed.
Qed.

Lemma place_order_well_formed i product o bs :
  products !! i = Some product -> order_well_formed product o ->
  orders_well_formed bs -> orders_well_formed (place_order i o bs).
Proof.
  intros Hp Ho H. unfold orders_well_formed, place_order.
  cbn [pending_orders set_pending_orders set_cash_flow set_days_since_restock].
  intros j product' l Hp'.
  destruct (decide (i = j)) as [->|Hne].
  - rewrite lookup_insert_eq. intros Hl. injection Hl as <-.
    assert (product' = product) as -> by congruence.
    apply Forall_app. split; [|constructor; [exact Ho | constructor]].
    unfold orders_of.
    destruct (pending_orders bs !! j) as [l0|] eqn:El; [|constructor].
    exact (H j product l0 Hp El).
  - rewrite lookup_insert_ne by exact Hne. now apply H.
Qed.

Lemma restock_loop_well_formed product_actions : forall acc,
  orders_well_formed (fst acc) ->
  orders_well_formed (fst (fold_left (restock_product product_actions)
                             (enumerate products) acc)).
Proof.
  apply (fold_left_preserves_in (fun acc => orders_well_formed (fst acc))).
  intros acc [i product] Hin H. rewrite restock_product_fst. cbn [fst snd].
  destruct (0 <? _)%Z; [|exact H].
  rewrite _execute_restock_action_placed.
  destruct (placed_order (cash_flow (fst acc)) product
              (zget product_actions i)) as [o|] eqn:E; [|exact H].
  apply enumerate_lookup in Hin.
  apply (place_order_well_formed i product); [exact Hin| |exact H].
  apply (placed_order_well_formed _ _ _ _ (lookup_In _ _ _ Hin) E).
Qed.

Lemma step_well_formed env inp r :
  step env inp = Some r ->
  orders_well_formed (business_state env) ->
  orders_well_formed (business_state (next_env r)).
Proof.
  unfold step. destruct (in_action_space (action inp)); [|discriminate].
  intros H Hw. injection H as <-.
  eapply orders_well_formed_pending; [apply step_from_restock_pending|].
  apply restock_loop_well_formed. cbn [fst].
  now apply _process_supplier_deliveries_well_formed.
Qed.

Lemma run_well_formed_from inputs : forall env env',
  run env inputs = Some env' ->
  orders_well_formed (business_state env) ->
  orders_well_formed (business_state env').
Proof.
  induction inputs as [|inp inputs IH]; intros env env'; simpl.
  - intros H. now injection H as <-.
  - destruct (step env inp) as [r|] eqn:E; [|discriminate].
    intros H Hs. apply (IH _ _ H). eapply step_well_formed; eauto.
Qed.

(** X18. In every episode, after every step, every order in transit is well
    formed: its quantity is positive and at most 200, the largest tier;
    it has between one day and the lead time of its product to go; and its
    cost is its quantity at the cost price of the product. *)
Theorem run_orders_well_formed d inputs env i product o :
  run (reset d) inputs = Some env ->
  products !! i = Some product ->
  In o (orders_of (business_state env) i) ->
  (0 < Order.quantity o <= 200)%Z
  /\ (1 <= Order.days_remaining o <= lead_time product)%Z
  /\ Order.cost o = Py.float (Order.quantity o) * cost_price product.
Proof.
  intros Hrun Hp Hin.
  assert (orders_well_formed (business_state env)) as Hw.
  { apply (run_well_formed_from inputs _ _ Hrun).
    intros j p l _ Hl. apply reset_no_orders in Hl as ->. constructor. }
  unfold orders_of in Hin.
  destruct (pending_orders (business_state env) !! i) as [l|] eqn:El;
    [|contradiction].
  specialize (Hw i product l Hp El). rewrite List.Forall_forall in Hw.
  exact (Hw o Hin).
Qed.

End SimulatorOrders.

Lemma run_orders_well_formed_witness :
  exists env,
    Env.run (Env.reset Env.example_draws)
      [Env.example_restock; Env.example_idle] = Some env
    /\ In (Env.Order.mk 200 6 5000) (Env.orders_of (Env.business_state env) 0)
    /\ (1 <= 6 <= 7)%Z.
Proof.
  destruct (Env.run (Env.reset Env.example_draws)
              [Env.example_restock; Env.example_idle]) as [env|] eqn:E;
    [|vm_compute in E; discriminate E].
  exists env. split; [reflexivity|].
  assert (In (Env.Order.mk 200 6 5000)
            (Env.orders_of (Env.business_state env) 0)) as Hin.
  { vm_compute in E. injection E as <-. left. reflexivity. }
  split; [exact Hin|].
  exact (proj1 (proj2 (run_orders_well_formed Env.example_draws
                         [Env.example_restock; Env.example_idle] env 0%nat _
                         (Env.Order.mk 200 6 5000) E eq_refl Hin))).
Defined.

Section SimulatorAccounts.

Import Env.

Lemma foldr_add_insert (l : list Z) : forall i v,
  (i < length l)%nat ->
  foldr Z.add 0%Z (<[i := v]> l) = (foldr Z.add 0%Z l - zget l i + v)%Z.
Proof.
  induction l as [|x l IH]; intros i v Hi; [simpl in Hi; lia|].
  destruct i as [|i]; cbn [foldr].
  - unfold zget. simpl. lia.
  - simpl in Hi. change (<[S i := v]> (x :: l)) with (x :: <[i := v]> l).
    cbn [foldr]. rewrite IH by lia. unfold zget. simpl. lia.
Qed.

Lemma product_prices_positive product :
  In product products ->
  0 < selling_price product /\ 0 < storage_cost_per_unit product.
Proof.
  unfold products, _create_product_catalog. simpl.
  intros [<- | [<- | [<- | [<- | [<- | []]]]]]; split; reflexivity.
Qed.

Lemma daily_demand_of_nonneg dv bs i product :
  (0 <= daily_demand_of dv bs i product)%Z.
Proof. unfold daily_demand_of. lia. Qed.

Lemma simulate_product_results dv acc i product :
  let units_sold :=
    Z.min (daily_demand_of dv (loop_state acc) i product)
      (zget (inventory_levels (loop_state acc)) i) in
  loop_units_sold (simulate_product dv acc (i, product))
  = (loop_units_sold acc + units_sold)%Z
  /\ loop_revenue (simulate_product dv acc (i, product))
     = loop_revenue acc + Py.float units_sold * selling_price product
  /\ loop_costs (simulate_product dv acc (i, product))
     = loop_costs acc
       + Py.float (zget (inventory_levels (loop_state acc)) i)
         * storage_cost_per_unit product.
Proof. repeat split. Qed.

(** What the loop over the products keeps true. *)
Lemma simulate_product_accounts dv total acc ip :
  In ip (enumerate products) ->
  length (inventory_levels (loop_state acc)) = num_products
  /\ inventory_nonneg (loop_state acc)
  /\ (units_in_stock (loop_state acc) + loop_units_sold acc = total)%Z
  /\ (0 <= loop_units_sold acc)%Z
  /\ 0 <= loop_revenue acc /\ 0 <= loop_costs acc ->
  let acc' := simulate_product dv acc ip in
  length (inventory_levels (loop_state acc')) = num_products
  /\ inventory_nonneg (loop_state acc')
  /\ (units_in_stock (loop_state acc') + loop_units_sold acc' = total)%Z
  /\ (0 <= loop_units_sold acc')%Z
  /\ 0 <= loop_revenue acc' /\ 0 <= loop_costs acc'.
Proof.
  intros Hin (Hlen & Hnn & Hsum & Hu & Hr & Hc) acc'.
  destruct ip as [i product].
  destruct (enumerate_index _ _ Hin) as [Hi Hp]. cbn [fst snd] in Hi, Hp.
  apply lookup_In, product_prices_positive in Hp as [Hprice Hstore].
  destruct (simulate_product_frame dv acc (i, product)) as [Hinv _].
  destruct (simulate_product_results dv acc i product) as (Eu & Er & Ec).
  cbn [fst snd] in Hinv. fold acc' in Hinv, Eu, Er, Ec.
  pose proof (daily_demand_of_nonneg dv (loop_state acc) i product) as Hd.
  pose proof (zget_nonneg _ i Hnn) as Hz.
  set (sold := Z.min (daily_demand_of dv (loop_state acc) i product)
                 (zget (inventory_levels (loop_state acc)) i)) in *.
  assert (0 <= sold <= zget (inventory_levels (loop_state acc)) i)%Z as Hs
    by (unfold sold; lia).
  split; [rewrite Hinv, length_insert; exact Hlen|].
  split.
  { unfold inventory_nonneg. rewrite Hinv.
    apply Forall_insert; [exact Hnn | lia]. }
  split.
  { unfold units_in_stock in *. rewrite Hinv, Eu.
    rewrite foldr_add_insert by (rewrite Hlen; exact Hi). lia. }
  split; [rewrite Eu; lia|].
  split.
  - rewrite Er.
    assert (0 <= Py.float sold * selling_price product).
    { apply Qmult_le_0_compat; [|lra].
      change 0 with (Py.float 0). apply py_float_le. lia. }
    lra.
  - rewrite Ec.
    assert (0 <= Py.float (zget (inventory_levels (loop_state acc)) i)
                 * storage_cost_per_unit product).
    { apply Qmult_le_0_compat; [|lra].
      change 0 with (Py.float 0). now apply py_float_le. }
    lra.
Qed.

(** X19. A day of operations moves units from the stock to the sales and
    nowhere else: the units in stock afterwards and the units sold add up
    to the units in stock before. With no negative inventory level, the
    units sold, the revenue and the storage costs of the day are not
    negative, and no inventory level becomes negative. *)
Theorem _simulate_daily_operations_units dv bs :
  length (inventory_levels bs) = num_products ->
  inventory_nonneg bs ->
  let bs' := fst (_simulate_daily_operations dv bs) in
  let results := snd (_simulate_daily_operations dv bs) in
  (units_in_stock bs' + daily_units_sold results = units_in_stock bs)%Z
  /\ (0 <= daily_units_sold results <= units_in_stock bs)%Z
  /\ 0 <= daily_revenue results
  /\ 0 <= daily_costs results
  /\ daily_profit results = daily_revenue results - daily_costs results
  /\ inventory_nonneg bs'.
Proof.
  intros Hlen Hnn bs' results.
  assert (let acc := fold_left (simulate_product dv) (enumerate products)
                       {| loop_state := bs; loop_revenue := 0; loop_costs := 0;
                          loop_units_sold := 0; loop_stockouts := 0 |} in
          length (inventory_levels (loop_state acc)) = num_products
          /\ inventory_nonneg (loop_state acc)
          /\ (units_in_stock (loop_state acc) + loop_units_sold acc
              = units_in_stock bs)%Z
          /\ (0 <= loop_units_sold acc)%Z
          /\ 0 <= loop_revenue acc /\ 0 <= loop_costs acc) as H.
  { apply (fold_left_preserves_in
             (fun acc =>
                length (inventory_levels (loop_state acc)) = num_products
                /\ inventory_nonneg (loop_state acc)
                /\ (units_in_stock (loop_state acc) + loop_units_sold acc
                    = units_in_stock bs)%Z
                /\ (0 <= loop_units_sold acc)%Z
                /\ 0 <= loop_revenue acc /\ 0 <= loop_costs acc)).
    - intros acc ip Hin. now apply simulate_product_accounts.
    - cbn [loop_state loop_units_sold loop_revenue loop_costs].
      repeat split; try assumption; try lia; lra. }
  unfold bs', results, _simulate_daily_operations.
  revert H.
  generalize (fold_left (simulate_product dv) (enumerate products)
                {| loop_state := bs; loop_revenue := 0; loop_costs := 0;
                   loop_units_sold := 0; loop_stockouts := 0 |}).
  intros acc (_ & Hnn' & Hsum & Hu & Hr & Hc). cbn [fst snd].
  cbn [daily_units_sold daily_revenue daily_costs daily_profit].
  assert (forall b : bool, inventory_levels
                      (if b then set_customer_satisfaction
                                   (Py.min 1 (customer_satisfaction (loop_state acc)
                                              * (1001 # 1000))) (loop_state acc)
                       else loop_state acc)
                    = inventory_levels (loop_state acc)) as Hinv
    by (intros []; reflexivity).
  unfold units_in_stock, inventory_nonneg in *. rewrite Hinv.
  assert (0 <= foldr Z.add 0 (inventory_levels (loop_state acc)))%Z as Hstock.
  { clear -Hnn'. induction Hnn' as [|x l Hx Hl IH]; simpl; lia. }
  repeat split; try assumption; lia.
Qed.

End SimulatorAccounts.

Lemma _simulate_daily_operations_units_witness :
  Z.add
    (Env.units_in_stock
       (fst (Env._simulate_daily_operations (fun _ => 1)
               (Env.business_state (Env.reset Env.example_draws)))))
    (Env.daily_units_sold
       (snd (Env._simulate_daily_operations (fun _ => 1)
               (Env.business_state (Env.reset Env.example_draws)))))
  = 600%Z.
Proof.
  exact (proj1 (_simulate_daily_operations_units (fun _ => 1)
                  (Env.business_state (Env.reset Env.example_draws))
                  eq_refl
                  (proj1 (reset_invariant Env.example_draws
                            example_draws_in_range)))).
Defined.

Section SimulatorEpisode.

Import Env.

(** *** Customer satisfaction *)

Lemma deliver_product_satisfaction bs idx :
  customer_satisfaction (deliver_product bs idx) = customer_satisfaction bs.
Proof.
  rewrite deliver_product_unfold. cbv zeta.
  cbn [customer_satisfaction set_pending_orders].
  apply (fold_left_preserves
           (fun b => customer_satisfaction b = customer_satisfaction bs));
    [|reflexivity].
  intros b o H. exact H.
Qed.

Lemma _process_supplier_deliveries_satisfaction bs :
  customer_satisfaction (_process_supplier_deliveries bs)
  = customer_satisfaction bs.
Proof.
  unfold _process_supplier_deliveries.
  apply (fold_left_preserves
           (fun b => customer_satisfaction b = customer_satisfaction bs));
    [|reflexivity].
  intros b idx H. now rewrite deliver_product_satisfaction.
Qed.

Lemma restock_loop_satisfaction product_actions todo : forall acc,
  customer_satisfaction (fst (fold_left (restock_product product_actions) todo acc))
  = customer_satisfaction (fst acc).
Proof.
  intros acc.
  apply (fold_left_preserves
           (fun a => customer_satisfaction (fst a)
                     = customer_satisfaction (fst acc))); [|reflexivity].
  intros a ip H. rewrite restock_product_fst.
  destruct (0 <? _)%Z; [|exact H].
  rewrite _execute_restock_action_placed.
  destruct (placed_order _ _ _); exact H.
Qed.

Lemma boost_demand_trends_satisfaction factor bs :
  customer_satisfaction (boost_demand_trends factor bs)
  = customer_satisfaction bs.
Proof.
  unfold boost_demand_trends.
  apply (fold_left_preserves
           (fun b => customer_satisfaction b = customer_satisfaction bs));
    [|reflexivity].
  intros b i H. exact H.
Qed.

Lemma _execute_business_actions_satisfaction bs business_actions :
  customer_satisfaction (_execute_business_actions bs business_actions)
  = customer_satisfaction bs.
Proof.
  unfold _execute_business_actions.
  destruct (_ =? 1)%Z; [|destruct (_ =? 2)%Z]; try reflexivity.
  - destruct (Qle_bool 1000 (cash_flow bs)); [|reflexivity].
    now rewrite boost_demand_trends_satisfaction.
  - destruct (Qle_bool 2500 (cash_flow bs)); [|reflexivity].
    now rewrite boost_demand_trends_satisfaction.
Qed.

Lemma _update_business_state_satisfaction bs daily_results :
  customer_satisfaction (_update_business_state bs daily_results)
  = customer_satisfaction bs.
Proof.
  unfold _update_business_state.
  destruct (Py.Qltb 0 _); [destruct (Py.Qltb 0 _)|]; reflexivity.
Qed.

Lemma simulate_product_satisfaction dv acc ip :
  0 < customer_satisfaction (loop_state acc) <= 1 ->
  0 < customer_satisfaction (loop_state (simulate_product dv acc ip)) <= 1.
Proof.
  destruct ip as [i product]. unfold simulate_product. cbn [loop_state].
  match goal with |- context [if ?c then _ else _] => destruct c end;
    cbn [customer_satisfaction set_days_since_restock set_customer_satisfaction
         set_stockout_days set_inventory_levels]; intros H; lra.
Qed.

Lemma _simulate_daily_operations_satisfaction dv bs :
  0 < customer_satisfaction bs <= 1 ->
  0 < customer_satisfaction (fst (_simulate_daily_operations dv bs)) <= 1.
Proof.
  intros Hs. unfold _simulate_daily_operations.
  assert (0 < customer_satisfaction
                (loop_state
                   (fold_left (simulate_product dv) (enumerate products)
                      {| loop_state := bs; loop_revenue := 0; loop_costs := 0;
                         loop_units_sold := 0; loop_stockouts := 0 |})) <= 1)
    as H.
  { apply (fold_left_preserves
             (fun acc => 0 < customer_satisfaction (loop_state acc) <= 1));
      [|exact Hs].
    intros acc ip. apply simulate_product_satisfaction. }
  revert H.
  generalize (fold_left (simulate_product dv) (enumerate products)
                {| loop_state := bs; loop_revenue := 0; loop_costs := 0;
                   loop_units_sold := 0; loop_stockouts := 0 |}).
  intros acc H. cbn [fst].
  destruct (loop_stockouts acc =? 0)%Z; [|exact H].
  cbn [customer_satisfaction set_customer_satisfaction]. py_cases; lra.
Qed.

Lemma step_satisfaction env inp r :
  step env inp = Some r ->
  0 < customer_satisfaction (business_state env) <= 1 ->
  0 < customer_satisfaction (business_state (next_env r)) <= 1.
Proof.
  unfold step. destruct (in_action_space (action inp)); [|discriminate].
  intros H Hs. injection H as <-. unfold step_from_restock.
  rewrite <- _process_supplier_deliveries_satisfaction in Hs.
  pose proof (restock_loop_satisfaction (take num_products (action inp))
                (enumerate products)
                (_process_supplier_deliveries (business_state env), 0)) as H2.
  destruct (fold_left _ (enumerate products) _) as [bs2 costs].
  cbn [fst] in H2. rewrite <- H2 in Hs.
  rewrite <- (_execute_business_actions_satisfaction bs2
                (drop num_products (action inp))) in Hs.
  apply (_simulate_daily_operations_satisfaction (demand_variance inp)) in Hs.
  destruct (_simulate_daily_operations _ _) as [bs4 results].
  cbn [fst] in Hs. cbn [next_env business_state].
  now rewrite _update_business_state_satisfaction.
Qed.

(** X20. In every episode the customer satisfaction stays a fraction: after
    every step it is above zero and at most one. *)
Theorem run_customer_satisfaction d inputs env :
  draws_in_range d ->
  run (reset d) inputs = Some env ->
  0 < customer_satisfaction (business_state env) <= 1.
Proof.
  intros (_ & _ & _ & _ & _ & Hcs & _) Hrun.
  assert (0 < customer_satisfaction (business_state (reset d)) <= 1) as H0.
  { cbn [reset business_state _create_business_state customer_satisfaction].
    lra. }
  revert H0 Hrun. generalize (reset d). clear Hcs.
  induction inputs as [|inp inputs IH]; intros e H0; simpl.
  - intros H. now injection H as <-.
  - destruct (step e inp) as [r|] eqn:E; [|discriminate].
    intros H. apply (IH _ (step_satisfaction _ _ _ E H0) H).
Qed.

(** *** The length of an episode *)

Lemma step_days env inp r :
  step env inp = Some r ->
  days_remaining (next_env r) = (days_remaining env - 1)%Z
  /\ terminated r = (days_remaining env - 1 <=? 0)%Z.
Proof.
  unfold step. destruct (in_action_space (action inp)); [|discriminate].
  intros H. injection H as <-. unfold step_from_restock.
  destruct (fold_left _ _ _) as [bs2 costs].
  destruct (_simulate_daily_operations _ _) as [bs4 results].
  split; reflexivity.
Qed.

Lemma run_days inputs : forall env env',
  run env inputs = Some env' ->
  days_remaining env' = (days_remaining env - Z.of_nat (length inputs))%Z.
Proof.
  induction inputs as [|inp inputs IH]; intros env env'; simpl run.
  - intros H. injection H as <-. simpl. lia.
  - destruct (step env inp) as [r|] eqn:E; [|discriminate].
    intros H. apply IH in H. apply step_days in E as [E _].
    rewrite H, E. cbn [length]. lia.
Qed.

(** X21. An episode lasts ninety steps: after [n] steps ninety minus [n] days
    remain, and a step reports the end of the episode exactly when at
    least eighty-nine steps came before it. Steps after the end are not
    refused: the days remaining go below zero. *)
Theorem episode_length d inputs env inp r :
  run (reset d) inputs = Some env ->
  step env inp = Some r ->
  days_remaining env = (90 - Z.of_nat (length inputs))%Z
  /\ days_remaining (next_env r) = (89 - Z.of_nat (length inputs))%Z
  /\ (terminated r = true <-> (89 <= length inputs)%nat).
Proof.
  intros Hrun Hstep. apply run_days in Hrun.
  apply step_days in Hstep as [Hd Ht].
  cbn [reset days_remaining] in Hrun. unfold max_days in Hrun.
  split; [exact Hrun|]. split; [lia|].
  rewrite Ht, Z.leb_le. lia.
Qed.

(** *** Deliveries *)

Lemma fold_receive_inventory idx l : forall bs,
  (idx < length (inventory_levels bs))%nat ->
  length (inventory_levels (fold_left (receive idx) l bs))
  = length (inventory_levels bs)
  /\ zget (inventory_levels (fold_left (receive idx) l bs)) idx
     = (zget (inventory_levels bs) idx
        + foldr Z.add 0 (map Order.quantity l))%Z
  /\ forall i, i <> idx ->
       zget (inventory_levels (fold_left (receive idx) l bs)) i
       = zget (inventory_levels bs) i.
Proof.
  induction l as [|o l IH]; intros bs Hi.
  - simpl. repeat split; lia.
  - cbn [fold_left map foldr].
    assert (idx < length (inventory_levels (receive idx bs o)))%nat as Hi'.
    { unfold receive. cbn [inventory_levels set_inventory_levels].
      now rewrite length_insert. }
    destruct (IH (receive idx bs o) Hi') as (Hl & Hz & Ho).
    assert (inventory_levels (receive idx bs o)
            = <[idx := (zget (inventory_levels bs) idx + Order.quantity o)%Z]>
                (inventory_levels bs)) as Er by reflexivity.
    rewrite Er in Hl, Hz, Ho.
    rewrite length_insert in Hl.
    split; [exact Hl|]. split.
    + rewrite Hz. destruct (zget_insert (inventory_levels bs) idx
                              (zget (inventory_levels bs) idx + Order.quantity o)%Z)
        as (_ & E & _).
      rewrite E by exact Hi. lia.
    + intros i Hne. rewrite Ho by exact Hne.
      apply zget_insert_ne. congruence.
Qed.

Lemma quantity_filter_split (p : Order -> bool) (l : list Order) :
  (foldr Z.add 0 (map Order.quantity (List.filter p l))
   + foldr Z.add 0 (map Order.quantity (List.filter (fun o => negb (p o)) l))
   = foldr Z.add 0 (map Order.quantity l))%Z.
Proof.
  induction l as [|o l IH]; [reflexivity|].
  cbn [List.filter]. destruct (p o); cbn [negb map foldr]; lia.
Qed.

Lemma quantity_map_age (l : list Order) :
  map Order.quantity (map age l) = map Order.quantity l.
Proof. induction l as [|o l IH]; [reflexivity|]. simpl. now rewrite IH. Qed.

Lemma deliver_product_units bs idx i :
  length (inventory_levels bs) = num_products ->
  (idx < num_products)%nat ->
  length (inventory_levels (deliver_product bs idx)) = num_products
  /\ (zget (inventory_levels (deliver_product bs idx)) i
      + units_in_transit (deliver_product bs idx) i
      = zget (inventory_levels bs) i + units_in_transit bs i)%Z.
Proof.
  intros Hlen Hidx. rewrite deliver_product_unfold. cbv zeta.
  cbn [inventory_levels set_pending_orders].
  assert (idx < length (inventory_levels bs))%nat as Hi by lia.
  destruct (fold_receive_inventory idx
              (List.filter arrives (map age (orders_of bs idx))) bs Hi)
    as (Hl & Hz & Ho).
  split; [lia|].
  unfold units_in_transit.
  assert (forall P b j, orders_of (set_pending_orders P b) j = default [] (P !! j))
    as Eo by reflexivity.
  rewrite Eo, fold_receive_pending.
  destruct (decide (i = idx)) as [->|Hne].
  - rewrite lookup_insert_eq. cbn [default]. rewrite Hz.
    pose proof (quantity_filter_split arrives (map age (orders_of bs idx))) as Hs.
    rewrite quantity_map_age in Hs. unfold id. lia.
  - rewrite lookup_insert_ne by congruence. rewrite Ho by exact Hne.
    reflexivity.
Qed.

(** X22. The deliveries that open a step lose and create no unit: for every
    product, the units in stock and the units in transit add up to what
    they did before. Deliveries are not paid for either: the cash was taken
    when the order was placed. *)
Theorem _process_supplier_deliveries_units bs i :
  length (inventory_levels bs) = num_products ->
  (zget (inventory_levels (_process_supplier_deliveries bs)) i
   + units_in_transit (_process_supplier_deliveries bs) i
   = zget (inventory_levels bs) i + units_in_transit bs i)%Z
  /\ cash_flow (_process_supplier_deliveries bs) = cash_flow bs.
Proof.
  intros Hlen. split; [|apply _process_supplier_deliveries_cash_flow].
  unfold _process_supplier_deliveries.
  apply (fold_left_preserves_in
           (fun b => length (inventory_levels b) = num_products
                     /\ (zget (inventory_levels b) i + units_in_transit b i
                         = zget (inventory_levels bs) i + units_in_transit bs i)%Z)
           deliver_product (seq 0 num_products)); [|auto].
  intros b idx Hin [Hl Hs]. apply in_seq in Hin.
  destruct (deliver_product_units b idx i Hl) as [Hl' Hs']; [lia|].
  split; [exact Hl' | lia].
Qed.

(** *** Orders in transit *)

(** X23. An order in transit, for any product and of any quantity, with more
    days to go than the steps that follow, does not influence the run:
    the inventory levels are those of the run without the order, which is
    still in transit with its days counted down. When one day is left,
    the deliveries that open the next step add its quantity to the
    inventory of its product. *)
Theorem order_in_transit_arrives i o env envw inputs envw' :
  (i < num_products)%nat ->
  in_transit i o env envw ->
  (Z.of_nat (length inputs) < Order.days_remaining o)%Z ->
  run envw inputs = Some envw' ->
  exists env',
    run env inputs = Some env'
    /\ in_transit i (aged (length inputs) o) env' envw'
    /\ inventory_levels (business_state envw')
       = inventory_levels (business_state env')
    /\ cash_flow (business_state envw') = cash_flow (business_state env')
    /\ (Order.days_remaining o = (Z.of_nat (length inputs) + 1)%Z ->
        _process_supplier_deliveries (business_state envw')
        = add_inventory i (Order.quantity o)
            (_process_supplier_deliveries (business_state env'))).
Proof.
  intros Hi Ht Hlen Hrun.
  assert (aged 0 o = o) as E0.
  { destruct o as [q days c]. unfold aged. cbn [Order.quantity
      Order.days_remaining Order.cost]. f_equal. simpl. lia. }
  destruct (run_in_transit i o inputs 0 env envw envw' Hi) as (env' & Hr & Ht').
  - rewrite E0. exact Ht.
  - simpl. lia.
  - exact Hrun.
  - exists env'. split; [exact Hr|]. cbn [Nat.add] in Ht'.
    split; [exact Ht'|].
    destruct Ht' as (_ & pre & post & Hw).
    destruct (with_order_orders_of _ _ _ _ _ _ Hw) as (_ & _ & _ & Hinv & Hcash).
    split; [exact Hinv|]. split; [exact Hcash|].
    intros Hd.
    apply (_process_supplier_deliveries_arrival i pre _ post _ _ Hi Hw).
    unfold arrives, age, aged. cbn [Order.days_remaining].
    apply Z.leb_le. lia.
Qed.

(** *** Purchases *)

Lemma restock_loop_cash product_actions : forall acc,
  let bs' := fst (fold_left (restock_product product_actions)
                    (enumerate products) acc) in
  cash_flow bs' <= cash_flow (fst acc)
  /\ (0 <= cash_flow (fst acc) -> 0 <= cash_flow bs')
  /\ (cash_flow (fst acc) < 0 -> bs' = fst acc).
Proof.
  intros acc.
  apply (fold_left_preserves_in
           (fun a => cash_flow (fst a) <= cash_flow (fst acc)
                     /\ (0 <= cash_flow (fst acc) -> 0 <= cash_flow (fst a))
                     /\ (cash_flow (fst acc) < 0 -> fst a = fst acc)));
    [|repeat split; auto; lra].
  intros a [i product] Hin (H1 & H2 & H3). rewrite restock_product_fst.
  cbn [fst snd].
  destruct (0 <? _)%Z; [|auto].
  rewrite _execute_restock_action_placed.
  destruct (placed_order (cash_flow (fst a)) product
              (zget product_actions i)) as [o|] eqn:E; [|auto].
  apply enumerate_lookup, lookup_In in Hin.
  destruct (placed_order_cost _ _ _ _ Hin E) as [[Hc0 Hc1] _].
  unfold place_order.
  cbn [cash_flow set_days_since_restock set_cash_flow set_pending_orders].
  split; [lra|]. split; [intros; lra|].
  intros Hneg. rewrite (H3 Hneg) in Hc1. lra.
Qed.

Lemma _execute_business_actions_cash bs business_actions :
  let bs' := _execute_business_actions bs business_actions in
  cash_flow bs' <= cash_flow bs
  /\ (0 <= cash_flow bs -> 0 <= cash_flow bs')
  /\ (cash_flow bs < 0 -> bs' = bs).
Proof.
  unfold _execute_business_actions.
  destruct (_ =? 1)%Z; [|destruct (_ =? 2)%Z];
    try (repeat split; auto; lra).
  - destruct (Qleb_spec 1000 (cash_flow bs)) as [H|H];
      [|repeat split; auto; lra].
    destruct (boost_demand_trends_frame (11 # 10)
                (set_cash_flow (cash_flow bs - 1000) bs)) as (_ & _ & ->).
    cbn [cash_flow set_cash_flow]. repeat split; intros; lra.
  - destruct (Qleb_spec 2500 (cash_flow bs)) as [H|H];
      [|repeat split; auto; lra].
    destruct (boost_demand_trends_frame (12 # 10)
                (set_cash_flow (cash_flow bs - 2500) bs)) as (_ & _ & ->).
    cbn [cash_flow set_cash_flow]. repeat split; intros; lra.
Qed.

(** X24. The purchases of a step, its restocks and its marketing, never
    overdraw: they do not raise the cash, they leave a cash flow that is
    not negative not negative, and with a negative cash flow they change
    nothing. The step goes on, from the state they leave, with the day of
    operations and the update of the accounts. *)
Theorem step_purchases_never_overdraw env inp r :
  step env inp = Some r ->
  let bs := business_state env in
  let bought :=
    after_purchases (_process_supplier_deliveries bs) (action inp) in
  cash_flow bought <= cash_flow bs
  /\ (0 <= cash_flow bs -> 0 <= cash_flow bought)
  /\ (cash_flow bs < 0 -> bought = _process_supplier_deliveries bs)
  /\ business_state (next_env r)
     = _update_business_state
         (fst (_simulate_daily_operations (demand_variance inp) bought))
         (snd (_simulate_daily_operations (demand_variance inp) bought)).
Proof.
  intros Hstep bs bought.
  pose proof (restock_loop_cash (take num_products (action inp))
                (_process_supplier_deliveries bs, 0)) as Hr.
  pose proof (_process_supplier_deliveries_cash_flow bs) as Hd.
  cbv zeta in Hr. cbn [fst] in Hr. rewrite Hd in Hr.
  destruct Hr as (Hr1 & Hr2 & Hr3).
  pose proof (_execute_business_actions_cash
                (fst (fold_left (restock_product (take num_products (action inp)))
                        (enumerate products)
                        (_process_supplier_deliveries bs, 0)))
                (drop num_products (action inp))) as Hb.
  cbv zeta in Hb. fold (after_purchases (_process_supplier_deliveries bs)
                          (action inp)) in Hb. fold bought in Hb.
  destruct Hb as (Hb1 & Hb2 & Hb3).
  split; [lra|]. split; [auto|]. split.
  - intros Hneg. etransitivity; [apply Hb3 | exact (Hr3 Hneg)].
    rewrite (Hr3 Hneg), Hd. exact Hneg.
  - unfold step in Hstep.
    destruct (in_action_space (action inp)); [|discriminate].
    injection Hstep as <-. unfold step_from_restock, bought, after_purchases.
    fold bs.
    destruct (fold_left _ (enumerate products) _) as [bs2 costs]. cbn [fst].
    destruct (_simulate_daily_operations _ _) as [bs4 results]. reflexivity.
Qed.

End SimulatorEpisode.

Lemma run_customer_satisfaction_witness :
  match Env.run (Env.reset Env.example_draws)
          [Env.example_restock; Env.example_idle] with
  | Some env => 0 < Env.customer_satisfaction (Env.business_state env) <= 1
  | None => False
  end.
Proof.
  destruct (Env.run (Env.reset Env.example_draws)
              [Env.example_restock; Env.example_idle]) as [env|] eqn:E.
  - exact (run_customer_satisfaction Env.example_draws
             [Env.example_restock; Env.example_idle] env
             example_draws_in_range E).
  - vm_compute in E. discriminate E.
Defined.

Lemma episode_length_witness :
  exists env r,
    Env.run (Env.reset Env.example_draws) [Env.example_restock] = Some env
    /\ Env.step env Env.example_idle = Some r
    /\ Env.days_remaining (Env.next_env r) = 88%Z.
Proof.
  destruct (Env.run (Env.reset Env.example_draws) [Env.example_restock])
    as [env|] eqn:E; [|vm_compute in E; discriminate E].
  pose (r := Env.step_from_restock (Env.days_remaining env) Env.example_idle
               (Env.enumerate Env.products)
               (Env._process_supplier_deliveries (Env.business_state env), 0)).
  assert (Env.step env Env.example_idle = Some r) as Hs by reflexivity.
  exists env, r. split; [reflexivity|]. split; [exact Hs|].
  exact (proj1 (proj2 (episode_length Env.example_draws [Env.example_restock]
                         env Env.example_idle r E Hs))).
Defined.

Lemma _process_supplier_deliveries_units_witness :
  length (Env.inventory_levels (Env.business_state (Env.reset Env.example_draws)))
  = Env.num_products
  /\ Env.cash_flow
       (Env._process_supplier_deliveries
          (Env.business_state (Env.reset Env.example_draws)))
     = 30000.
Proof.
  split; [reflexivity|].
  exact (proj2 (_process_supplier_deliveries_units
                  (Env.business_state (Env.reset Env.example_draws)) 0
                  eq_refl)).
Defined.

Lemma order_in_transit_arrives_witness :
  exists r envw' env',
    Env.step (Env.reset Env.example_draws) Env.example_restock = Some r
    /\ Env.run (Env.next_env r) (replicate 6 Env.example_idle) = Some envw'
    /\ Env.run (Env.without_newest_order 0 (Env.next_env r))
         (replicate 6 Env.example_idle) = Some env'
    /\ Env.inventory_levels (Env.business_state envw')
       = Env.inventory_levels (Env.business_state env')
    /\ Env._process_supplier_deliveries (Env.business_state envw')
       = Env.add_inventory 0 200
           (Env._process_supplier_deliveries (Env.business_state env')).
Proof.
  pose (r := Env.step_from_restock
               (Env.days_remaining (Env.reset Env.example_draws))
               Env.example_restock (Env.enumerate Env.products)
               (Env._process_supplier_deliveries
                  (Env.business_state (Env.reset Env.example_draws)), 0)).
  assert (Env.step (Env.reset Env.example_draws) Env.example_restock = Some r)
    as Hs by reflexivity.
  destruct (Env.run (Env.next_env r) (replicate 6 Env.example_idle))
    as [envw'|] eqn:Hr; [|vm_compute in Hr; discriminate Hr].
  assert (Env.in_transit 0 (Env.Order.mk 200 7 5000)
            (Env.without_newest_order 0 (Env.next_env r)) (Env.next_env r))
    as Ht.
  { apply with_order_newest. exists []. reflexivity. }
  destruct (order_in_transit_arrives 0 (Env.Order.mk 200 7 5000)
              (Env.without_newest_order 0 (Env.next_env r)) (Env.next_env r)
              (replicate 6 Env.example_idle) envw')
    as (env' & He & _ & Hinv & _ & Harr).
  - unfold Env.num_products. simpl. lia.
  - exact Ht.
  - simpl. lia.
  - exact Hr.
  - exists r, envw', env'. split; [exact Hs|]. split; [exact Hr|].
    split; [exact He|]. split; [exact Hinv | exact (Harr eq_refl)].
Defined.

Lemma step_purchases_never_overdraw_witness :
  exists r,
    Env.step (Env.reset Env.example_draws) Env.example_spend = Some r
    /\ 0 <= Env.cash_flow
              (Env.after_purchases
                 (Env._process_supplier_deliveries
                    (Env.business_state (Env.reset Env.example_draws)))
                 (Env.action Env.example_spend)).
Proof.
  pose (r := Env.step_from_restock
               (Env.days_remaining (Env.reset Env.example_draws))
               Env.example_spend (Env.enumerate Env.products)
               (Env._process_supplier_deliveries
                  (Env.business_state (Env.reset Env.example_draws)), 0)).
  assert (Env.step (Env.reset Env.example_draws) Env.example_spend = Some r)
    as Hs by reflexivity.
  exists r. split; [exact Hs|].
  apply (proj1 (proj2 (step_purchases_never_overdraw
                         (Env.reset Env.example_draws) Env.example_spend r Hs))).
  discriminate.
Defined.

(** ** Recommendations *)

Section Recommendations.

Import Training.

Lemma insert_by_score_perm rec ranked :
  insert_by_score rec ranked ≡ₚ rec :: ranked.
Proof.
  induction ranked as [|r rest IH]; [reflexivity|].
  cbn [insert_by_score]. destruct (Py.Qltb _ _); [|reflexivity].
  rewrite IH. apply Permutation_swap.
Qed.

Lemma ranked_by_score_cons r l :
  ranked_by_score l ->
  (forall x, In x l -> score_recommendation x <= score_recommendation r) ->
  ranked_by_score (r :: l).
Proof. destruct l as [|x l]; [easy|]. intros H Hall. split; [apply Hall; now left | exact H]. Qed.

Lemma ranked_by_score_head r l :
  ranked_by_score (r :: l) ->
  forall x, In x l -> score_recommendation x <= score_recommendation r.
Proof.
  revert r. induction l as [|y l IH]; intros r H x Hin; [contradiction|].
  destruct H as [Hy Hl]. destruct Hin as [<- | Hin]; [exact Hy|].
  eapply Qle_trans; [apply (IH y Hl x Hin) | exact Hy].
Qed.

Lemma ranked_by_score_tail r l : ranked_by_score (r :: l) -> ranked_by_score l.
Proof. destruct l; [easy|]. now intros [_ H]. Qed.

Lemma insert_by_score_ranked rec ranked :
  ranked_by_score ranked -> ranked_by_score (insert_by_score rec ranked).
Proof.
  induction ranked as [|r rest IH]; intros H; [exact I|].
  cbn [insert_by_score].
  destruct (Qltb_spec (score_recommendation rec) (score_recommendation r))
    as [Hlt|Hge].
  - apply ranked_by_score_cons; [apply IH; eapply ranked_by_score_tail, H|].
    intros x Hin.
    apply (Permutation_in _ (insert_by_score_perm rec rest)) in Hin.
    destruct Hin as [<- | Hin]; [lra|].
    now apply (ranked_by_score_head r rest).
  - split; [lra | exact H].
Qed.

Lemma insert_by_score_filter (p : ActionInfo -> bool) rec ranked :
  (forall r, p rec = true -> p r = true ->
             ~ score_recommendation rec < score_recommendation r) ->
  List.filter p (insert_by_score rec ranked)
  = List.filter p (rec :: ranked).
Proof.
  intros Hp. induction ranked as [|r rest IH]; [reflexivity|].
  cbn [insert_by_score].
  destruct (Qltb_spec (score_recommendation rec) (score_recommendation r))
    as [Hlt|Hge]; [|reflexivity].
  cbn [List.filter] in *. rewrite IH.
  destruct (p rec) eqn:Er, (p r) eqn:Ep; try reflexivity.
  exfalso. exact (Hp r eq_refl Ep Hlt).
Qed.

(** X25. The ranking is a stable sort by descending score: it holds the
    entries of the input, each as often as the input; the scores do not
    increase along it, so that its first entry, the recommendation made,
    has the highest score of all; and the entries of equal score keep the
    order they have in the input. *)
Theorem _rank_recommendations_sorted recommendations :
  _rank_recommendations recommendations ≡ₚ recommendations
  /\ ranked_by_score (_rank_recommendations recommendations)
  /\ (forall best rest,
        _rank_recommendations recommendations = best :: rest ->
        forall rec, In rec recommendations ->
                    score_recommendation rec <= score_recommendation best)
  /\ (forall s,
        List.filter (fun r => Qeq_bool (score_recommendation r) s)
          (_rank_recommendations recommendations)
        = List.filter (fun r => Qeq_bool (score_recommendation r) s)
            recommendations).
Proof.
  assert (_rank_recommendations recommendations ≡ₚ recommendations) as Hperm.
  { unfold _rank_recommendations.
    induction recommendations as [|r l IH]; [reflexivity|].
    cbn [foldr]. rewrite insert_by_score_perm. now rewrite IH. }
  assert (ranked_by_score (_rank_recommendations recommendations)) as Hsorted.
  { clear Hperm. unfold _rank_recommendations.
    induction recommendations as [|r l IH]; [exact I|].
    cbn [foldr]. apply insert_by_score_ranked, IH. }
  split; [exact Hperm|]. split; [exact Hsorted|]. split.
  - intros best rest E rec Hin.
    apply (Permutation_in _ (Permutation_sym Hperm)) in Hin.
    rewrite E in Hin, Hsorted.
    destruct Hin as [<- | Hin]; [lra|].
    now apply (ranked_by_score_head best rest).
  - intros s. unfold _rank_recommendations. clear Hperm Hsorted.
    induction recommendations as [|r l IH]; [reflexivity|].
    cbn [foldr]. rewrite insert_by_score_filter.
    + cbn [List.filter]. now rewrite IH.
    + intros r' H1 H2 Hlt. apply Qeq_bool_eq in H1, H2. lra.
Qed.

(** Two entries of equal score keep their order behind a better one. *)
Example _rank_recommendations_example :
  map product (_rank_recommendations example_actions)
  = ["Tech Pro Wireless Mouse"; "Premium Athletic Socks";
     "Protein Powder Vanilla"]%string.
Proof. reflexivity. Qed.

Lemma roi_confidence_range (roi_value : Q) :
  0 <= Py.min 1 (Py.max 0 (roi_value / 100)) <= 1.
Proof. apply clamp_bounds. lra. Qed.

(** X26. The confidence of an action lies in [0, 1]. It is the weighted sum
    of the clamped expected ROI and the average accuracy of the outcomes
    tracked so far (the clamp around the sum never applies), and it does
    not decrease with the expected ROI. *)
Theorem _calculate_action_confidence_range self action_info :
  let confidence := _calculate_action_confidence self action_info in
  let historical_accuracy :=
    Tracker.average_roi_accuracy
      (Tracker.summary (Tracker.get_training_data (outcome_tracker self))) in
  0 <= confidence <= 1
  /\ confidence
     == (6 # 10) * Py.min 1 (Py.max 0 (expected_roi action_info / 100))
        + (4 # 10) * historical_accuracy
  /\ (4 # 10) * historical_accuracy <= confidence
     <= (6 # 10) + (4 # 10) * historical_accuracy.
Proof.
  intros confidence acc.
  pose proof (average_roi_accuracy_range (outcome_tracker self)) as Ha.
  pose proof (roi_confidence_range (expected_roi action_info)) as Hr.
  unfold confidence, acc, _calculate_action_confidence. clear confidence acc.
  generalize dependent (Tracker.average_roi_accuracy
                          (Tracker.summary
                             (Tracker.get_training_data (outcome_tracker self)))).
  generalize dependent (Py.min 1 (Py.max 0 (expected_roi action_info / 100))).
  intros c Hc a Ha. py_cases; py_cases_in_hyps; repeat split; lra.
Qed.

(** X27. While no outcome is completed the average accuracy reported is zero,
    not a neutral value: the confidence of every action is at most 0.6,
    no recommendation is rated ["high"], and one is rated ["medium"]
    exactly when its expected ROI is at least 100 %. *)
Theorem action_confidence_without_outcomes self action_info :
  Tracker.outcomes (Tracker.get_training_data (outcome_tracker self)) = [] ->
  let confidence := _calculate_action_confidence self action_info in
  0 <= confidence <= 6 # 10
  /\ _map_confidence_to_level confidence <> "high"%string
  /\ (_map_confidence_to_level confidence = "medium"%string
      <-> 100 <= expected_roi action_info).
Proof.
  intros Hnone confidence.
  assert (Tracker.average_roi_accuracy
            (Tracker.summary (Tracker.get_training_data (outcome_tracker self)))
          = 0) as Hacc.
  { revert Hnone. unfold Tracker.get_training_data.
    cbn [Tracker.outcomes Tracker.summary Tracker.average_roi_accuracy].
    now intros ->. }
  assert (confidence
          == (6 # 10) * Py.min 1 (Py.max 0 (expected_roi action_info / 100)))
    as Hc.
  { unfold confidence, _calculate_action_confidence. rewrite Hacc.
    pose proof (roi_confidence_range (expected_roi action_info)) as Hr.
    generalize dependent (Py.min 1 (Py.max 0 (expected_roi action_info / 100))).
    intros c Hr. py_cases; py_cases_in_hyps; lra. }
  pose proof (roi_confidence_range (expected_roi action_info)) as Hr.
  assert (Py.min 1 (Py.max 0 (expected_roi action_info / 100)) == 1
          <-> 100 <= expected_roi action_info) as Hone.
  { assert (expected_roi action_info / 100 * 100 == expected_roi action_info)
      as E by (field; lra).
    generalize dependent (expected_roi action_info / 100). intros q Hr E.
    py_cases; py_cases_in_hyps; split; intros; lra. }
  generalize dependent (Py.min 1 (Py.max 0 (expected_roi action_info / 100))).
  intros c Hc Hr Hone.
  split; [split; lra|].
  unfold _map_confidence_to_level.
  destruct (Qleb_spec (8 # 10) confidence) as [H8|H8]; [lra|].
  destruct (Qleb_spec (6 # 10) confidence) as [H6|H6].
  - split; [discriminate|]. split; [intros _|reflexivity].
    apply Hone. lra.
  - split; [discriminate|]. split; [discriminate|].
    intros H. apply Hone in H. lra.
Qed.

End Recommendations.

Lemma action_confidence_without_outcomes_witness :
  Tracker.outcomes
    (Tracker.get_training_data
       (Training.outcome_tracker
          {| Training.outcome_tracker := Tracker.example_tracker true [];
             Training.retraining_threshold := 10;
             Training.training_metrics := [] |})) = []
  /\ Training._map_confidence_to_level
       (Training._calculate_action_confidence
          {| Training.outcome_tracker := Tracker.example_tracker true [];
             Training.retraining_threshold := 10;
             Training.training_metrics := [] |}
          (Training.example_action "Tech Pro Wireless Mouse" 99 2500))
     <> "high"%string.
Proof.
  split; [reflexivity|].
  exact (proj1 (proj2 (action_confidence_without_outcomes
                         {| Training.outcome_tracker :=
                              Tracker.example_tracker true [];
                            Training.retraining_threshold := 10;
                            Training.training_metrics := [] |}
                         (Training.example_action "Tech Pro Wireless Mouse"
                            99 2500) eq_refl))).
Defined.

(** ** Curriculum stages: the budget *)

Section CurriculumBudget.

Import Curriculum.

(** X28. Whatever the training budget, the curriculum has four stages of a
    quarter of the budget each, rounded down: together they receive the
    budget less its remainder by four, up to three timesteps short. *)
Theorem curriculum_stage_timesteps config :
  let stages := create_curriculum_stages config in
  length stages = 4%nat
  /\ Forall (fun s => timesteps s = (total_timesteps config / 4)%Z) stages
  /\ total_stage_timesteps stages
     = (total_timesteps config - total_timesteps config mod 4)%Z
  /\ (total_timesteps config - 3 <= total_stage_timesteps stages
      <= total_timesteps config)%Z.
Proof.
  intros stages. unfold stages, create_curriculum_stages, total_stage_timesteps.
  cbn [length map timesteps fold_left].
  pose proof (Z.div_mod (total_timesteps config) 4).
  pose proof (Z.mod_pos_bound (total_timesteps config) 4).
  split; [reflexivity|]. split; [repeat constructor|]. split; lia.
Qed.

End CurriculumBudget.
